(** * Marriage registry: a shallow embedding of the two Solidity contracts

    [MarriageRegistry.sol] (address-bound identities, Merkle membership) and
    [RealMarriageRegistry.sol] (nullifier-bound identities) are embedded as
    state-passing programs in a small revert monad.  Storage mappings are
    finite maps read with the Solidity default value, [keccak256] is a
    parameter of each contract, and an executable Keccak-256 is supplied to
    run the contracts on concrete transactions. *)

From Stdlib Require Import NArith ZArith List Lia Bool.
From Stdlib.Strings Require Import Byte.
From stdpp Require Import base gmap strings list.
Import ListNotations.

Local Open Scope Z_scope.

(** ** Solidity value types *)

Abbreviation bytes32 := Z (only parsing).
Abbreviation uint256 := Z (only parsing).
Abbreviation address := Z (only parsing).
Abbreviation bytes := (list byte) (only parsing).

(** ** Keccak-256 (the EVM [keccak256] builtin) *)

Module Keccak.
Local Open Scope N_scope.

Definition mask64 : N := 0xFFFFFFFFFFFFFFFF.

Definition rotl64 (x r : N) : N :=
  N.lor (N.land (N.shiftl x r) mask64) (N.shiftr x (64 - r)).

Definition round_constants : list N :=
  [ 0x0000000000000001; 0x0000000000008082; 0x800000000000808A;
    0x8000000080008000; 0x000000000000808B; 0x0000000080000001;
    0x8000000080008081; 0x8000000000008009; 0x000000000000008A;
    0x0000000000000088; 0x0000000080008009; 0x000000008000000A;
    0x000000008000808B; 0x800000000000008B; 0x8000000000008089;
    0x8000000000008003; 0x8000000000008002; 0x8000000000000080;
    0x000000000000800A; 0x800000008000000A; 0x8000000080008081;
    0x8000000000008080; 0x0000000080000001; 0x8000000080008008 ].

(** Rotation offsets; lane (x, y) sits at position x + 5 y. *)
Definition rotation_offsets : list N :=
  [ 0; 1; 62; 28; 27;
    36; 44; 6; 55; 20;
    3; 10; 43; 25; 39;
    41; 45; 15; 21; 8;
    18; 2; 61; 56; 14 ].

Definition lane (A : list N) (x y : nat) : N :=
  nth ((x mod 5) + 5 * (y mod 5))%nat A 0.

Definition theta (A : list N) : list N :=
  let C := map (fun x => N.lxor (lane A x 0) (N.lxor (lane A x 1)
             (N.lxor (lane A x 2) (N.lxor (lane A x 3) (lane A x 4)))))
               (seq 0 5) in
  let D := map (fun x => N.lxor (nth ((x + 4) mod 5)%nat C 0)
                                (rotl64 (nth ((x + 1) mod 5)%nat C 0) 1))
               (seq 0 5) in
  map (fun i => N.lxor (nth i A 0) (nth (i mod 5)%nat D 0)) (seq 0 25).

(** B[y, 2x+3y] = rot (A[x, y]); the lane that lands on (X, Y) comes from
    x = X + 3Y, y = X. *)
Definition rho_pi (A : list N) : list N :=
  map (fun i => let X := (i mod 5)%nat in
                let Y := (i / 5)%nat in
                let x := ((X + 3 * Y) mod 5)%nat in
                rotl64 (lane A x X) (nth (x + 5 * X)%nat rotation_offsets 0))
      (seq 0 25).

Definition chi (B : list N) : list N :=
  map (fun i => let x := (i mod 5)%nat in
                let y := (i / 5)%nat in
                N.lxor (lane B x y)
                       (N.land (N.lxor (lane B (x + 1) y) mask64)
                               (lane B (x + 2) y)))
      (seq 0 25).

Definition iota (rc : N) (A : list N) : list N :=
  match A with
  | a :: rest => N.lxor a rc :: rest
  | [] => []
  end.

Definition round (A : list N) (rc : N) : list N :=
  iota rc (chi (rho_pi (theta A))).

Definition keccak_f (A : list N) : list N := fold_left round round_constants A.

Fixpoint le_to_N (bs : list N) : N :=
  match bs with
  | [] => 0
  | b :: r => b + 256 * le_to_N r
  end.

Fixpoint N_to_le (n : nat) (v : N) : list N :=
  match n with
  | O => []
  | S k => (v mod 256) :: N_to_le k (v / 256)
  end.

Fixpoint chunks (count size : nat) (l : list N) : list (list N) :=
  match count with
  | O => []
  | S c => match l with
           | [] => []
           | _ => firstn size l :: chunks c size (skipn size l)
           end
  end.

(** Rate of Keccak-256 in bytes (1088 bits). *)
Definition rate : nat := 136.

(** Original Keccak padding: 0x01, zeros, 0x80 (0x81 when one byte fits). *)
Definition pad (msg : list N) : list N :=
  let q := (rate - (length msg mod rate))%nat in
  match q with
  | 1%nat => msg ++ [0x81]
  | _ => msg ++ [0x01] ++ repeat 0 (q - 2) ++ [0x80]
  end.

Definition absorb (A : list N) (block : list N) : list N :=
  let lanes := map le_to_N (chunks 17 8 block) in
  keccak_f (map (fun i => N.lxor (nth i A 0) (nth i lanes 0)) (seq 0 25)).

Definition digest (msg : list N) : list N :=
  let p := pad msg in
  let A := fold_left absorb (chunks (length p) rate p) (repeat 0 25) in
  concat (map (N_to_le 8) (firstn 4 A)).

Definition be_to_N (bs : list N) : N :=
  fold_left (fun acc b => acc * 256 + b) bs 0.

(** The 32-byte digest read as a big-endian [bytes32]. *)
Definition keccak256 (msg : list byte) : Z :=
  Z.of_N (be_to_N (digest (map Byte.to_N msg))).
End Keccak.

(** ** [abi.encodePacked] for the argument types the contracts use *)

Module Abi.
Definition byte_of_Z (v : Z) : byte :=
  default x00 (Byte.of_N (Z.to_N (v mod 256))).

Fixpoint le_bytes (n : nat) (v : Z) : list byte :=
  match n with
  | O => []
  | S k => byte_of_Z v :: le_bytes k (v / 256)
  end.

(** [n] bytes, most significant first, of [v] modulo 256^n. *)
Definition be_bytes (n : nat) (v : Z) : list byte := rev (le_bytes n v).

Definition enc_bytes32 (x : bytes32) : list byte := be_bytes 32 x.
Definition enc_uint256 (x : uint256) : list byte := be_bytes 32 x.
Definition enc_address (a : address) : list byte := be_bytes 20 a.
Definition enc_string (s : string) : list byte := String.list_byte_of_string s.

(** [bytes32(uint256(uint160(a)))]: the address zero-extended to a word. *)
Definition address_to_bytes32 (a : address) : bytes32 := a mod 2 ^ 160.
End Abi.

(** ** Execution monad: state passing with revert *)

Module EVM.
Inductive Error : Type :=
  | InvalidZKPassportProof
  | AlreadyMarried
  | ProposalNotFound
  | ProposalExpired
  | NotAuthorized
  | MarriageNotActive
  | NullifierAlreadyUsed
  | ErrorString (reason : string)
  | OwnableUnauthorizedAccount (account : address)
  | Panic (code : Z)
  | OutOfGas.

(** A call either returns a value with the storage it leaves, or reverts.
    [Revert] keeps the storage as it stood when the revert was raised, so
    that writes made before a failing check stay visible to the proofs;
    [transact] below is what discards them. *)
Inductive Outcome (S A : Type) : Type :=
  | Ok (a : A) (s : S)
  | Revert (e : Error) (s : S).
Global Arguments Ok {S A} a s.
Global Arguments Revert {S A} e s.

Definition Exec (S A : Type) : Type := S → Outcome S A.

Definition ret {S A} (a : A) : Exec S A := λ s, Ok a s.

Definition bind {S A B} (m : Exec S A) (k : A → Exec S B) : Exec S B :=
  λ s, match m s with
       | Ok a s' => k a s'
       | Revert e s' => Revert e s'
       end.

Global Instance exec_ret {S} : MRet (Exec S) := λ A, ret.
Global Instance exec_bind {S} : MBind (Exec S) := λ A B k m, bind m k.

Definition gets {S A} (f : S → A) : Exec S A := λ s, Ok (f s) s.
Definition modify {S} (f : S → S) : Exec S unit := λ s, Ok tt (f s).
Definition revert {S A} (e : Error) : Exec S A := λ s, Revert e s.

(** [if (c) revert E();] *)
Definition revert_if {S} (c : S → bool) (e : Error) : Exec S unit :=
  λ s, if c s then Revert e s else Ok tt s.

(** [require(c, "reason");] *)
Definition require {S} (c : S → bool) (reason : string) : Exec S unit :=
  λ s, if c s then Ok tt s else Revert (ErrorString reason) s.

(** The storage a transaction commits: a reverted call leaves the storage
    it started from. *)
Definition transact {S} (m : Exec S unit) (s : S) : S :=
  match m s with
  | Ok _ s' => s'
  | Revert _ _ => s
  end.

(** Reading a mapping slot: absent keys hold the zero value of the type. *)
Class ZeroValue (V : Type) := zero_value : V.
Global Instance zero_Z : ZeroValue Z := 0.
Global Instance zero_bool : ZeroValue bool := false.

Definition rd {V} `{ZeroValue V} (m : gmap Z V) (k : Z) : V :=
  default zero_value (m !! k).
End EVM.

Export EVM.


(** ** RealMarriageRegistry.sol: nullifier-bound identities *)

Module RealMarriageRegistry.

Record Marriage : Type := {
  spouse1Nullifier : bytes32;
  spouse2Nullifier : bytes32;
  proof1Hash : bytes32;
  proof2Hash : bytes32;
  marriageDate : uint256;
  isActive : bool;
  jurisdiction : string;
  certificateHash : bytes32
}.

Record MarriageProposal : Type := {
  proposerNullifier : bytes32;
  proposeeNullifier : bytes32;
  proposalHash : bytes32;
  timestamp : uint256;
  expiresAt : uint256;
  isAccepted : bool;
  isExpired : bool;
  proposalJurisdiction : string
}.

Global Instance zero_Marriage : ZeroValue Marriage :=
  {| spouse1Nullifier := 0; spouse2Nullifier := 0; proof1Hash := 0;
     proof2Hash := 0; marriageDate := 0; isActive := false;
     jurisdiction := EmptyString; certificateHash := 0 |}.

Global Instance zero_MarriageProposal : ZeroValue MarriageProposal :=
  {| proposerNullifier := 0; proposeeNullifier := 0; proposalHash := 0;
     timestamp := 0; expiresAt := 0; isAccepted := false; isExpired := false;
     proposalJurisdiction := EmptyString |}.

Inductive Event : Type :=
  | MarriageProposed (proposalId proposer proposee : bytes32) (jur : string)
  | MarriageCreated (marriageId spouse1 spouse2 : bytes32) (jur : string)
  | DivorceRequested (marriageId requester : bytes32)
  | MarriageDissolved (marriageId : bytes32)
  | ZKPassportVerifierUpdated (newVerifier : address)
  | OwnershipTransferred (previousOwner newOwner : address).

(** Contract storage, the owner slot inherited from Ownable, and the
    events emitted so far. *)
Record State : Type := {
  marriages : gmap Z Marriage;
  proposals : gmap Z MarriageProposal;
  nullifierToMarriage : gmap Z Z;
  usedNullifiers : gmap Z bool;
  zkPassportVerifier : address;
  owner : address;
  emitted : list Event
}.

(** Transaction context. *)
Record Env : Type := {
  msg_sender : address;
  block_timestamp : uint256
}.

Definition MINIMUM_AGE : uint256 := 18.

Definition set_marriages (f : gmap Z Marriage → gmap Z Marriage) (s : State) : State :=
  {| marriages := f (marriages s); proposals := proposals s;
     nullifierToMarriage := nullifierToMarriage s;
     usedNullifiers := usedNullifiers s;
     zkPassportVerifier := zkPassportVerifier s; owner := owner s;
     emitted := emitted s |}.

Definition set_proposals (f : gmap Z MarriageProposal → gmap Z MarriageProposal)
    (s : State) : State :=
  {| marriages := marriages s; proposals := f (proposals s);
     nullifierToMarriage := nullifierToMarriage s;
     usedNullifiers := usedNullifiers s;
     zkPassportVerifier := zkPassportVerifier s; owner := owner s;
     emitted := emitted s |}.

Definition set_nullifierToMarriage (f : gmap Z Z → gmap Z Z) (s : State) : State :=
  {| marriages := marriages s; proposals := proposals s;
     nullifierToMarriage := f (nullifierToMarriage s);
     usedNullifiers := usedNullifiers s;
     zkPassportVerifier := zkPassportVerifier s; owner := owner s;
     emitted := emitted s |}.

Definition set_usedNullifiers (f : gmap Z bool → gmap Z bool) (s : State) : State :=
  {| marriages := marriages s; proposals := proposals s;
     nullifierToMarriage := nullifierToMarriage s;
     usedNullifiers := f (usedNullifiers s);
     zkPassportVerifier := zkPassportVerifier s; owner := owner s;
     emitted := emitted s |}.

Definition set_zkPassportVerifier (v : address) (s : State) : State :=
  {| marriages := marriages s; proposals := proposals s;
     nullifierToMarriage := nullifierToMarriage s;
     usedNullifiers := usedNullifiers s;
     zkPassportVerifier := v; owner := owner s;
     emitted := emitted s |}.

Definition emit (e : Event) : Exec State unit :=
  modify (λ s,
    {| marriages := marriages s; proposals := proposals s;
       nullifierToMarriage := nullifierToMarriage s;
       usedNullifiers := usedNullifiers s;
       zkPassportVerifier := zkPassportVerifier s; owner := owner s;
       emitted := emitted s ++ [e] |}).

Definition with_isAccepted (b : bool) (p : MarriageProposal) : MarriageProposal :=
  {| proposerNullifier := proposerNullifier p;
     proposeeNullifier := proposeeNullifier p;
     proposalHash := proposalHash p; timestamp := timestamp p;
     expiresAt := expiresAt p; isAccepted := b; isExpired := isExpired p;
     proposalJurisdiction := proposalJurisdiction p |}.

Definition with_isActive (b : bool) (m : Marriage) : Marriage :=
  {| spouse1Nullifier := spouse1Nullifier m;
     spouse2Nullifier := spouse2Nullifier m;
     proof1Hash := proof1Hash m; proof2Hash := proof2Hash m;
     marriageDate := marriageDate m; isActive := b;
     jurisdiction := jurisdiction m; certificateHash := certificateHash m |}.

Section Contract.
(** The hash function behind [keccak256(...)]. *)
Variable keccak256 : list byte → bytes32.

(** [constructor(address _zkPassportVerifier) Ownable(msg.sender)]: the
    inherited constructor makes the deployer the owner and logs
    [OwnershipTransferred(address(0), msg.sender)]. *)
Definition constructor (env : Env) (_zkPassportVerifier : address) : State :=
  {| marriages := ∅; proposals := ∅; nullifierToMarriage := ∅;
     usedNullifiers := ∅; zkPassportVerifier := _zkPassportVerifier;
     owner := msg_sender env;
     emitted := [OwnershipTransferred 0 (msg_sender env)] |}.

(** [_verifyZKPassportProof] (internal view; it reads no storage). *)
Definition _verifyZKPassportProof (proof : bytes) (expectedNullifier : bytes32) : bool :=
  if (length proof =? 0)%nat then false
  else
    let proofHash := keccak256 proof in
    let derivedNullifier :=
      keccak256 (Abi.enc_bytes32 proofHash ++ Abi.enc_string "nullifier") in
    derivedNullifier =? expectedNullifier.

(** The four entry points below carry the [nonReentrant] modifier of
    OpenZeppelin's ReentrancyGuard.  None of them calls out of the
    contract, so the guard flag is clear at every entry and restored at
    every exit; it is left out of [State]. *)

Definition createMarriageProposal (env : Env)
    (proposalId proposerNullifier proposeeNullifier proposalHash : bytes32)
    (expirationTime : uint256) (jurisdiction : string)
    (zkPassportProof1 zkPassportProof2 : bytes) : Exec State unit :=
  revert_if (λ s, rd (usedNullifiers s) proposerNullifier) NullifierAlreadyUsed;;
  revert_if (λ s, rd (usedNullifiers s) proposeeNullifier) NullifierAlreadyUsed;;
  revert_if (λ s, negb (rd (nullifierToMarriage s) proposerNullifier =? 0))
            AlreadyMarried;;
  revert_if (λ s, negb (rd (nullifierToMarriage s) proposeeNullifier =? 0))
            AlreadyMarried;;
  revert_if (λ s, negb (RealMarriageRegistry.proposerNullifier
                          (rd (proposals s) proposalId) =? 0))
            (ErrorString "Proposal already exists");;
  revert_if (λ _, negb (_verifyZKPassportProof zkPassportProof1 proposerNullifier))
            InvalidZKPassportProof;;
  revert_if (λ _, negb (_verifyZKPassportProof zkPassportProof2 proposeeNullifier))
            InvalidZKPassportProof;;
  modify (set_proposals (λ m, <[proposalId :=
    {| proposerNullifier := proposerNullifier;
       proposeeNullifier := proposeeNullifier;
       proposalHash := proposalHash;
       timestamp := block_timestamp env;
       expiresAt := expirationTime;
       isAccepted := false;
       isExpired := false;
       proposalJurisdiction := jurisdiction |}]> m));;
  emit (MarriageProposed proposalId proposerNullifier proposeeNullifier jurisdiction).

(** [proposal] is a storage pointer to [proposals[proposalId]]: each
    field access reads the storage as it stands at that point. *)
Definition acceptMarriage (env : Env) (proposalId certificateHash : bytes32)
    : Exec State unit :=
  let proposal := λ s : State, rd (proposals s) proposalId in
  revert_if (λ s, proposerNullifier (proposal s) =? 0) ProposalNotFound;;
  revert_if (λ s, block_timestamp env >? expiresAt (proposal s)) ProposalExpired;;
  revert_if (λ s, isAccepted (proposal s)) (ErrorString "Already accepted");;
  modify (λ s, set_proposals
                 (λ m, <[proposalId := with_isAccepted true (proposal s)]> m) s);;
  marriageId ← gets (λ s, keccak256 (
    Abi.enc_bytes32 (proposerNullifier (proposal s)) ++
    Abi.enc_bytes32 (proposeeNullifier (proposal s)) ++
    Abi.enc_uint256 (block_timestamp env) ++
    Abi.enc_string (proposalJurisdiction (proposal s))));
  modify (λ s, set_marriages (λ m, <[marriageId :=
    {| spouse1Nullifier := proposerNullifier (proposal s);
       spouse2Nullifier := proposeeNullifier (proposal s);
       proof1Hash := keccak256 (Abi.enc_bytes32 (proposerNullifier (proposal s))
                                ++ Abi.enc_string "proof1");
       proof2Hash := keccak256 (Abi.enc_bytes32 (proposeeNullifier (proposal s))
                                ++ Abi.enc_string "proof2");
       marriageDate := block_timestamp env;
       isActive := true;
       jurisdiction := proposalJurisdiction (proposal s);
       certificateHash := certificateHash |}]> m) s);;
  modify (λ s, set_nullifierToMarriage
                 (λ m, <[proposerNullifier (proposal s) := marriageId]> m) s);;
  modify (λ s, set_nullifierToMarriage
                 (λ m, <[proposeeNullifier (proposal s) := marriageId]> m) s);;
  modify (λ s, set_usedNullifiers
                 (λ m, <[proposerNullifier (proposal s) := true]> m) s);;
  modify (λ s, set_usedNullifiers
                 (λ m, <[proposeeNullifier (proposal s) := true]> m) s);;
  ev ← gets (λ s, MarriageCreated marriageId
                    (proposerNullifier (proposal s))
                    (proposeeNullifier (proposal s))
                    (proposalJurisdiction (proposal s)));
  emit ev.

Definition createMarriage (env : Env)
    (marriageId spouse1Nullifier spouse2Nullifier proof1Hash proof2Hash : bytes32)
    : Exec State unit :=
  revert_if (λ s, rd (usedNullifiers s) spouse1Nullifier) NullifierAlreadyUsed;;
  revert_if (λ s, rd (usedNullifiers s) spouse2Nullifier) NullifierAlreadyUsed;;
  revert_if (λ s, negb (rd (nullifierToMarriage s) spouse1Nullifier =? 0))
            AlreadyMarried;;
  revert_if (λ s, negb (rd (nullifierToMarriage s) spouse2Nullifier =? 0))
            AlreadyMarried;;
  modify (set_marriages (λ m, <[marriageId :=
    {| spouse1Nullifier := spouse1Nullifier;
       spouse2Nullifier := spouse2Nullifier;
       proof1Hash := proof1Hash;
       proof2Hash := proof2Hash;
       marriageDate := block_timestamp env;
       isActive := true;
       jurisdiction := "default";
       certificateHash := keccak256 (Abi.enc_bytes32 marriageId ++
                                     Abi.enc_uint256 (block_timestamp env)) |}]> m));;
  modify (set_nullifierToMarriage (λ m, <[spouse1Nullifier := marriageId]> m));;
  modify (set_nullifierToMarriage (λ m, <[spouse2Nullifier := marriageId]> m));;
  modify (set_usedNullifiers (λ m, <[spouse1Nullifier := true]> m));;
  modify (set_usedNullifiers (λ m, <[spouse2Nullifier := true]> m));;
  emit (MarriageCreated marriageId spouse1Nullifier spouse2Nullifier "default").

(** [marriage] is a storage pointer to [marriages[marriageId]]. *)
Definition requestDivorce (env : Env) (marriageId requesterNullifier : bytes32)
    : Exec State unit :=
  let marriage := λ s : State, rd (marriages s) marriageId in
  revert_if (λ s, negb (isActive (marriage s))) MarriageNotActive;;
  revert_if (λ s, negb (spouse1Nullifier (marriage s) =? requesterNullifier) &&
                  negb (spouse2Nullifier (marriage s) =? requesterNullifier))
            NotAuthorized;;
  modify (λ s, set_marriages
                 (λ m, <[marriageId := with_isActive false (marriage s)]> m) s);;
  modify (λ s, set_nullifierToMarriage
                 (λ m, <[spouse1Nullifier (marriage s) := 0]> m) s);;
  modify (λ s, set_nullifierToMarriage
                 (λ m, <[spouse2Nullifier (marriage s) := 0]> m) s);;
  emit (DivorceRequested marriageId requesterNullifier);;
  emit (MarriageDissolved marriageId).

(** [onlyOwner] of Ownable, then the body. *)
Definition updateZKPassportVerifier (env : Env) (newVerifier : address)
    : Exec State unit :=
  revert_if (λ s, negb (owner s =? msg_sender env))
            (OwnableUnauthorizedAccount (msg_sender env));;
  modify (set_zkPassportVerifier newVerifier);;
  emit (ZKPassportVerifierUpdated newVerifier).

(** *** Views *)

Definition getMarriageStatusByNullifier (s : State) (nullifier : bytes32)
    : bool * bytes32 * uint256 :=
  let marriageId := rd (nullifierToMarriage s) nullifier in
  if negb (marriageId =? 0) then
    let marriage := rd (marriages s) marriageId in
    (isActive marriage, marriageId, marriageDate marriage)
  else (false, marriageId, 0).

Definition verifyMarriageCertificate (s : State)
    (marriageId certificateHash requesterNullifier : bytes32) : bool :=
  let marriage := rd (marriages s) marriageId in
  if negb (isActive marriage) then false
  else if negb (spouse1Nullifier marriage =? requesterNullifier) &&
          negb (spouse2Nullifier marriage =? requesterNullifier) then false
  else RealMarriageRegistry.certificateHash marriage =? certificateHash.

Definition isNullifierUsed (s : State) (nullifier : bytes32) : bool :=
  rd (usedNullifiers s) nullifier.

Definition getMarriage (s : State) (marriageId : bytes32)
    : bytes32 * bytes32 * uint256 * bool * string :=
  let marriage := rd (marriages s) marriageId in
  (spouse1Nullifier marriage, spouse2Nullifier marriage, marriageDate marriage,
   isActive marriage, jurisdiction marriage).

Definition getMinimumAge : uint256 := MINIMUM_AGE.

(** *** Transactions and reachable states *)

Inductive Call : Type :=
  | CreateMarriageProposal
      (proposalId proposerNullifier proposeeNullifier proposalHash : bytes32)
      (expirationTime : uint256) (jurisdiction : string)
      (zkPassportProof1 zkPassportProof2 : bytes)
  | AcceptMarriage (proposalId certificateHash : bytes32)
  | CreateMarriage
      (marriageId spouse1Nullifier spouse2Nullifier proof1Hash proof2Hash : bytes32)
  | RequestDivorce (marriageId requesterNullifier : bytes32)
  | UpdateZKPassportVerifier (newVerifier : address).

Definition dispatch (env : Env) (c : Call) : Exec State unit :=
  match c with
  | CreateMarriageProposal pid a b h exp j p1 p2 =>
      createMarriageProposal env pid a b h exp j p1 p2
  | AcceptMarriage pid cert => acceptMarriage env pid cert
  | CreateMarriage mid a b h1 h2 => createMarriage env mid a b h1 h2
  | RequestDivorce mid r => requestDivorce env mid r
  | UpdateZKPassportVerifier v => updateZKPassportVerifier env v
  end.

(** One transaction: the committed storage after the call. *)
Definition step (s : State) (tx : Env * Call) : State :=
  transact (dispatch tx.1 tx.2) s.

(** A sequence of transactions, oldest first. *)
Definition run (txs : list (Env * Call)) (s : State) : State :=
  fold_left step txs s.

Inductive reachable : State → Prop :=
  | reachable_deployed env verifier : reachable (constructor env verifier)
  | reachable_step s tx : reachable s → reachable (step s tx).


(** *** Closed forms of the storage a successful call leaves *)

Definition createMarriageProposal_post (env : Env)
    (proposalId proposer proposee proposalHash : bytes32)
    (expirationTime : uint256) (jur : string) (s : State) : State :=
  {| marriages := marriages s;
     proposals := <[proposalId :=
       {| proposerNullifier := proposer; proposeeNullifier := proposee;
          proposalHash := proposalHash; timestamp := block_timestamp env;
          expiresAt := expirationTime; isAccepted := false;
          isExpired := false; proposalJurisdiction := jur |}]> (proposals s);
     nullifierToMarriage := nullifierToMarriage s;
     usedNullifiers := usedNullifiers s;
     zkPassportVerifier := zkPassportVerifier s; owner := owner s;
     emitted := emitted s ++ [MarriageProposed proposalId proposer proposee jur] |}.

(** The identifier [acceptMarriage] derives for the marriage of proposal [p]. *)
Definition marriageIdOf (env : Env) (p : MarriageProposal) : bytes32 :=
  keccak256 (Abi.enc_bytes32 (proposerNullifier p) ++
             Abi.enc_bytes32 (proposeeNullifier p) ++
             Abi.enc_uint256 (block_timestamp env) ++
             Abi.enc_string (proposalJurisdiction p)).

Definition acceptedMarriage (env : Env) (p : MarriageProposal) (cert : bytes32)
    : Marriage :=
  {| spouse1Nullifier := proposerNullifier p;
     spouse2Nullifier := proposeeNullifier p;
     proof1Hash := keccak256 (Abi.enc_bytes32 (proposerNullifier p)
                              ++ Abi.enc_string "proof1");
     proof2Hash := keccak256 (Abi.enc_bytes32 (proposeeNullifier p)
                              ++ Abi.enc_string "proof2");
     marriageDate := block_timestamp env;
     isActive := true;
     jurisdiction := proposalJurisdiction p;
     certificateHash := cert |}.

Definition acceptMarriage_post (env : Env) (proposalId cert : bytes32) (s : State)
    : State :=
  let p := rd (proposals s) proposalId in
  let marriageId := marriageIdOf env p in
  {| marriages := <[marriageId := acceptedMarriage env p cert]> (marriages s);
     proposals := <[proposalId := with_isAccepted true p]> (proposals s);
     nullifierToMarriage :=
       <[proposeeNullifier p := marriageId]>
         (<[proposerNullifier p := marriageId]> (nullifierToMarriage s));
     usedNullifiers :=
       <[proposeeNullifier p := true]>
         (<[proposerNullifier p := true]> (usedNullifiers s));
     zkPassportVerifier := zkPassportVerifier s; owner := owner s;
     emitted := emitted s ++
       [MarriageCreated marriageId (proposerNullifier p) (proposeeNullifier p)
                        (proposalJurisdiction p)] |}.

Definition createdMarriage (env : Env) (marriageId s1 s2 h1 h2 : bytes32) : Marriage :=
  {| spouse1Nullifier := s1; spouse2Nullifier := s2;
     proof1Hash := h1; proof2Hash := h2;
     marriageDate := block_timestamp env; isActive := true;
     jurisdiction := "default";
     certificateHash := keccak256 (Abi.enc_bytes32 marriageId ++
                                   Abi.enc_uint256 (block_timestamp env)) |}.

Definition createMarriage_post (env : Env) (marriageId s1 s2 h1 h2 : bytes32)
    (s : State) : State :=
  {| marriages := <[marriageId := createdMarriage env marriageId s1 s2 h1 h2]>
                    (marriages s);
     proposals := proposals s;
     nullifierToMarriage :=
       <[s2 := marriageId]> (<[s1 := marriageId]> (nullifierToMarriage s));
     usedNullifiers := <[s2 := true]> (<[s1 := true]> (usedNullifiers s));
     zkPassportVerifier := zkPassportVerifier s; owner := owner s;
     emitted := emitted s ++ [MarriageCreated marriageId s1 s2 "default"] |}.

Definition requestDivorce_post (marriageId requester : bytes32) (s : State) : State :=
  let m := rd (marriages s) marriageId in
  {| marriages := <[marriageId := with_isActive false m]> (marriages s);
     proposals := proposals s;
     nullifierToMarriage :=
       <[spouse2Nullifier m := 0]> (<[spouse1Nullifier m := 0]> (nullifierToMarriage s));
     usedNullifiers := usedNullifiers s;
     zkPassportVerifier := zkPassportVerifier s; owner := owner s;
     emitted := emitted s ++ [DivorceRequested marriageId requester;
                              MarriageDissolved marriageId] |}.

(** *** Properties of a storage *)

Definition is_spouse (m : Marriage) (n : bytes32) : Prop :=
  spouse1Nullifier m = n ∨ spouse2Nullifier m = n.

(** Section 3 of the specification: every active marriage is mirrored by
    the nullifier index and the consumed set. *)
Definition index_invariant (s : State) : Prop :=
  ∀ marriageId : bytes32,
    let m := rd (marriages s) marriageId in
    isActive m = true →
    rd (nullifierToMarriage s) (spouse1Nullifier m) = marriageId ∧
    rd (nullifierToMarriage s) (spouse2Nullifier m) = marriageId ∧
    rd (usedNullifiers s) (spouse1Nullifier m) = true ∧
    rd (usedNullifiers s) (spouse2Nullifier m) = true.

Definition at_most_one_active_marriage (s : State) : Prop :=
  ∀ n m1 m2 : bytes32,
    isActive (rd (marriages s) m1) = true →
    isActive (rd (marriages s) m2) = true →
    is_spouse (rd (marriages s) m1) n →
    is_spouse (rd (marriages s) m2) n →
    m1 = m2.

(** An identity is married when it is a spouse of an active record or
    holds an entry in the nullifier index. *)
Definition currently_married (s : State) (n : bytes32) : Prop :=
  (∃ marriageId : bytes32, isActive (rd (marriages s) marriageId) = true ∧
                           is_spouse (rd (marriages s) marriageId) n)
  ∨ rd (nullifierToMarriage s) n ≠ 0.

(** The part of [index_invariant] that survives every call. *)
Definition married_are_consumed (s : State) : Prop :=
  ∀ n : bytes32, currently_married s n → rd (usedNullifiers s) n = true.

(** The guards of [createMarriageProposal] that precede the proof checks. *)
Definition proposal_guards_pass (s : State) (proposalId proposer proposee : bytes32)
    : Prop :=
  rd (usedNullifiers s) proposer = false ∧
  rd (usedNullifiers s) proposee = false ∧
  rd (nullifierToMarriage s) proposer = 0 ∧
  rd (nullifierToMarriage s) proposee = 0 ∧
  proposerNullifier (rd (proposals s) proposalId) = 0.

(** [s1] is the storage left by a call on [s] that completed a marriage
    with [n] as one of the spouses. *)
Definition consumed_by_marriage (s s1 : State) (n : bytes32) : Prop :=
  (∃ env proposalId cert,
      acceptMarriage env proposalId cert s = Ok tt s1 ∧
      (n = proposerNullifier (rd (proposals s) proposalId) ∨
       n = proposeeNullifier (rd (proposals s) proposalId)))
  ∨ (∃ env marriageId s1n s2n h1 h2,
      createMarriage env marriageId s1n s2n h1 h2 s = Ok tt s1 ∧
      (n = s1n ∨ n = s2n)).

(** The nullifier the contract derives from a proof blob. *)
Definition derivedNullifier (proof : bytes) : bytes32 :=
  keccak256 (Abi.enc_bytes32 (keccak256 proof) ++ Abi.enc_string "nullifier").

End Contract.
End RealMarriageRegistry.

(** ** MarriageRegistry.sol: address-bound identities, Merkle membership *)

Module MarriageRegistry.

Record Marriage : Type := {
  spouse1Hash : bytes32;
  spouse2Hash : bytes32;
  marriageDate : uint256;
  isActive : bool;
  merkleRoot : bytes32
}.

Record MarriageProposal : Type := {
  proposer : bytes32;
  proposee : bytes32;
  timestamp : uint256;
  nonce : uint256;
  isAccepted : bool;
  isExpired : bool
}.

Global Instance zero_Marriage : ZeroValue Marriage :=
  {| spouse1Hash := 0; spouse2Hash := 0; marriageDate := 0;
     isActive := false; merkleRoot := 0 |}.

Global Instance zero_MarriageProposal : ZeroValue MarriageProposal :=
  {| proposer := 0; proposee := 0; timestamp := 0; nonce := 0;
     isAccepted := false; isExpired := false |}.

Inductive Event : Type :=
  | MarriageProposed (proposalId proposer proposee : bytes32)
  | MarriageCreated (marriageId spouse1 spouse2 : bytes32)
  | DivorceRequested (marriageId requester : bytes32)
  | MarriageDissolved (marriageId : bytes32)
  | OwnershipTransferred (previousOwner newOwner : address).

Record State : Type := {
  marriages : gmap Z Marriage;
  proposals : gmap Z MarriageProposal;
  personToMarriage : gmap Z Z;
  validPassportHashes : gmap Z bool;
  zkPassportMerkleRoot : bytes32;
  owner : address;
  emitted : list Event
}.

Record Env : Type := {
  msg_sender : address;
  block_timestamp : uint256
}.

Definition set_marriages (f : gmap Z Marriage → gmap Z Marriage) (s : State) : State :=
  {| marriages := f (marriages s); proposals := proposals s;
     personToMarriage := personToMarriage s;
     validPassportHashes := validPassportHashes s;
     zkPassportMerkleRoot := zkPassportMerkleRoot s; owner := owner s;
     emitted := emitted s |}.

Definition set_proposals (f : gmap Z MarriageProposal → gmap Z MarriageProposal)
    (s : State) : State :=
  {| marriages := marriages s; proposals := f (proposals s);
     personToMarriage := personToMarriage s;
     validPassportHashes := validPassportHashes s;
     zkPassportMerkleRoot := zkPassportMerkleRoot s; owner := owner s;
     emitted := emitted s |}.

Definition set_personToMarriage (f : gmap Z Z → gmap Z Z) (s : State) : State :=
  {| marriages := marriages s; proposals := proposals s;
     personToMarriage := f (personToMarriage s);
     validPassportHashes := validPassportHashes s;
     zkPassportMerkleRoot := zkPassportMerkleRoot s; owner := owner s;
     emitted := emitted s |}.

Definition set_zkPassportMerkleRoot (r : bytes32) (s : State) : State :=
  {| marriages := marriages s; proposals := proposals s;
     personToMarriage := personToMarriage s;
     validPassportHashes := validPassportHashes s;
     zkPassportMerkleRoot := r; owner := owner s;
     emitted := emitted s |}.

Definition emit (e : Event) : Exec State unit :=
  modify (λ s,
    {| marriages := marriages s; proposals := proposals s;
       personToMarriage := personToMarriage s;
       validPassportHashes := validPassportHashes s;
       zkPassportMerkleRoot := zkPassportMerkleRoot s; owner := owner s;
       emitted := emitted s ++ [e] |}).

Definition with_isAccepted (b : bool) (p : MarriageProposal) : MarriageProposal :=
  {| proposer := proposer p; proposee := proposee p; timestamp := timestamp p;
     nonce := nonce p; isAccepted := b; isExpired := isExpired p |}.

Definition with_isActive (b : bool) (m : Marriage) : Marriage :=
  {| spouse1Hash := spouse1Hash m; spouse2Hash := spouse2Hash m;
     marriageDate := marriageDate m; isActive := b; merkleRoot := merkleRoot m |}.

Section Contract.
Variable keccak256 : list byte → bytes32.

(** [constructor(bytes32 _zkPassportMerkleRoot) Ownable(msg.sender)]: the
    inherited constructor makes the deployer the owner and logs
    [OwnershipTransferred(address(0), msg.sender)]. *)
Definition constructor (env : Env) (_zkPassportMerkleRoot : bytes32) : State :=
  {| marriages := ∅; proposals := ∅; personToMarriage := ∅;
     validPassportHashes := ∅; zkPassportMerkleRoot := _zkPassportMerkleRoot;
     owner := msg_sender env;
     emitted := [OwnershipTransferred 0 (msg_sender env)] |}.

(** [proof[i]]: an index past the end raises Panic(0x32). *)
Definition index {St} (a : list bytes32) (i : nat) : Exec St bytes32 :=
  match a !! i with
  | Some x => mret x
  | None => revert (Panic 0x32)
  end.

(** The [for] loop of [verifyMerkleProof], one iteration per unit of
    [gas]; running out of it is reported as [OutOfGas]. *)
Fixpoint verifyMerkleProof_loop {St} (gas : nat) (proof : list bytes32) (i : nat)
    (computedHash : bytes32) : Exec St bytes32 :=
  match gas with
  | O => revert OutOfGas
  | S gas' =>
      if (i <? length proof)%nat then
        proofElement ← index proof i;
        if computedHash <=? proofElement then
          verifyMerkleProof_loop gas' proof (S i)
            (keccak256 (Abi.enc_bytes32 computedHash ++ Abi.enc_bytes32 proofElement))
        else
          verifyMerkleProof_loop gas' proof (S i)
            (keccak256 (Abi.enc_bytes32 proofElement ++ Abi.enc_bytes32 computedHash))
      else mret computedHash
  end.

(** [verifyMerkleProof] is [internal pure]: the embedding is polymorphic
    in the storage type, which it can neither read nor write. *)
Definition verifyMerkleProof {St} (proof : list bytes32) (root leaf : bytes32)
    : Exec St bool :=
  computedHash ← verifyMerkleProof_loop (S (length proof)) proof 0 leaf;
  mret (computedHash =? root).

Definition verifyZKPassport (user : address) (merkleProof : list bytes32)
    : Exec State bool :=
  let leaf := keccak256 (Abi.enc_address user) in
  root ← gets zkPassportMerkleRoot;
  verifyMerkleProof merkleProof root leaf.

Definition generateMarriageMerkleRoot (spouse1 spouse2 : bytes32) : bytes32 :=
  keccak256 (Abi.enc_bytes32 spouse1 ++ Abi.enc_bytes32 spouse2).

Definition proposeMarriage (env : Env) (proposalId proposee : bytes32)
    (nonce : uint256) (merkleProof : list bytes32) : Exec State unit :=
  let sender := Abi.address_to_bytes32 (msg_sender env) in
  require (λ s, MarriageRegistry.proposer (rd (proposals s) proposalId) =? 0)
          "Proposal already exists";;
  valid ← verifyZKPassport (msg_sender env) merkleProof;
  require (λ _, valid) "Invalid zkPassport proof";;
  require (λ s, rd (personToMarriage s) sender =? 0) "Already married";;
  modify (set_proposals (λ m, <[proposalId :=
    {| proposer := sender;
       proposee := proposee;
       timestamp := block_timestamp env;
       nonce := nonce;
       isAccepted := false;
       isExpired := false |}]> m));;
  emit (MarriageProposed proposalId sender proposee).

(** [proposal] is a storage pointer to [proposals[proposalId]]. *)
Definition acceptMarriage (env : Env) (proposalId : bytes32)
    (merkleProof : list bytes32) : Exec State unit :=
  let proposal := λ s : State, rd (proposals s) proposalId in
  let sender := Abi.address_to_bytes32 (msg_sender env) in
  require (λ s, proposee (proposal s) =? sender) "Not the proposee";;
  require (λ s, negb (isAccepted (proposal s))) "Already accepted";;
  require (λ s, negb (isExpired (proposal s))) "Proposal expired";;
  valid ← verifyZKPassport (msg_sender env) merkleProof;
  require (λ _, valid) "Invalid zkPassport proof";;
  require (λ s, rd (personToMarriage s) sender =? 0) "Already married";;
  marriageId ← gets (λ s, keccak256 (
    Abi.enc_bytes32 (proposer (proposal s)) ++
    Abi.enc_bytes32 (proposee (proposal s)) ++
    Abi.enc_uint256 (block_timestamp env)));
  modify (λ s, set_marriages (λ m, <[marriageId :=
    {| spouse1Hash := proposer (proposal s);
       spouse2Hash := proposee (proposal s);
       marriageDate := block_timestamp env;
       isActive := true;
       merkleRoot := generateMarriageMerkleRoot (proposer (proposal s))
                                                (proposee (proposal s)) |}]> m) s);;
  modify (λ s, set_personToMarriage (λ m, <[proposer (proposal s) := marriageId]> m) s);;
  modify (λ s, set_personToMarriage (λ m, <[proposee (proposal s) := marriageId]> m) s);;
  modify (λ s, set_proposals
                 (λ m, <[proposalId := with_isAccepted true (proposal s)]> m) s);;
  ev ← gets (λ s, MarriageCreated marriageId (proposer (proposal s))
                                  (proposee (proposal s)));
  emit ev.

(** [marriage] is a storage pointer to [marriages[marriageId]]. *)
Definition requestDivorce (env : Env) (marriageId : bytes32)
    (merkleProof : list bytes32) : Exec State unit :=
  let marriage := λ s : State, rd (marriages s) marriageId in
  require (λ s, isActive (marriage s)) "Marriage not active";;
  let requesterHash := Abi.address_to_bytes32 (msg_sender env) in
  require (λ s, (spouse1Hash (marriage s) =? requesterHash) ||
                (spouse2Hash (marriage s) =? requesterHash))
          "Not a spouse in this marriage";;
  valid ← verifyZKPassport (msg_sender env) merkleProof;
  require (λ _, valid) "Invalid zkPassport proof";;
  modify (λ s, set_marriages
                 (λ m, <[marriageId := with_isActive false (marriage s)]> m) s);;
  modify (λ s, set_personToMarriage (λ m, <[spouse1Hash (marriage s) := 0]> m) s);;
  modify (λ s, set_personToMarriage (λ m, <[spouse2Hash (marriage s) := 0]> m) s);;
  emit (DivorceRequested marriageId requesterHash);;
  emit (MarriageDissolved marriageId).

Definition getMarriageStatus (s : State) (user : address) : bool * bytes32 :=
  let userHash := Abi.address_to_bytes32 user in
  let marriageId := rd (personToMarriage s) userHash in
  (negb (marriageId =? 0) && isActive (rd (marriages s) marriageId), marriageId).

Definition updateZKPassportMerkleRoot (env : Env) (newRoot : bytes32)
    : Exec State unit :=
  revert_if (λ s, negb (owner s =? msg_sender env))
            (OwnableUnauthorizedAccount (msg_sender env));;
  modify (set_zkPassportMerkleRoot newRoot).

(** *** Transactions and reachable states *)

Inductive Call : Type :=
  | ProposeMarriage (proposalId proposee : bytes32) (nonce : uint256)
                    (merkleProof : list bytes32)
  | AcceptMarriage (proposalId : bytes32) (merkleProof : list bytes32)
  | RequestDivorce (marriageId : bytes32) (merkleProof : list bytes32)
  | UpdateZKPassportMerkleRoot (newRoot : bytes32).

Definition dispatch (env : Env) (c : Call) : Exec State unit :=
  match c with
  | ProposeMarriage pid proposee nonce proof =>
      proposeMarriage env pid proposee nonce proof
  | AcceptMarriage pid proof => acceptMarriage env pid proof
  | RequestDivorce mid proof => requestDivorce env mid proof
  | UpdateZKPassportMerkleRoot r => updateZKPassportMerkleRoot env r
  end.

Definition step (s : State) (tx : Env * Call) : State :=
  transact (dispatch tx.1 tx.2) s.

Definition run (txs : list (Env * Call)) (s : State) : State :=
  fold_left step txs s.

Inductive reachable : State → Prop :=
  | reachable_deployed env root : reachable (constructor env root)
  | reachable_step s tx : reachable s → reachable (step s tx).

(** *** Closed forms of the storage a successful call leaves *)

(** The caller's passport leaf verifies under the current root. *)
Definition passport_valid (s : State) (user : address) (merkleProof : list bytes32)
    : bool :=
  bool_decide
    (fold_left (λ acc sibling,
                  keccak256 (Abi.enc_bytes32 (Z.min acc sibling) ++
                             Abi.enc_bytes32 (Z.max acc sibling)))
               merkleProof (keccak256 (Abi.enc_address user))
     = zkPassportMerkleRoot s).

Definition proposeMarriage_post (env : Env) (proposalId proposee : bytes32)
    (nonce : uint256) (s : State) : State :=
  {| marriages := marriages s;
     proposals := <[proposalId :=
       {| proposer := Abi.address_to_bytes32 (msg_sender env);
          proposee := proposee; timestamp := block_timestamp env;
          nonce := nonce; isAccepted := false; isExpired := false |}]> (proposals s);
     personToMarriage := personToMarriage s;
     validPassportHashes := validPassportHashes s;
     zkPassportMerkleRoot := zkPassportMerkleRoot s; owner := owner s;
     emitted := emitted s ++
       [MarriageProposed proposalId (Abi.address_to_bytes32 (msg_sender env))
                         proposee] |}.

(** The identifier [acceptMarriage] derives for the marriage of proposal [p]. *)
Definition marriageIdOf (env : Env) (p : MarriageProposal) : bytes32 :=
  keccak256 (Abi.enc_bytes32 (proposer p) ++ Abi.enc_bytes32 (proposee p) ++
             Abi.enc_uint256 (block_timestamp env)).

Definition acceptMarriage_post (env : Env) (proposalId : bytes32) (s : State) : State :=
  let p := rd (proposals s) proposalId in
  let marriageId := marriageIdOf env p in
  {| marriages := <[marriageId :=
       {| spouse1Hash := proposer p; spouse2Hash := proposee p;
          marriageDate := block_timestamp env; isActive := true;
          merkleRoot := generateMarriageMerkleRoot (proposer p) (proposee p) |}]>
       (marriages s);
     proposals := <[proposalId := with_isAccepted true p]> (proposals s);
     personToMarriage :=
       <[proposee p := marriageId]> (<[proposer p := marriageId]> (personToMarriage s));
     validPassportHashes := validPassportHashes s;
     zkPassportMerkleRoot := zkPassportMerkleRoot s; owner := owner s;
     emitted := emitted s ++ [MarriageCreated marriageId (proposer p) (proposee p)] |}.

Definition requestDivorce_post (env : Env) (marriageId : bytes32) (s : State) : State :=
  let m := rd (marriages s) marriageId in
  {| marriages := <[marriageId := with_isActive false m]> (marriages s);
     proposals := proposals s;
     personToMarriage :=
       <[spouse2Hash m := 0]> (<[spouse1Hash m := 0]> (personToMarriage s));
     validPassportHashes := validPassportHashes s;
     zkPassportMerkleRoot := zkPassportMerkleRoot s; owner := owner s;
     emitted := emitted s ++
       [DivorceRequested marriageId (Abi.address_to_bytes32 (msg_sender env));
        MarriageDissolved marriageId] |}.

End Contract.

(** *** The membership verifier as section 4.1 of the specification words it *)

Section MembershipSpec.
Variable keccak256 : list byte → bytes32.

(** One level: the two inputs ordered by numeric value, concatenated and
    hashed. *)
Definition combine_ordered (acc sibling : bytes32) : bytes32 :=
  keccak256 (Abi.enc_bytes32 (Z.min acc sibling) ++
             Abi.enc_bytes32 (Z.max acc sibling)).

(** The candidate root re-derived from [leaf] along [siblingPath]. *)
Definition candidate_root (leaf : bytes32) (siblingPath : list bytes32) : bytes32 :=
  fold_left combine_ordered siblingPath leaf.

Definition verifyMembership_spec (leaf root : bytes32) (siblingPath : list bytes32)
    : bool :=
  bool_decide (candidate_root leaf siblingPath = root).
End MembershipSpec.
End MarriageRegistry.

(** ** MarriageRegistry.t.sol: the Merkle tree its [setUp] builds *)

Module MarriageRegistryTest.
Section Fixture.
Variable keccak256 : list byte → bytes32.
(** The three addresses [makeAddr] returns. *)
Variables alice bob charlie : address.

Definition aliceLeaf : bytes32 := keccak256 (Abi.enc_address alice).
Definition bobLeaf : bytes32 := keccak256 (Abi.enc_address bob).
Definition charlieLeaf : bytes32 := keccak256 (Abi.enc_address charlie).

(** [a < b ? keccak256(abi.encodePacked(a, b)) : keccak256(abi.encodePacked(b, a))] *)
Definition pair_node (a b : bytes32) : bytes32 :=
  if a <? b then keccak256 (Abi.enc_bytes32 a ++ Abi.enc_bytes32 b)
  else keccak256 (Abi.enc_bytes32 b ++ Abi.enc_bytes32 a).

Definition node1 : bytes32 := pair_node aliceLeaf bobLeaf.
Definition node2 : bytes32 := pair_node charlieLeaf 0.
Definition zkPassportMerkleRoot : bytes32 := pair_node node1 node2.

Definition aliceMerkleProof : list bytes32 := [bobLeaf; node2].
Definition bobMerkleProof : list bytes32 := [aliceLeaf; node2].
Definition charlieMerkleProof : list bytes32 := [0; node1].

(** [marriageRegistry = new MarriageRegistry(zkPassportMerkleRoot)], deployed
    by the test contract [this]. *)
Definition setUp (this : address) (now : uint256) : MarriageRegistry.State :=
  MarriageRegistry.constructor
    {| MarriageRegistry.msg_sender := this; MarriageRegistry.block_timestamp := now |}
    zkPassportMerkleRoot.
End Fixture.
End MarriageRegistryTest.

(** ** Outcomes compared up to a change of the storage *)

Module Observation.
Definition map_storage {St A} (f : St → St) (o : Outcome St A) : Outcome St A :=
  match o with
  | Ok a s => Ok a (f s)
  | Revert e s => Revert e (f s)
  end.

(** The storage slots of [RealMarriageRegistry], without the event log. *)
Definition slots (s : RealMarriageRegistry.State) :=
  (RealMarriageRegistry.marriages s, RealMarriageRegistry.proposals s,
   RealMarriageRegistry.nullifierToMarriage s, RealMarriageRegistry.usedNullifiers s,
   RealMarriageRegistry.zkPassportVerifier s, RealMarriageRegistry.owner s).
End Observation.

(** ** RealZKPassportService.ts: the off-chain eligibility check *)

Module ZKPassportService.

(** [ZKPassportProofResult]; optional fields are [None] when undefined.
    The untyped [proofData] field, which [canMarry] never reads, is left
    out. *)
Record ZKPassportProofResult : Type := {
  isValid : bool;
  nationality : option string;
  ageOver18 : option bool;
  ageOver21 : option bool;
  documentValid : option bool;
  nullifier : option string
}.

Record Jurisdiction : Type := {
  minAge : option Z;
  allowedCountries : option (list string);
  sameSexAllowed : option bool
}.

Record MarryVerdict : Type := {
  canMarry_result : bool;
  reasons : list string
}.

(** JavaScript [!x] on an optional boolean and on an optional string. *)
Definition not_flag (x : option bool) : bool := negb (default false x).

Definition not_string (x : option string) : bool :=
  match x with
  | None => true
  | Some s => bool_decide (s = EmptyString)
  end.

(** [!allowedCountries.includes(x)] *)
Definition not_included (allowed : list string) (x : option string) : bool :=
  match x with
  | None => true
  | Some s => negb (bool_decide (s ∈ allowed))
  end.

Definition canMarry (proof1 proof2 : ZKPassportProofResult)
    (jurisdiction : Jurisdiction) : MarryVerdict :=
  let minAge := default 18 (minAge jurisdiction) in
  let allowedCountries := default [] (allowedCountries jurisdiction) in
  if negb (isValid proof1) || negb (isValid proof2) then
    {| canMarry_result := false; reasons := ["Invalid zkPassport proof"] |}
  else
    let reasons := [] in
    let reasons :=
      if minAge >=? 21 then
        if not_flag (ageOver21 proof1) || not_flag (ageOver21 proof2)
        then reasons ++ ["Both parties must be over 21 years old"] else reasons
      else if minAge >=? 18 then
        if not_flag (ageOver18 proof1) || not_flag (ageOver18 proof2)
        then reasons ++ ["Both parties must be over 18 years old"] else reasons
      else reasons in
    let reasons :=
      if (0 <? length allowedCountries)%nat then
        let reasons :=
          if not_string (nationality proof1) ||
             not_included allowedCountries (nationality proof1)
          then reasons ++ ["First party nationality not allowed in this jurisdiction"]
          else reasons in
        if not_string (nationality proof2) ||
           not_included allowedCountries (nationality proof2)
        then reasons ++ ["Second party nationality not allowed in this jurisdiction"]
        else reasons
      else reasons in
    let reasons :=
      if not_flag (documentValid proof1) || not_flag (documentValid proof2)
      then reasons ++ ["Invalid or expired identity documents"] else reasons in
    let reasons :=
      if bool_decide (nullifier proof1 = nullifier proof2)
      then reasons ++ ["Cannot marry yourself"] else reasons in
    {| canMarry_result := (length reasons =? 0)%nat; reasons := reasons |}.
End ZKPassportService.

(** ** Concrete transactions, run with Keccak-256 *)

Module Scenarios.
Import RealMarriageRegistry.

Definition at_time (sender : address) (t : uint256) : Env :=
  {| msg_sender := sender; block_timestamp := t |}.

Definition deployer : address := 0xD0.
Definition relayer : address := 0xA1.

(** The registry as deployed by [DeployRealMarriageRegistry] with its
    default verifier address. *)
Definition genesis : State :=
  constructor (at_time deployer 1000) 0x1234567890123456789012345678901234567890.

Definition alice_proof : bytes := [x01].
Definition bob_proof : bytes := [x02].
Definition carol_proof : bytes := [x03].

Definition alice : bytes32 := Eval vm_compute in
  derivedNullifier Keccak.keccak256 alice_proof.
Definition bob : bytes32 := Eval vm_compute in
  derivedNullifier Keccak.keccak256 bob_proof.
Definition carol : bytes32 := Eval vm_compute in
  derivedNullifier Keccak.keccak256 carol_proof.

Definition propose_alice_bob : Env * Call :=
  (at_time relayer 1001,
   CreateMarriageProposal 1 alice bob 0 5000 "default" alice_proof bob_proof).

Definition propose_alice_carol : Env * Call :=
  (at_time relayer 1002,
   CreateMarriageProposal 2 alice carol 0 5000 "default" alice_proof carol_proof).

Definition accept_alice_bob : Env * Call :=
  (at_time relayer 1003, AcceptMarriage 1 0xC1).

Definition accept_alice_carol : Env * Call :=
  (at_time relayer 1004, AcceptMarriage 2 0xC2).

(** Alice proposes to Bob and to Carol, then Bob's proposal is accepted. *)
Definition alice_married_bob : State := Eval vm_compute in
  run Keccak.keccak256
      [propose_alice_bob; propose_alice_carol; accept_alice_bob] genesis.

(** ... and then Carol's proposal is accepted as well. *)
Definition alice_married_twice : State := Eval vm_compute in
  step Keccak.keccak256 alice_married_bob accept_alice_carol.

Definition marriage_alice_bob : bytes32 := Eval vm_compute in
  marriageIdOf Keccak.keccak256 (at_time relayer 1003)
               (rd (proposals alice_married_bob) 1).

Definition marriage_alice_carol : bytes32 := Eval vm_compute in
  marriageIdOf Keccak.keccak256 (at_time relayer 1004)
               (rd (proposals alice_married_bob) 2).

(** A marriage created directly between the nullifiers 10 and 11. *)
Definition married_10_11 : State := Eval vm_compute in
  step Keccak.keccak256 genesis (at_time relayer 1001, CreateMarriage 1 10 11 0 0).

(** A proposal of Alice to Bob that expires at time 5000. *)
Definition alice_proposed_to_bob : State := Eval vm_compute in
  step Keccak.keccak256 genesis propose_alice_bob.

(** Alice proposes to herself, with her own proof for both parties. *)
Definition propose_alice_alice : Env * Call :=
  (at_time relayer 1001,
   CreateMarriageProposal 1 alice alice 0 5000 "default" alice_proof alice_proof).

Definition alice_proposed_to_alice : State := Eval vm_compute in
  step Keccak.keccak256 genesis propose_alice_alice.

(** The address-bound registry, deployed with a one-leaf tree whose root
    is the leaf of [solo]. *)
Definition solo : address := 0xA11CE.

Definition solo_env : MarriageRegistry.Env :=
  {| MarriageRegistry.msg_sender := solo;
     MarriageRegistry.block_timestamp := 1001 |}.

Definition solo_genesis : MarriageRegistry.State := Eval vm_compute in
  MarriageRegistry.constructor
    {| MarriageRegistry.msg_sender := deployer;
       MarriageRegistry.block_timestamp := 1000 |}
    (Keccak.keccak256 (Abi.enc_address solo)).

(** [solo] proposes to its own address hash, with the empty Merkle path. *)
Definition solo_proposed_to_solo : MarriageRegistry.State := Eval vm_compute in
  transact (MarriageRegistry.proposeMarriage Keccak.keccak256 solo_env 1
              (Abi.address_to_bytes32 solo) 7 []) solo_genesis.
End Scenarios.

(** ** Further transactions, run with Keccak-256 *)

Module MoreScenarios.
Import RealMarriageRegistry Scenarios.

(** Bob's proposal is accepted right after it was made. *)
Definition alice_accepted_bob : State := Eval vm_compute in
  step Keccak.keccak256 alice_proposed_to_bob accept_alice_bob.

(** The marriage of 10 and 11, dissolved at the request of 10. *)
Definition divorce_10 : Env * Call := (at_time relayer 1005, RequestDivorce 1 10).

Definition divorced_10_11 : State := Eval vm_compute in
  step Keccak.keccak256 married_10_11 divorce_10.

(** Marriage id 1, still indexed by 10 and 11, is given to 20 and 21. *)
Definition remarry_id_1 : Env * Call :=
  (at_time 0xBAD 1002, CreateMarriage 1 20 21 0 0).

Definition married_20_21 : State := Eval vm_compute in
  step Keccak.keccak256 married_10_11 remarry_id_1.
End MoreScenarios.

(** The address-bound registry on the tree of the test fixture. *)
Module FixtureScenarios.
Import MarriageRegistry.

Definition test_contract : address := 0x7FA9385bE102ac3EAc297483Dd6233D62b3e1496.
Definition alice : address := 0xA11CE.
Definition bob : address := 0xB0B.
Definition charlie : address := 0xC4A.

Definition at_time (sender : address) (t : uint256) : Env :=
  {| msg_sender := sender; block_timestamp := t |}.

Definition fixture : State := Eval vm_compute in
  MarriageRegistryTest.setUp Keccak.keccak256 alice bob charlie test_contract 1.

Definition alice_path : list bytes32 := Eval vm_compute in
  MarriageRegistryTest.aliceMerkleProof Keccak.keccak256 bob charlie.
Definition bob_path : list bytes32 := Eval vm_compute in
  MarriageRegistryTest.bobMerkleProof Keccak.keccak256 alice charlie.
Definition charlie_path : list bytes32 := Eval vm_compute in
  MarriageRegistryTest.charlieMerkleProof Keccak.keccak256 alice bob.

(** Alice proposes to Bob and to Charlie; Bob accepts, then Charlie. *)
Definition propose_to_bob : Env * Call :=
  (at_time alice 1001, ProposeMarriage 1 (Abi.address_to_bytes32 bob) 7 alice_path).
Definition propose_to_charlie : Env * Call :=
  (at_time alice 1002, ProposeMarriage 2 (Abi.address_to_bytes32 charlie) 8 alice_path).
Definition bob_accepts : Env * Call := (at_time bob 1003, AcceptMarriage 1 bob_path).
Definition charlie_accepts : Env * Call :=
  (at_time charlie 1004, AcceptMarriage 2 charlie_path).

Definition proposed_to_bob : State := Eval vm_compute in
  step Keccak.keccak256 fixture propose_to_bob.
Definition proposed_to_both : State := Eval vm_compute in
  step Keccak.keccak256 proposed_to_bob propose_to_charlie.
Definition married_to_bob : State := Eval vm_compute in
  step Keccak.keccak256 proposed_to_both bob_accepts.
Definition married_to_both : State := Eval vm_compute in
  step Keccak.keccak256 married_to_bob charlie_accepts.

Definition marriage_with_bob : bytes32 := Eval vm_compute in
  marriageIdOf Keccak.keccak256 (at_time bob 1003) (rd (proposals proposed_to_both) 1).

(** Alice divorces Bob. *)
Definition alice_divorces : Env * Call :=
  (at_time alice 1005, RequestDivorce marriage_with_bob alice_path).
Definition divorced_from_bob : State := Eval vm_compute in
  step Keccak.keccak256 married_to_bob alice_divorces.

(** The owner replaces the passport root while Alice and Bob are married. *)
Definition replace_root : Env * Call :=
  (at_time test_contract 1005, UpdateZKPassportMerkleRoot 0x5eed).
Definition married_under_new_root : State := Eval vm_compute in
  step Keccak.keccak256 married_to_bob replace_root.
End FixtureScenarios.

(** * Proofs *)

(** ** Known-answer tests for the Keccak-256 implementation *)

Module KeccakFacts.
Lemma keccak256_empty :
  Keccak.keccak256 [] =
  0xc5d2460186f7233c927e7db2dcc703c0e500b653ca82273b7bfad8045d85a470.
Proof. vm_compute. reflexivity. Qed.

Lemma keccak256_abc :
  Keccak.keccak256 ["a"%byte; "b"%byte; "c"%byte] =
  0x4e03657aea45a94fc7d47ba826c8d667c0d1e6e33a64a036ec44f58fa12d6c45.
Proof. vm_compute. reflexivity. Qed.
(** A message one byte short of the rate (padding byte 0x81), one that
    fills a block exactly, and one that spans two blocks. *)
Lemma keccak256_135_bytes :
  Keccak.keccak256 (repeat "a"%byte 135) =
  0x34367dc248bbd832f4e3e69dfaac2f92638bd0bbd18f2912ba4ef454919cf446.
Proof. vm_compute. reflexivity. Qed.

Lemma keccak256_136_bytes :
  Keccak.keccak256 (repeat "a"%byte 136) =
  0xa6c4d403279fe3e0af03729caada8374b5ca54d8065329a3ebcaeb4b60aa386e.
Proof. vm_compute. reflexivity. Qed.

Lemma keccak256_200_bytes :
  Keccak.keccak256 (map (λ n, Abi.byte_of_Z (Z.of_nat n)) (seq 0 200)) =
  0xbfb0aa97863e797943cf7c33bb7e880bb4543f3d2703c0923c6901c2af57b890.
Proof. vm_compute. reflexivity. Qed.
End KeccakFacts.

(** ** Mapping reads *)

Module MappingFacts.
Lemma rd_insert {V} `{ZeroValue V} (m : gmap Z V) (k j : Z) (v : V) :
  rd (<[k := v]> m) j = if decide (k = j) then v else rd m j.
Proof.
  unfold rd. rewrite lookup_insert. destruct (decide (k = j)); reflexivity.
Qed.

Lemma rd_insert_eq {V} `{ZeroValue V} (m : gmap Z V) (k : Z) (v : V) :
  rd (<[k := v]> m) k = v.
Proof. rewrite rd_insert. destruct (decide (k = k)); congruence. Qed.

Lemma rd_insert_ne {V} `{ZeroValue V} (m : gmap Z V) (k j : Z) (v : V) :
  k ≠ j → rd (<[k := v]> m) j = rd m j.
Proof. intros Hne. rewrite rd_insert. destruct (decide (k = j)); congruence. Qed.

Lemma rd_empty {V} `{ZeroValue V} (k : Z) : rd (∅ : gmap Z V) k = zero_value.
Proof. unfold rd. rewrite lookup_empty. reflexivity. Qed.
End MappingFacts.

(** ** Running a program one statement at a time *)

Module ExecFacts.
Lemma exec_revert_if {St B} (c : St → bool) e (k : unit → Exec St B) s :
  (revert_if c e ≫= k) s = if c s then Revert e s else k tt s.
Proof. cbv [mbind exec_bind EVM.bind revert_if]. destruct (c s); reflexivity. Qed.

Lemma exec_require {St B} (c : St → bool) msg (k : unit → Exec St B) s :
  (require c msg ≫= k) s = if c s then k tt s else Revert (ErrorString msg) s.
Proof. cbv [mbind exec_bind EVM.bind require]. destruct (c s); reflexivity. Qed.

Lemma exec_modify {St B} (f : St → St) (k : unit → Exec St B) s :
  (modify f ≫= k) s = k tt (f s).
Proof. reflexivity. Qed.

Lemma exec_gets {St A B} (f : St → A) (k : A → Exec St B) s :
  (gets f ≫= k) s = k (f s) s.
Proof. reflexivity. Qed.

Lemma exec_bind_ok {St A B} (m : Exec St A) (k : A → Exec St B) s a s' :
  m s = Ok a s' → (m ≫= k) s = k a s'.
Proof. intros Hm. cbv [mbind exec_bind EVM.bind]. rewrite Hm. reflexivity. Qed.
End ExecFacts.

Ltac exec_unfold :=
  cbv [mbind mret exec_bind exec_ret EVM.bind EVM.ret gets modify revert
       revert_if require].

Ltac exec_step :=
  first [ rewrite ExecFacts.exec_revert_if
        | rewrite ExecFacts.exec_require
        | rewrite ExecFacts.exec_modify
        | rewrite ExecFacts.exec_gets ];
  cbv beta.

(** ** RealMarriageRegistry *)

Module RealProofs.
Import RealMarriageRegistry MappingFacts.

Section WithHash.
Variable keccak256 : list byte → bytes32.

Abbreviation createMarriageProposal := (createMarriageProposal keccak256).
Abbreviation acceptMarriage := (acceptMarriage keccak256).
Abbreviation createMarriage := (createMarriage keccak256).
Abbreviation _verifyZKPassportProof := (_verifyZKPassportProof keccak256).
Abbreviation step := (step keccak256).
Abbreviation run := (run keccak256).
Abbreviation reachable := (reachable keccak256).

(** Reads through the storage pointer [proposal] after the accepted flag
    has been written. *)
Ltac read_proposal :=
  cbn [proposals marriages nullifierToMarriage usedNullifiers emitted
       set_proposals set_marriages set_nullifierToMarriage set_usedNullifiers];
  rewrite ?rd_insert_eq;
  cbn [proposerNullifier proposeeNullifier proposalJurisdiction with_isAccepted].

(** *** Each entry point as a decision list over the storage it starts from *)

Lemma createMarriageProposal_eq env pid a b h exp j p1 p2 s :
  createMarriageProposal env pid a b h exp j p1 p2 s =
    if rd (usedNullifiers s) a then Revert NullifierAlreadyUsed s
    else if rd (usedNullifiers s) b then Revert NullifierAlreadyUsed s
    else if negb (rd (nullifierToMarriage s) a =? 0) then Revert AlreadyMarried s
    else if negb (rd (nullifierToMarriage s) b =? 0) then Revert AlreadyMarried s
    else if negb (proposerNullifier (rd (proposals s) pid) =? 0)
         then Revert (ErrorString "Proposal already exists") s
    else if negb (_verifyZKPassportProof p1 a) then Revert InvalidZKPassportProof s
    else if negb (_verifyZKPassportProof p2 b) then Revert InvalidZKPassportProof s
    else Ok tt (createMarriageProposal_post env pid a b h exp j s).
Proof.
  unfold RealMarriageRegistry.createMarriageProposal, emit. exec_unfold.
  repeat (match goal with |- context [if ?c then _ else _] => destruct c end;
          try reflexivity).
Qed.

Lemma acceptMarriage_eq env pid cert s :
  acceptMarriage env pid cert s =
    let p := rd (proposals s) pid in
    if proposerNullifier p =? 0 then Revert ProposalNotFound s
    else if block_timestamp env >? expiresAt p then Revert ProposalExpired s
    else if isAccepted p then Revert (ErrorString "Already accepted") s
    else Ok tt (acceptMarriage_post keccak256 env pid cert s).
Proof.
  unfold RealMarriageRegistry.acceptMarriage. cbv zeta.
  exec_step.
  destruct (proposerNullifier (rd (proposals s) pid) =? 0); [reflexivity|].
  exec_step.
  destruct (block_timestamp env >? expiresAt (rd (proposals s) pid));
    [reflexivity|].
  exec_step.
  destruct (isAccepted (rd (proposals s) pid)); [reflexivity|].
  repeat (exec_step; read_proposal).
  unfold emit, modify. read_proposal. reflexivity.
Qed.

Lemma createMarriage_eq env mid a b h1 h2 s :
  createMarriage env mid a b h1 h2 s =
    if rd (usedNullifiers s) a then Revert NullifierAlreadyUsed s
    else if rd (usedNullifiers s) b then Revert NullifierAlreadyUsed s
    else if negb (rd (nullifierToMarriage s) a =? 0) then Revert AlreadyMarried s
    else if negb (rd (nullifierToMarriage s) b =? 0) then Revert AlreadyMarried s
    else Ok tt (createMarriage_post keccak256 env mid a b h1 h2 s).
Proof.
  unfold RealMarriageRegistry.createMarriage, emit. exec_unfold.
  repeat (match goal with |- context [if ?c then _ else _] => destruct c end;
          try reflexivity).
Qed.

Lemma requestDivorce_eq env mid r s :
  requestDivorce env mid r s =
    let m := rd (marriages s) mid in
    if negb (isActive m) then Revert MarriageNotActive s
    else if negb (spouse1Nullifier m =? r) && negb (spouse2Nullifier m =? r)
         then Revert NotAuthorized s
    else Ok tt (requestDivorce_post mid r s).
Proof.
  unfold requestDivorce, emit. exec_unfold. cbv zeta.
  destruct (negb (isActive (rd (marriages s) mid))); [reflexivity|].
  destruct (negb (spouse1Nullifier (rd (marriages s) mid) =? r) &&
            negb (spouse2Nullifier (rd (marriages s) mid) =? r)); [reflexivity|].
  unfold requestDivorce_post, set_marriages, set_nullifierToMarriage; cbn.
  rewrite !rd_insert_eq. cbn. rewrite <- app_assoc. reflexivity.
Qed.

Lemma updateZKPassportVerifier_eq env v s :
  updateZKPassportVerifier env v s =
    if negb (owner s =? msg_sender env)
    then Revert (OwnableUnauthorizedAccount (msg_sender env)) s
    else Ok tt {| marriages := marriages s; proposals := proposals s;
                  nullifierToMarriage := nullifierToMarriage s;
                  usedNullifiers := usedNullifiers s;
                  zkPassportVerifier := v; owner := owner s;
                  emitted := emitted s ++ [ZKPassportVerifierUpdated v] |}.
Proof.
  unfold updateZKPassportVerifier, emit. exec_unfold.
  destruct (negb (owner s =? msg_sender env)); reflexivity.
Qed.


(** *** What one committed transaction can do to the storage *)

Lemma step_cases s tx :
  step s tx = s
  ∨ (∃ env pid a b h exp j,
        step s tx = createMarriageProposal_post env pid a b h exp j s)
  ∨ (∃ env pid cert,
        isAccepted (rd (proposals s) pid) = false ∧
        step s tx = acceptMarriage_post keccak256 env pid cert s)
  ∨ (∃ env mid a b h1 h2,
        step s tx = createMarriage_post keccak256 env mid a b h1 h2 s)
  ∨ (∃ mid r,
        isActive (rd (marriages s) mid) = true ∧
        step s tx = requestDivorce_post mid r s)
  ∨ (∃ v ev,
        step s tx =
          {| marriages := marriages s; proposals := proposals s;
             nullifierToMarriage := nullifierToMarriage s;
             usedNullifiers := usedNullifiers s;
             zkPassportVerifier := v; owner := owner s;
             emitted := emitted s ++ [ev] |}).
Proof.
  destruct tx as [env c]. unfold RealMarriageRegistry.step, transact, dispatch.
  cbn [fst snd]. destruct c as [pid a b h exp j p1 p2|pid cert|mid a b h1 h2|mid r|v].
  - rewrite createMarriageProposal_eq.
    repeat (match goal with |- context [if ?c then _ else _] => destruct c end;
            [left; reflexivity|]).
    right; left. by exists env, pid, a, b, h, exp, j.
  - rewrite acceptMarriage_eq. cbv zeta.
    destruct (proposerNullifier (rd (proposals s) pid) =? 0); [by left|].
    destruct (block_timestamp env >? expiresAt (rd (proposals s) pid)); [by left|].
    destruct (isAccepted (rd (proposals s) pid)) eqn:Hacc; [by left|].
    right; right; left. by exists env, pid, cert.
  - rewrite createMarriage_eq.
    repeat (match goal with |- context [if ?c then _ else _] => destruct c end;
            [left; reflexivity|]).
    do 3 right; left. by exists env, mid, a, b, h1, h2.
  - rewrite requestDivorce_eq. cbv zeta.
    destruct (isActive (rd (marriages s) mid)) eqn:Hact; cbn [negb]; [|by left].
    destruct (negb (spouse1Nullifier (rd (marriages s) mid) =? r) &&
              negb (spouse2Nullifier (rd (marriages s) mid) =? r)); [by left|].
    do 4 right; left. by exists mid, r.
  - rewrite updateZKPassportVerifier_eq.
    destruct (negb (owner s =? msg_sender env)); [by left|].
    do 5 right. by exists v, (ZKPassportVerifierUpdated v).
Qed.

Lemma run_app txs1 txs2 s : run (txs1 ++ txs2) s = run txs2 (run txs1 s).
Proof. unfold RealMarriageRegistry.run. apply fold_left_app. Qed.

Lemma reachable_run txs s : reachable s → reachable (run txs s).
Proof.
  revert s. induction txs as [|tx txs IH]; intros s Hs; [exact Hs|].
  cbn. apply IH. by constructor.
Qed.

Lemma rd_insert_true (m : gmap Z bool) (k n : Z) :
  rd m n = true → rd (<[k := true]> m) n = true.
Proof. intros Hn. rewrite rd_insert. by destruct (decide (k = n)). Qed.

(** The consumed set only grows, whatever the transaction. *)
Lemma usedNullifiers_step s tx n :
  rd (usedNullifiers s) n = true → rd (usedNullifiers (step s tx)) n = true.
Proof.
  intros Hn.
  destruct (step_cases s tx) as
    [-> | [(env & pid & a & b & h & exp & j & ->)
    | [(env & pid & cert & _ & ->)
    | [(env & mid & a & b & h1 & h2 & ->)
    | [(mid & r & _ & ->) | (v & ev & ->)]]]]]; cbn; try exact Hn;
    by do 2 apply rd_insert_true.
Qed.

Lemma usedNullifiers_run txs s n :
  rd (usedNullifiers s) n = true → rd (usedNullifiers (run txs s)) n = true.
Proof.
  revert s. induction txs as [|tx txs IH]; intros s Hn; [exact Hn|].
  cbn. apply IH. by apply usedNullifiers_step.
Qed.

(** *** Invariants of the reachable storages *)

Lemma married_are_consumed_step s tx :
  married_are_consumed s → married_are_consumed (step s tx).
Proof.
  intros Hinv.
  destruct (step_cases s tx) as
    [-> | [(env & pid & a & b & h & exp & j & ->)
    | [(env & pid & cert & _ & ->)
    | [(env & mid & a & b & h1 & h2 & ->)
    | [(mid & r & Hact & ->) | (v & ev & ->)]]]]]; try exact Hinv.
  - (* acceptMarriage *)
    intros n Hn. unfold currently_married, acceptMarriage_post in *.
    cbv zeta in *. cbn [usedNullifiers marriages nullifierToMarriage] in *.
    generalize dependent (rd (proposals s) pid). intros p Hn.
    destruct (decide (proposeeNullifier p = n)) as [Hpe|Hpe];
      [by rewrite Hpe, rd_insert_eq|].
    destruct (decide (proposerNullifier p = n)) as [Hpr|Hpr];
      [by rewrite rd_insert_ne, Hpr, rd_insert_eq|].
    do 2 apply rd_insert_true. apply Hinv.
    destruct Hn as [(mid & Hact & Hsp)|Hidx].
    + rewrite rd_insert in Hact, Hsp.
      destruct (decide (marriageIdOf keccak256 env p = mid)) as [_|_].
      * destruct Hsp as [Hsp|Hsp]; cbn in Hsp; congruence.
      * left. by exists mid.
    + right. by rewrite !rd_insert_ne in Hidx.
  - (* createMarriage *)
    intros n Hn. cbn.
    destruct (decide (b = n)) as [->|Hb]; [by rewrite rd_insert_eq|].
    destruct (decide (a = n)) as [->|Ha]; [by rewrite rd_insert_ne, rd_insert_eq|].
    do 2 apply rd_insert_true. apply Hinv.
    destruct Hn as [(mid' & Hact & Hsp)|Hidx]; cbn in *.
    + rewrite rd_insert in Hact, Hsp.
      destruct (decide (mid = mid')) as [_|_].
      * destruct Hsp as [Hsp|Hsp]; cbn in Hsp; congruence.
      * left. by exists mid'.
    + right. by rewrite !rd_insert_ne in Hidx.
  - (* requestDivorce *)
    intros n Hn. cbn. apply Hinv.
    destruct Hn as [(mid' & Hact' & Hsp)|Hidx]; cbn in *.
    + rewrite rd_insert in Hact', Hsp.
      destruct (decide (mid = mid')) as [_|_]; [discriminate Hact'|].
      left. by exists mid'.
    + right. rewrite !rd_insert in Hidx.
      repeat match type of Hidx with
             | context [decide ?P] => destruct (decide P)
             end; congruence.
Qed.

Lemma married_are_consumed_reachable s : reachable s → married_are_consumed s.
Proof.
  induction 1 as [env v|s tx _ IH]; [|by apply married_are_consumed_step].
  intros n [(mid & Hact & _)|Hidx]; cbn in *.
  - rewrite rd_empty in Hact. discriminate.
  - by rewrite rd_empty in Hidx.
Qed.

(** No entry point ever sets the [isExpired] flag of a proposal. *)
Lemma isExpired_never_set s :
  reachable s → ∀ pid, isExpired (rd (proposals s) pid) = false.
Proof.
  induction 1 as [env v|s tx _ IH]; intros pid'.
  - cbn. by rewrite rd_empty.
  - destruct (step_cases s tx) as
      [-> | [(env & pid & a & b & h & exp & j & ->)
      | [(env & pid & cert & _ & ->)
      | [(env & mid & a & b & h1 & h2 & ->)
      | [(mid & r & _ & ->) | (v & ev & ->)]]]]]; cbn; try apply IH.
    + rewrite rd_insert. destruct (decide (pid = pid')); [reflexivity|apply IH].
    + rewrite rd_insert. destruct (decide (pid = pid')); [cbn|]; apply IH.
Qed.

(** *** Proposal creation against married identities *)

(** C2 (as amended).  In every reachable storage, [createMarriageProposal]
    naming as proposer or proposee an identity that is currently married
    (a spouse of an active marriage record, or the holder of an entry in
    the nullifier index) reverts and leaves the storage as it was; the
    error is [NullifierAlreadyUsed], because the guards on the consumed
    set run before the [AlreadyMarried] guards. *)
Theorem C2_married_identity_proposal_reverts_as_consumed
    s n env pid a b h exp j p1 p2 :
  reachable s →
  currently_married s n →
  a = n ∨ b = n →
  createMarriageProposal env pid a b h exp j p1 p2 s
    = Revert NullifierAlreadyUsed s
  ∧ step s (env, CreateMarriageProposal pid a b h exp j p1 p2) = s.
Proof.
  intros Hs Hn Hab.
  pose proof (married_are_consumed_reachable s Hs n Hn) as Hused.
  assert (createMarriageProposal env pid a b h exp j p1 p2 s
          = Revert NullifierAlreadyUsed s) as Hrev.
  { rewrite createMarriageProposal_eq.
    destruct Hab as [-> | ->].
    - by rewrite Hused.
    - rewrite Hused. by destruct (rd (usedNullifiers s) a). }
  split; [exact Hrev|].
  unfold RealMarriageRegistry.step, transact, dispatch. cbn [fst snd].
  by rewrite Hrev.
Qed.

(** In a reachable storage the [AlreadyMarried] guards of
    [createMarriageProposal] are never the ones that fire. *)
Lemma createMarriageProposal_never_AlreadyMarried
    s env pid a b h exp j p1 p2 s' :
  reachable s →
  createMarriageProposal env pid a b h exp j p1 p2 s ≠ Revert AlreadyMarried s'.
Proof.
  intros Hs. pose proof (married_are_consumed_reachable s Hs) as Hinv.
  rewrite createMarriageProposal_eq.
  destruct (rd (usedNullifiers s) a) eqn:Ha; [discriminate|].
  destruct (rd (usedNullifiers s) b) eqn:Hb; [discriminate|].
  destruct (rd (nullifierToMarriage s) a =? 0) eqn:Hia; cbn [negb].
  - destruct (rd (nullifierToMarriage s) b =? 0) eqn:Hib; cbn [negb].
    + repeat (match goal with |- context [if ?c then _ else _] => destruct c end;
              try discriminate).
    + apply Z.eqb_neq in Hib. rewrite (Hinv b) in Hb; [discriminate|by right].
  - apply Z.eqb_neq in Hia. rewrite (Hinv a) in Ha; [discriminate|by right].
Qed.

(** *** Direct creation *)

(** C3.  Whoever calls it and whatever [marriageId] is passed (also one
    that already names a marriage record, active or not),
    [createMarriage] succeeds as soon as neither nullifier is in
    [usedNullifiers] and neither has an entry in [nullifierToMarriage]:
    no proof is checked and the caller plays no part.  The call
    overwrites [marriages[marriageId]] with the new record and marks
    both nullifiers as used. *)
Theorem C3_createMarriage_unguarded env marriageId s1 s2 h1 h2 s :
  rd (usedNullifiers s) s1 = false →
  rd (usedNullifiers s) s2 = false →
  rd (nullifierToMarriage s) s1 = 0 →
  rd (nullifierToMarriage s) s2 = 0 →
  ∃ s',
    createMarriage env marriageId s1 s2 h1 h2 s = Ok tt s' ∧
    rd (marriages s') marriageId
      = createdMarriage keccak256 env marriageId s1 s2 h1 h2 ∧
    rd (usedNullifiers s') s1 = true ∧
    rd (usedNullifiers s') s2 = true ∧
    (∀ caller, createMarriage
                 {| msg_sender := caller; block_timestamp := block_timestamp env |}
                 marriageId s1 s2 h1 h2 s = Ok tt s').
Proof.
  intros Hu1 Hu2 Hi1 Hi2.
  exists (createMarriage_post keccak256 env marriageId s1 s2 h1 h2 s).
  assert (∀ e, block_timestamp e = block_timestamp env →
               createMarriage e marriageId s1 s2 h1 h2 s
               = Ok tt (createMarriage_post keccak256 env marriageId s1 s2 h1 h2 s))
    as Hany.
  { intros e He. rewrite createMarriage_eq, Hu1, Hu2, Hi1, Hi2. cbn.
    unfold createMarriage_post, createdMarriage. by rewrite He. }
  split; [by apply Hany|]. cbn.
  split; [apply rd_insert_eq|].
  split; [apply rd_insert_true, rd_insert_eq|].
  split; [apply rd_insert_eq|].
  intros caller. by apply Hany.
Qed.

(** *** Atomicity *)

(** C5.  Every entry point is atomic.  When a call reverts, the storage
    is, at the very point of the revert, still the one the call started
    from (no write precedes a failing check), and that is the storage
    the transaction commits.  When [acceptMarriage] succeeds, the
    committed storage carries all the effects together: the accepted
    flag, the active marriage record, both index entries and both
    consumed-set entries. *)
Theorem C5_calls_are_atomic env c s :
  (∀ e s', dispatch keccak256 env c s = Revert e s' →
           s' = s ∧ step s (env, c) = s)
  ∧ (∀ proposalId cert s',
       c = AcceptMarriage proposalId cert →
       dispatch keccak256 env c s = Ok tt s' →
       let p := rd (proposals s) proposalId in
       let marriageId := marriageIdOf keccak256 env p in
       step s (env, c) = s' ∧
       isAccepted (rd (proposals s') proposalId) = true ∧
       rd (marriages s') marriageId = acceptedMarriage keccak256 env p cert ∧
       isActive (rd (marriages s') marriageId) = true ∧
       rd (nullifierToMarriage s') (proposerNullifier p) = marriageId ∧
       rd (nullifierToMarriage s') (proposeeNullifier p) = marriageId ∧
       rd (usedNullifiers s') (proposerNullifier p) = true ∧
       rd (usedNullifiers s') (proposeeNullifier p) = true).
Proof.
  split.
  - intros e s' Hrev.
    assert (s' = s) as ->.
    { destruct c as [pid a b h exp j p1 p2|pid cert|mid a b h1 h2|mid r|v];
        cbn [dispatch] in Hrev;
        [ rewrite createMarriageProposal_eq in Hrev
        | rewrite acceptMarriage_eq in Hrev
        | rewrite createMarriage_eq in Hrev
        | rewrite requestDivorce_eq in Hrev
        | rewrite updateZKPassportVerifier_eq in Hrev ];
        cbv zeta in Hrev;
        repeat match type of Hrev with
               | context [if ?b then _ else _] => destruct b
               end; congruence. }
    split; [reflexivity|].
    unfold RealMarriageRegistry.step, transact. cbn [fst snd]. by rewrite Hrev.
  - intros pid cert s' -> Hok. cbv zeta.
    assert (step s (env, AcceptMarriage pid cert) = s') as Hstep.
    { unfold RealMarriageRegistry.step, transact. cbn [fst snd]. by rewrite Hok. }
    split; [exact Hstep|].
    cbn [dispatch] in Hok. rewrite acceptMarriage_eq in Hok. cbv zeta in Hok.
    repeat match type of Hok with
           | context [if ?b then _ else _] => destruct b
           end; try discriminate.
    injection Hok as <-. unfold acceptMarriage_post. cbv zeta.
    cbn [proposals marriages nullifierToMarriage usedNullifiers].
    split; [by rewrite rd_insert_eq|].
    split; [apply rd_insert_eq|].
    split; [by rewrite rd_insert_eq|].
    split.
    { rewrite rd_insert.
      destruct (decide (proposeeNullifier (rd (proposals s) pid) =
                        proposerNullifier (rd (proposals s) pid)));
        [reflexivity|apply rd_insert_eq]. }
    split; [apply rd_insert_eq|].
    split; [apply rd_insert_true, rd_insert_eq|apply rd_insert_eq].
Qed.

(** *** Expiry *)

(** C6.  For every stored proposal (one whose [proposerNullifier] is not
    zero, which is how the contract tells that a proposal exists) whose
    [expiresAt] is before the block time of the call, [acceptMarriage]
    reverts with [ProposalExpired] and the storage, hence the marriages
    map, is unchanged.  The check is the comparison of the two times:
    the [isExpired] flag plays no part, and no entry point ever sets it. *)
Theorem C6_expired_proposal_cannot_be_accepted env proposalId cert s :
  proposerNullifier (rd (proposals s) proposalId) ≠ 0 →
  expiresAt (rd (proposals s) proposalId) < block_timestamp env →
  acceptMarriage env proposalId cert s = Revert ProposalExpired s
  ∧ step s (env, AcceptMarriage proposalId cert) = s
  ∧ (reachable s → isExpired (rd (proposals s) proposalId) = false).
Proof.
  intros Hex Hlt.
  assert (acceptMarriage env proposalId cert s = Revert ProposalExpired s) as Hrev.
  { rewrite acceptMarriage_eq. cbv zeta.
    apply Z.eqb_neq in Hex. rewrite Hex.
    assert ((block_timestamp env >? expiresAt (rd (proposals s) proposalId)) = true)
      as -> by (apply Z.gtb_lt; lia).
    reflexivity. }
  split; [exact Hrev|]. split.
  - unfold RealMarriageRegistry.step, transact, dispatch. cbn [fst snd].
    by rewrite Hrev.
  - intros Hs. by apply isExpired_never_set.
Qed.

(** *** Divorce *)

(** For an active marriage and a requester that is one of its two
    spouses, [requestDivorce] succeeds, leaves the marriage inactive and
    sets the index entries of both spouses to zero; asked again on the
    storage it left, by anyone, it reverts with [MarriageNotActive] and
    changes nothing. *)
Lemma requestDivorce_succeeds_once env marriageId requester s :
  isActive (rd (marriages s) marriageId) = true →
  is_spouse (rd (marriages s) marriageId) requester →
  ∃ s',
    requestDivorce env marriageId requester s = Ok tt s' ∧
    isActive (rd (marriages s') marriageId) = false ∧
    rd (nullifierToMarriage s')
       (spouse1Nullifier (rd (marriages s) marriageId)) = 0 ∧
    rd (nullifierToMarriage s')
       (spouse2Nullifier (rd (marriages s) marriageId)) = 0 ∧
    (∀ env' requester',
       requestDivorce env' marriageId requester' s' = Revert MarriageNotActive s' ∧
       step s' (env', RequestDivorce marriageId requester') = s').
Proof.
  intros Hact Hsp.
  exists (requestDivorce_post marriageId requester s).
  assert (isActive (rd (marriages (requestDivorce_post marriageId requester s))
                       marriageId) = false) as Hinactive.
  { cbn. by rewrite rd_insert_eq. }
  split.
  { rewrite requestDivorce_eq. cbv zeta. rewrite Hact. cbn [negb].
    destruct Hsp as [Hsp|Hsp]; rewrite Hsp, Z.eqb_refl; cbn [negb andb];
      [reflexivity|].
    by rewrite andb_false_r. }
  split; [exact Hinactive|].
  split.
  { cbn. rewrite rd_insert.
    destruct (decide (spouse2Nullifier (rd (marriages s) marriageId) =
                      spouse1Nullifier (rd (marriages s) marriageId)));
      [reflexivity|apply rd_insert_eq]. }
  split; [cbn; apply rd_insert_eq|].
  intros env' requester'.
  assert (requestDivorce env' marriageId requester'
            (requestDivorce_post marriageId requester s)
          = Revert MarriageNotActive (requestDivorce_post marriageId requester s))
    as Hrev.
  { rewrite requestDivorce_eq. cbv zeta. by rewrite Hinactive. }
  split; [exact Hrev|].
  unfold RealMarriageRegistry.step, transact, dispatch. cbn [fst snd].
  by rewrite Hrev.
Qed.

(** *** The consumed set *)

Lemma consumed_by_marriage_used s s1 n :
  consumed_by_marriage keccak256 s s1 n → rd (usedNullifiers s1) n = true.
Proof.
  intros [(env & pid & cert & Hok & Hn)|(env & mid & a & b & h1 & h2 & Hok & Hn)].
  - rewrite acceptMarriage_eq in Hok. cbv zeta in Hok.
    repeat match type of Hok with
           | context [if ?b then _ else _] => destruct b
           end; try discriminate.
    injection Hok as <-. cbn.
    destruct Hn as [-> | ->]; [apply rd_insert_true|]; apply rd_insert_eq.
  - rewrite createMarriage_eq in Hok.
    repeat match type of Hok with
           | context [if ?b then _ else _] => destruct b
           end; try discriminate.
    injection Hok as <-. cbn.
    destruct Hn as [-> | ->]; [apply rd_insert_true|]; apply rd_insert_eq.
Qed.

(** C8.  [usedNullifiers] is monotonic: no transaction, [requestDivorce]
    included, takes a nullifier out of it.  Hence, once a call has
    completed a marriage with [n] as a spouse, then after any further
    sequence of transactions (divorces among them) [n] is still marked
    used and every [createMarriageProposal] naming [n] as proposer or
    proposee reverts with [NullifierAlreadyUsed]. *)
Theorem C8_consumed_nullifier_stays_consumed s s1 n txs :
  consumed_by_marriage keccak256 s s1 n →
  (∀ s0 tx m, rd (usedNullifiers s0) m = true →
              rd (usedNullifiers (step s0 tx)) m = true)
  ∧ rd (usedNullifiers (run txs s1)) n = true
  ∧ (∀ env pid a b h exp j p1 p2,
       a = n ∨ b = n →
       createMarriageProposal env pid a b h exp j p1 p2 (run txs s1)
         = Revert NullifierAlreadyUsed (run txs s1)).
Proof.
  intros Hcons.
  pose proof (usedNullifiers_run txs s1 n (consumed_by_marriage_used s s1 n Hcons))
    as Hused.
  split; [intros s0 tx m; apply usedNullifiers_step|].
  split; [exact Hused|].
  intros env pid a b h exp j p1 p2 Hab.
  rewrite createMarriageProposal_eq.
  destruct Hab as [-> | ->].
  - by rewrite Hused.
  - rewrite Hused. by destruct (rd (usedNullifiers (run txs s1)) a).
Qed.

(** *** Proof and nullifier consistency *)

Lemma _verifyZKPassportProof_true proof claimed :
  _verifyZKPassportProof proof claimed = true ↔
  proof ≠ [] ∧ derivedNullifier keccak256 proof = claimed.
Proof.
  unfold RealMarriageRegistry._verifyZKPassportProof, derivedNullifier.
  destruct proof as [|b0 proof]; cbn [length Nat.eqb].
  - split; [discriminate|]. intros [Hne _]. by destruct Hne.
  - rewrite Z.eqb_eq. split; [intros Heq; by split|by intros [_ Heq]].
Qed.

(** C10 (as amended).  [_verifyZKPassportProof] accepts a proof and a
    claimed nullifier exactly when the proof is not empty and the
    nullifier derived from it, the hash of (the hash of the proof
    followed by the tag "nullifier"), equals the claim.  When the proof
    is empty or the derived value differs, the check returns false and
    [createMarriageProposal] given that pair for either party never
    succeeds: it reverts, leaving the storage as it was, with
    [InvalidZKPassportProof] whenever the guards that precede the proof
    checks (consumed nullifier, married nullifier, proposal id taken)
    all pass, and otherwise with the error of the first of those guards
    that does not: [NullifierAlreadyUsed] for a consumed nullifier, else
    [AlreadyMarried] for a nullifier with an index entry, else "Proposal
    already exists". *)
Theorem C10_mismatched_proof_is_rejected proof claimed :
  proof = [] ∨ derivedNullifier keccak256 proof ≠ claimed →
  _verifyZKPassportProof proof claimed = false
  ∧ ∀ env pid a b h exp j p1 p2 s,
      (p1 = proof ∧ a = claimed) ∨ (p2 = proof ∧ b = claimed) →
      createMarriageProposal env pid a b h exp j p1 p2 s
      = Revert (if rd (usedNullifiers s) a || rd (usedNullifiers s) b
                then NullifierAlreadyUsed
                else if negb (rd (nullifierToMarriage s) a =? 0)
                        || negb (rd (nullifierToMarriage s) b =? 0)
                then AlreadyMarried
                else if negb (proposerNullifier (rd (proposals s) pid) =? 0)
                then ErrorString "Proposal already exists"
                else InvalidZKPassportProof) s
      ∧ (proposal_guards_pass s pid a b →
         createMarriageProposal env pid a b h exp j p1 p2 s
           = Revert InvalidZKPassportProof s).
Proof.
  intros Hbad.
  assert (_verifyZKPassportProof proof claimed = false) as Hfalse.
  { destruct (_verifyZKPassportProof proof claimed) eqn:Hv; [|reflexivity].
    apply _verifyZKPassportProof_true in Hv as [Hne Heq].
    destruct Hbad as [Hempty|Hdiff]; [by destruct Hne|by destruct Hdiff]. }
  split; [exact Hfalse|].
  intros env pid a b h exp j p1 p2 s Hpair.
  assert (negb (_verifyZKPassportProof p1 a) = true ∨
          negb (_verifyZKPassportProof p2 b) = true) as Hneg.
  { destruct Hpair as [[-> ->]|[-> ->]]; rewrite Hfalse; [by left|by right]. }
  split.
  - rewrite createMarriageProposal_eq.
    destruct (rd (usedNullifiers s) a); [reflexivity|].
    destruct (rd (usedNullifiers s) b); [reflexivity|]. cbn [orb].
    destruct (negb (rd (nullifierToMarriage s) a =? 0)); [reflexivity|].
    destruct (negb (rd (nullifierToMarriage s) b =? 0)); [reflexivity|]. cbn [orb].
    destruct (negb (proposerNullifier (rd (proposals s) pid) =? 0)); [reflexivity|].
    destruct Hneg as [-> | Hn2]; [reflexivity|].
    rewrite Hn2. by destruct (negb (_verifyZKPassportProof p1 a)).
  - intros (Hu1 & Hu2 & Hi1 & Hi2 & Hfree).
    rewrite createMarriageProposal_eq, Hu1, Hu2, Hi1, Hi2, Hfree.
    cbn [Z.eqb negb].
    destruct Hneg as [-> | Hn2]; [reflexivity|].
    rewrite Hn2. by destruct (negb (_verifyZKPassportProof p1 a)).
Qed.

(** *** Proposals of an identity to itself *)

(** Nothing in [createMarriageProposal] compares the two nullifiers: with
    one valid proof given twice, a proposal of [n] to [n] is stored. *)
Lemma createMarriageProposal_stores_self_proposal env pid n h exp j p s :
  proposal_guards_pass s pid n n →
  _verifyZKPassportProof p n = true →
  createMarriageProposal env pid n n h exp j p p s
  = Ok tt (createMarriageProposal_post env pid n n h exp j s).
Proof.
  intros (Hu & _ & Hi & _ & Hfree) Hv.
  rewrite createMarriageProposal_eq, Hu, Hi, Hfree, Hv. reflexivity.
Qed.

(** *** How the index invariant can fail *)

Lemma index_invariant_broken s m n other :
  isActive (rd (marriages s) m) = true →
  spouse1Nullifier (rd (marriages s) m) = n →
  rd (nullifierToMarriage s) n = other →
  m ≠ other →
  ¬ index_invariant s.
Proof.
  intros Hact Hsp Hidx Hne Hinv.
  destruct (Hinv m Hact) as (Hi & _). rewrite Hsp, Hidx in Hi. by apply Hne.
Qed.

Lemma two_active_marriages s n m1 m2 :
  isActive (rd (marriages s) m1) = true →
  isActive (rd (marriages s) m2) = true →
  spouse1Nullifier (rd (marriages s) m1) = n →
  spouse1Nullifier (rd (marriages s) m2) = n →
  m1 ≠ m2 →
  ¬ at_most_one_active_marriage s.
Proof.
  intros H1 H2 Hs1 Hs2 Hne Hone. apply Hne.
  apply (Hone n m1 m2 H1 H2); by left.
Qed.
End WithHash.
End RealProofs.

(** ** MarriageRegistry: the Merkle membership verifier *)

Module MerkleProofs.
Import MarriageRegistry.

Section WithHash.
Variable keccak256 : list byte → bytes32.

(** One iteration of the loop computes the ordered combination. *)
Lemma ordered_branch (computedHash proofElement : bytes32) :
  (if computedHash <=? proofElement
   then keccak256 (Abi.enc_bytes32 computedHash ++ Abi.enc_bytes32 proofElement)
   else keccak256 (Abi.enc_bytes32 proofElement ++ Abi.enc_bytes32 computedHash))
  = combine_ordered keccak256 computedHash proofElement.
Proof.
  unfold combine_ordered.
  destruct (Z.leb_spec computedHash proofElement) as [Hle|Hgt].
  - by rewrite Z.min_l, Z.max_r.
  - by rewrite Z.min_r, Z.max_l by lia.
Qed.

(** With gas for the remaining iterations and one more test of the loop
    condition, the loop returns the fold over the rest of the path. *)
Lemma verifyMerkleProof_loop_returns {St} (proof : list bytes32) (s : St) :
  ∀ (remaining gas i : nat) (computedHash : bytes32),
    (length proof - i = remaining)%nat →
    (i ≤ length proof)%nat →
    (remaining < gas)%nat →
    verifyMerkleProof_loop keccak256 gas proof i computedHash s
      = Ok (candidate_root keccak256 computedHash (drop i proof)) s.
Proof.
  induction remaining as [|remaining IH]; intros gas i h Hrem Hle Hgas.
  - destruct gas as [|gas]; [lia|]. cbn [verifyMerkleProof_loop].
    assert (i = length proof) as -> by lia.
    rewrite Nat.ltb_irrefl, drop_all. reflexivity.
  - destruct gas as [|gas]; [lia|]. cbn [verifyMerkleProof_loop].
    assert (i < length proof)%nat as Hlt by lia.
    destruct (lookup_lt_is_Some_2 proof i Hlt) as [e He].
    apply Nat.ltb_lt in Hlt as Hltb. rewrite Hltb.
    unfold index. rewrite He.
    erewrite ExecFacts.exec_bind_ok by reflexivity.
    rewrite (drop_S _ _ _ He). unfold candidate_root. cbn [fold_left].
    rewrite <- ordered_branch.
    destruct (h <=? e); apply IH; lia.
Qed.

Lemma verifyMerkleProof_returns_spec {St} (proof : list bytes32) (root leaf : bytes32)
    (s : St) :
  verifyMerkleProof keccak256 proof root leaf s
  = Ok (verifyMembership_spec keccak256 leaf root proof) s.
Proof.
  unfold verifyMerkleProof.
  erewrite ExecFacts.exec_bind_ok
    by (apply (verifyMerkleProof_loop_returns proof s (length proof)); lia).
  rewrite drop_0. unfold verifyMembership_spec.
  cbv [mret exec_ret EVM.ret]. f_equal.
  destruct (Z.eqb_spec (candidate_root keccak256 leaf proof) root) as [Heq|Hne].
  - by rewrite bool_decide_eq_true_2.
  - by rewrite bool_decide_eq_false_2.
Qed.

(** C9.  [verifyMerkleProof] is a pure, total function: on every proof,
    root and leaf, and whatever the storage (which it neither reads nor
    changes), it returns, without panic or revert, the verdict of the
    specification: fold the leaf through the sibling path, at each level
    hashing the two values concatenated in increasing numeric order, and
    compare the result with the root.  On an empty path it returns true
    exactly when the leaf is the root. *)
Theorem C9_verifyMerkleProof_is_ordered_fold
    (St : Type) (s : St) (proof : list bytes32) (root leaf : bytes32) :
  verifyMerkleProof keccak256 proof root leaf s
    = Ok (verifyMembership_spec keccak256 leaf root proof) s
  ∧ candidate_root keccak256 leaf proof
    = fold_left (λ acc sibling,
                   keccak256 (Abi.enc_bytes32 (Z.min acc sibling) ++
                              Abi.enc_bytes32 (Z.max acc sibling))) proof leaf
  ∧ (verifyMerkleProof keccak256 [] root leaf s = Ok true s ↔ leaf = root).
Proof.
  assert (∀ p, verifyMerkleProof keccak256 p root leaf s
               = Ok (verifyMembership_spec keccak256 leaf root p) s) as Hrun
    by (intros p; apply verifyMerkleProof_returns_spec).
  split; [apply Hrun|]. split; [reflexivity|].
  rewrite Hrun. unfold verifyMembership_spec, candidate_root. cbn [fold_left].
  split.
  - intros Hok. injection Hok as Hb. by apply bool_decide_eq_true_1 in Hb.
  - intros ->. by rewrite bool_decide_eq_true_2.
Qed.

End WithHash.
End MerkleProofs.

(** ** MarriageRegistry: divorce in the address-bound registry *)

Module SimpleProofs.
Import MarriageRegistry MappingFacts.

Section WithHash.
Variable keccak256 : list byte → bytes32.

(** [verifyZKPassport] always returns, with the verdict of the membership
    specification for the caller's leaf under the current root. *)
Lemma verifyZKPassport_returns user merkleProof s :
  verifyZKPassport keccak256 user merkleProof s
  = Ok (verifyMembership_spec keccak256 (keccak256 (Abi.enc_address user))
          (zkPassportMerkleRoot s) merkleProof) s.
Proof.
  unfold verifyZKPassport. cbv zeta. rewrite ExecFacts.exec_gets.
  apply MerkleProofs.verifyMerkleProof_returns_spec.
Qed.

(** The counterpart of the divorce guard in the address-bound registry: a
    spouse holding a valid passport proof dissolves an active marriage
    once; any further request on it reverts with "Marriage not active". *)
Lemma requestDivorce_once env marriageId merkleProof s :
  let m := rd (marriages s) marriageId in
  let requesterHash := Abi.address_to_bytes32 (msg_sender env) in
  isActive m = true →
  spouse1Hash m = requesterHash ∨ spouse2Hash m = requesterHash →
  verifyMembership_spec keccak256 (keccak256 (Abi.enc_address (msg_sender env)))
    (zkPassportMerkleRoot s) merkleProof = true →
  ∃ s',
    requestDivorce keccak256 env marriageId merkleProof s = Ok tt s' ∧
    isActive (rd (marriages s') marriageId) = false ∧
    rd (personToMarriage s') (spouse1Hash m) = 0 ∧
    rd (personToMarriage s') (spouse2Hash m) = 0 ∧
    (∀ env' merkleProof',
       requestDivorce keccak256 env' marriageId merkleProof' s'
       = Revert (ErrorString "Marriage not active") s').
Proof.
  intros m requesterHash Hact Hsp Hvalid. subst m requesterHash.
  unfold requestDivorce. cbv zeta.
  exec_step. rewrite Hact.
  exec_step.
  assert ((spouse1Hash (rd (marriages s) marriageId)
             =? Abi.address_to_bytes32 (msg_sender env))
          || (spouse2Hash (rd (marriages s) marriageId)
                =? Abi.address_to_bytes32 (msg_sender env)) = true) as ->.
  { destruct Hsp as [-> | ->]; rewrite Z.eqb_refl; [reflexivity|apply orb_true_r]. }
  erewrite ExecFacts.exec_bind_ok by apply verifyZKPassport_returns.
  rewrite Hvalid. exec_step.
  repeat (exec_step;
          cbn [marriages personToMarriage set_marriages set_personToMarriage];
          rewrite ?rd_insert_eq;
          cbn [spouse1Hash spouse2Hash with_isActive]).
  unfold emit, modify.
  eexists. split; [reflexivity|].
  cbn [marriages personToMarriage set_marriages set_personToMarriage].
  split; [by rewrite rd_insert_eq|].
  split.
  { rewrite rd_insert.
    destruct (decide (spouse2Hash (rd (marriages s) marriageId) =
                      spouse1Hash (rd (marriages s) marriageId)));
      [reflexivity|apply rd_insert_eq]. }
  split; [apply rd_insert_eq|].
  intros env' merkleProof'. exec_step.
  cbn [marriages set_marriages set_personToMarriage]. by rewrite rd_insert_eq.
Qed.

(** Without such a proof the spouse is refused: when [verifyZKPassport]
    returns false for the sender and the path given, [requestDivorce] on an
    active marriage of the sender reverts with "Invalid zkPassport proof"
    and writes nothing. *)
Lemma requestDivorce_needs_valid_proof env marriageId merkleProof s :
  let m := rd (marriages s) marriageId in
  let requesterHash := Abi.address_to_bytes32 (msg_sender env) in
  isActive m = true →
  spouse1Hash m = requesterHash ∨ spouse2Hash m = requesterHash →
  verifyZKPassport keccak256 (msg_sender env) merkleProof s = Ok false s →
  requestDivorce keccak256 env marriageId merkleProof s
  = Revert (ErrorString "Invalid zkPassport proof") s.
Proof.
  intros m requesterHash Hact Hsp Hinvalid. subst m requesterHash.
  unfold requestDivorce. cbv zeta.
  exec_step. rewrite Hact.
  exec_step.
  assert ((spouse1Hash (rd (marriages s) marriageId)
             =? Abi.address_to_bytes32 (msg_sender env))
          || (spouse2Hash (rd (marriages s) marriageId)
                =? Abi.address_to_bytes32 (msg_sender env)) = true) as ->.
  { destruct Hsp as [-> | ->]; rewrite Z.eqb_refl; [reflexivity|apply orb_true_r]. }
  erewrite ExecFacts.exec_bind_ok by exact Hinvalid.
  by exec_step.
Qed.

End WithHash.
End SimpleProofs.

(** ** Divorce in both registries *)

Module DivorceProofs.
Import MappingFacts.

Section WithHash.
Variable keccak256 : list byte → bytes32.

(** C7 (as amended).  In the nullifier-bound registry, for an active
    marriage and a requester that is one of its two spouses,
    [requestDivorce] succeeds, leaves the marriage inactive and sets the
    index entries of both spouses to zero.  In the address-bound registry
    the same holds for a sender that is one of the two spouses when
    [verifyZKPassport] accepts the Merkle path the sender gives; when it
    does not, the request reverts with "Invalid zkPassport proof" and
    changes nothing, the marriage staying active.  In both registries a
    further [requestDivorce] on the storage a successful one left, by
    anyone and with any path, reverts with [MarriageNotActive] ("Marriage
    not active" in the address-bound registry) and changes nothing. *)
Theorem C7_divorce_once_given_a_valid_proof :
  (∀ env marriageId requester s,
     RealMarriageRegistry.isActive
       (rd (RealMarriageRegistry.marriages s) marriageId) = true →
     RealMarriageRegistry.is_spouse
       (rd (RealMarriageRegistry.marriages s) marriageId) requester →
     ∃ s',
       RealMarriageRegistry.requestDivorce env marriageId requester s = Ok tt s' ∧
       RealMarriageRegistry.isActive
         (rd (RealMarriageRegistry.marriages s') marriageId) = false ∧
       rd (RealMarriageRegistry.nullifierToMarriage s')
          (RealMarriageRegistry.spouse1Nullifier
             (rd (RealMarriageRegistry.marriages s) marriageId)) = 0 ∧
       rd (RealMarriageRegistry.nullifierToMarriage s')
          (RealMarriageRegistry.spouse2Nullifier
             (rd (RealMarriageRegistry.marriages s) marriageId)) = 0 ∧
       (∀ env' requester',
          RealMarriageRegistry.requestDivorce env' marriageId requester' s'
          = Revert MarriageNotActive s' ∧
          RealMarriageRegistry.step keccak256 s'
            (env', RealMarriageRegistry.RequestDivorce marriageId requester') = s'))
  ∧ (∀ env marriageId merkleProof s,
       let m := rd (MarriageRegistry.marriages s) marriageId in
       let requesterHash :=
         Abi.address_to_bytes32 (MarriageRegistry.msg_sender env) in
       MarriageRegistry.isActive m = true →
       MarriageRegistry.spouse1Hash m = requesterHash
       ∨ MarriageRegistry.spouse2Hash m = requesterHash →
       (MarriageRegistry.verifyZKPassport keccak256 (MarriageRegistry.msg_sender env)
          merkleProof s = Ok true s →
        ∃ s',
          MarriageRegistry.requestDivorce keccak256 env marriageId merkleProof s
          = Ok tt s' ∧
          MarriageRegistry.isActive (rd (MarriageRegistry.marriages s') marriageId)
          = false ∧
          rd (MarriageRegistry.personToMarriage s') (MarriageRegistry.spouse1Hash m)
          = 0 ∧
          rd (MarriageRegistry.personToMarriage s') (MarriageRegistry.spouse2Hash m)
          = 0 ∧
          (∀ env' merkleProof',
             MarriageRegistry.requestDivorce keccak256 env' marriageId merkleProof' s'
             = Revert (ErrorString "Marriage not active") s' ∧
             MarriageRegistry.step keccak256 s'
               (env', MarriageRegistry.RequestDivorce marriageId merkleProof') = s'))
       ∧ (MarriageRegistry.verifyZKPassport keccak256
            (MarriageRegistry.msg_sender env) merkleProof s = Ok false s →
          MarriageRegistry.requestDivorce keccak256 env marriageId merkleProof s
          = Revert (ErrorString "Invalid zkPassport proof") s ∧
          MarriageRegistry.step keccak256 s
            (env, MarriageRegistry.RequestDivorce marriageId merkleProof) = s)
       ∧ (∃ valid,
            MarriageRegistry.verifyZKPassport keccak256
              (MarriageRegistry.msg_sender env) merkleProof s = Ok valid s)).
Proof.
  split.
  - intros env marriageId requester s Hact Hsp.
    exact (RealProofs.requestDivorce_succeeds_once keccak256 env marriageId
             requester s Hact Hsp).
  - intros env marriageId merkleProof s m requesterHash Hact Hsp.
    split; [|split].
    + intros Hvalid.
      rewrite SimpleProofs.verifyZKPassport_returns in Hvalid.
      injection Hvalid as Hvalid.
      destruct (SimpleProofs.requestDivorce_once keccak256 env marriageId
                  merkleProof s Hact Hsp Hvalid)
        as (s' & Hok & Hinactive & Hidx1 & Hidx2 & Hagain).
      exists s'. do 4 (split; [assumption|]).
      intros env' merkleProof'. split; [apply Hagain|].
      unfold MarriageRegistry.step, transact. cbn [fst snd MarriageRegistry.dispatch].
      by rewrite Hagain.
    + intros Hinvalid.
      pose proof (SimpleProofs.requestDivorce_needs_valid_proof keccak256 env
                    marriageId merkleProof s Hact Hsp Hinvalid) as Hrev.
      split; [exact Hrev|].
      unfold MarriageRegistry.step, transact. cbn [fst snd MarriageRegistry.dispatch].
      by rewrite Hrev.
    + eexists. apply SimpleProofs.verifyZKPassport_returns.
Qed.

End WithHash.
End DivorceProofs.

(** ** The off-chain service refuses a marriage of one identity with itself *)

Module ServiceProofs.
Import ZKPassportService.

Lemma canMarry_rejects_same_nullifier proof1 proof2 jurisdiction :
  nullifier proof1 = nullifier proof2 →
  canMarry_result (canMarry proof1 proof2 jurisdiction) = false.
Proof.
  intros Hsame. unfold canMarry.
  destruct (negb (isValid proof1) || negb (isValid proof2)); [reflexivity|].
  cbv zeta. rewrite bool_decide_eq_true_2 by exact Hsame.
  cbn [canMarry_result]. rewrite length_app. cbn [length].
  apply Nat.eqb_neq. lia.
Qed.

Lemma canMarry_same_nullifier_reason proof1 proof2 jurisdiction :
  isValid proof1 = true → isValid proof2 = true →
  nullifier proof1 = nullifier proof2 →
  "Cannot marry yourself" ∈ reasons (canMarry proof1 proof2 jurisdiction).
Proof.
  intros Hv1 Hv2 Hsame. unfold canMarry. rewrite Hv1, Hv2. cbn [negb orb].
  cbv zeta. rewrite bool_decide_eq_true_2 by exact Hsame.
  cbn [reasons]. apply elem_of_app. right. apply list_elem_of_singleton.
  reflexivity.
Qed.
End ServiceProofs.

(** ** The contracts run on concrete transactions *)

Module ScenarioProofs.
Import RealMarriageRegistry MappingFacts Scenarios.

(** From here on the hash is only ever evaluated as a whole. *)
Opaque Keccak.keccak256.

(** The named storages are the ones the transactions produce. *)
Lemma nullifiers_derived :
  alice = derivedNullifier Keccak.keccak256 alice_proof
  ∧ bob = derivedNullifier Keccak.keccak256 bob_proof
  ∧ carol = derivedNullifier Keccak.keccak256 carol_proof.
Proof. repeat split; vm_compute; reflexivity. Qed.

Lemma scenario_values :
  alice = 0xeb447e66f23c3cb3f45d8afe6f66626a35bcf486f784a1f06c77cac56188689b
  ∧ bob = 0xe002185dc652fdfb77ab4ad4c7fe163e0c8b26747e8206445b8de25c800592b0
  ∧ carol = 0x9538a304a71e5b36484887e1f5f71048d4b1470a07d95dc32d290ab5d6b00d60
  ∧ marriage_alice_bob
    = 0xe11effd20070b001f3a7c2855bb225bf49089c4935852f69b47bd37fe028ed2a
  ∧ marriage_alice_carol
    = 0xb4a819d0952c61f76cbdad4f2e5de12ddc0514f02500aa8be28a99a60bdcf86c.
Proof. repeat split; reflexivity. Qed.

Lemma alice_married_bob_run :
  alice_married_bob
  = run Keccak.keccak256
        [propose_alice_bob; propose_alice_carol; accept_alice_bob] genesis.
Proof. vm_compute. reflexivity. Qed.

Lemma alice_married_twice_run :
  alice_married_twice
  = run Keccak.keccak256
        [propose_alice_bob; propose_alice_carol; accept_alice_bob;
         accept_alice_carol] genesis.
Proof. vm_compute. reflexivity. Qed.

Lemma married_10_11_run :
  married_10_11
  = run Keccak.keccak256 [(at_time relayer 1001, CreateMarriage 1 10 11 0 0)] genesis.
Proof. vm_compute. reflexivity. Qed.

Lemma alice_proposed_to_bob_run :
  alice_proposed_to_bob = run Keccak.keccak256 [propose_alice_bob] genesis.
Proof. vm_compute. reflexivity. Qed.

Lemma genesis_reachable : reachable Keccak.keccak256 genesis.
Proof. unfold genesis. apply reachable_deployed. Qed.

Lemma alice_married_bob_reachable : reachable Keccak.keccak256 alice_married_bob.
Proof.
  rewrite alice_married_bob_run. apply RealProofs.reachable_run.
  exact genesis_reachable.
Qed.

Lemma alice_married_twice_reachable : reachable Keccak.keccak256 alice_married_twice.
Proof.
  rewrite alice_married_twice_run. apply RealProofs.reachable_run.
  exact genesis_reachable.
Qed.

Lemma married_10_11_reachable : reachable Keccak.keccak256 married_10_11.
Proof.
  rewrite married_10_11_run. apply RealProofs.reachable_run.
  exact genesis_reachable.
Qed.

Lemma alice_proposed_to_bob_reachable :
  reachable Keccak.keccak256 alice_proposed_to_bob.
Proof.
  rewrite alice_proposed_to_bob_run. apply RealProofs.reachable_run.
  exact genesis_reachable.
Qed.

(** C1 (the code at the failing input).  Alice proposes to Bob and to
    Carol while unmarried, and both proposals are then accepted:
    [acceptMarriage] does not look at [nullifierToMarriage] or
    [usedNullifiers].  In the storage reached, the marriage of Alice and
    Bob is active with Alice as first spouse while Alice's index entry
    points to her marriage with Carol, which is active too: the index
    invariant fails and Alice has two active marriages. *)
Theorem C1_second_acceptance_breaks_index_invariant :
  alice_married_twice
  = run Keccak.keccak256
        [propose_alice_bob; propose_alice_carol; accept_alice_bob;
         accept_alice_carol] genesis
  ∧ reachable Keccak.keccak256 alice_married_twice
  ∧ isActive (rd (marriages alice_married_twice) marriage_alice_bob) = true
  ∧ spouse1Nullifier (rd (marriages alice_married_twice) marriage_alice_bob) = alice
  ∧ isActive (rd (marriages alice_married_twice) marriage_alice_carol) = true
  ∧ spouse1Nullifier (rd (marriages alice_married_twice) marriage_alice_carol) = alice
  ∧ marriage_alice_bob ≠ marriage_alice_carol
  ∧ rd (nullifierToMarriage alice_married_twice) alice = marriage_alice_carol
  ∧ ¬ index_invariant alice_married_twice
  ∧ ¬ at_most_one_active_marriage alice_married_twice.
Proof.
  assert (isActive (rd (marriages alice_married_twice) marriage_alice_bob) = true)
    as Hab by (vm_compute; reflexivity).
  assert (spouse1Nullifier (rd (marriages alice_married_twice) marriage_alice_bob)
          = alice) as Hab1 by (vm_compute; reflexivity).
  assert (isActive (rd (marriages alice_married_twice) marriage_alice_carol) = true)
    as Hac by (vm_compute; reflexivity).
  assert (spouse1Nullifier (rd (marriages alice_married_twice) marriage_alice_carol)
          = alice) as Hac1 by (vm_compute; reflexivity).
  assert (marriage_alice_bob ≠ marriage_alice_carol) as Hne
    by (vm_compute; discriminate).
  assert (rd (nullifierToMarriage alice_married_twice) alice = marriage_alice_carol)
    as Hidx by (vm_compute; reflexivity).
  split; [exact alice_married_twice_run|].
  split; [exact alice_married_twice_reachable|].
  split; [exact Hab|]. split; [exact Hab1|].
  split; [exact Hac|]. split; [exact Hac1|].
  split; [exact Hne|]. split; [exact Hidx|].
  split.
  - exact (RealProofs.index_invariant_broken _ _ _ _ Hab Hab1 Hidx Hne).
  - exact (RealProofs.two_active_marriages _ _ _ _ Hab Hac Hab1 Hac1 Hne).
Qed.

(** C2 (counterexample).  Alice is married to Bob: she is a spouse of an
    active record and holds an index entry.  The pending, unexpired
    proposal of Alice to Carol is nevertheless accepted, and a new proposal
    naming Alice reverts with [NullifierAlreadyUsed], not [AlreadyMarried]. *)
Lemma C2_counterexample_married_alice :
  reachable Keccak.keccak256 alice_married_bob
  ∧ isActive (rd (marriages alice_married_bob) marriage_alice_bob) = true
  ∧ spouse1Nullifier (rd (marriages alice_married_bob) marriage_alice_bob) = alice
  ∧ rd (nullifierToMarriage alice_married_bob) alice = marriage_alice_bob
  ∧ proposerNullifier (rd (proposals alice_married_bob) 2) = alice
  ∧ isAccepted (rd (proposals alice_married_bob) 2) = false
  ∧ expiresAt (rd (proposals alice_married_bob) 2) = 5000
  ∧ acceptMarriage Keccak.keccak256 (at_time relayer 1004) 2 0xC2 alice_married_bob
    = Ok tt alice_married_twice
  ∧ isActive (rd (marriages alice_married_twice) marriage_alice_carol) = true
  ∧ createMarriageProposal Keccak.keccak256 (at_time relayer 1004) 3 alice carol 0
      5000 "default" alice_proof carol_proof alice_married_bob
    = Revert NullifierAlreadyUsed alice_married_bob
  ∧ createMarriageProposal Keccak.keccak256 (at_time relayer 1004) 3 alice carol 0
      5000 "default" alice_proof carol_proof alice_married_bob
    ≠ Revert AlreadyMarried alice_married_bob.
Proof.
  assert (createMarriageProposal Keccak.keccak256 (at_time relayer 1004) 3 alice
            carol 0 5000 "default" alice_proof carol_proof alice_married_bob
          = Revert NullifierAlreadyUsed alice_married_bob) as Hrev
    by (vm_compute; reflexivity).
  split; [exact alice_married_bob_reachable|].
  do 8 (split; [vm_compute; reflexivity|]).
  split; [exact Hrev|].
  rewrite Hrev. discriminate.
Qed.

Lemma C2_witness_married_alice :
  (reachable Keccak.keccak256 alice_married_bob
   ∧ currently_married alice_married_bob alice
   ∧ (alice = alice ∨ carol = alice))
  ∧ createMarriageProposal Keccak.keccak256 (at_time relayer 1004) 3 alice carol 0
      5000 "default" alice_proof carol_proof alice_married_bob
    = Revert NullifierAlreadyUsed alice_married_bob
  ∧ step Keccak.keccak256 alice_married_bob
      (at_time relayer 1004,
       CreateMarriageProposal 3 alice carol 0 5000 "default" alice_proof carol_proof)
    = alice_married_bob.
Proof.
  assert (currently_married alice_married_bob alice) as Hm.
  { left. exists marriage_alice_bob.
    split; [vm_compute; reflexivity|left; vm_compute; reflexivity]. }
  assert (alice = alice ∨ carol = alice) as Hor by (left; reflexivity).
  split; [exact (conj alice_married_bob_reachable (conj Hm Hor))|].
  exact (RealProofs.C2_married_identity_proposal_reverts_as_consumed
           Keccak.keccak256 alice_married_bob alice (at_time relayer 1004) 3
           alice carol 0 5000 "default" alice_proof carol_proof
           alice_married_bob_reachable Hm Hor).
Defined.

Lemma C3_witness_overwrites_active_marriage :
  (isActive (rd (marriages married_10_11) 1) = true
   ∧ rd (usedNullifiers married_10_11) 20 = false
   ∧ rd (usedNullifiers married_10_11) 21 = false
   ∧ rd (nullifierToMarriage married_10_11) 20 = 0
   ∧ rd (nullifierToMarriage married_10_11) 21 = 0)
  ∧ ∃ s',
      createMarriage Keccak.keccak256 (at_time 0xBAD 1002) 1 20 21 0 0 married_10_11
        = Ok tt s' ∧
      rd (marriages s') 1
        = createdMarriage Keccak.keccak256 (at_time 0xBAD 1002) 1 20 21 0 0 ∧
      rd (usedNullifiers s') 20 = true ∧
      rd (usedNullifiers s') 21 = true ∧
      (∀ caller, createMarriage Keccak.keccak256
                   {| msg_sender := caller;
                      block_timestamp := block_timestamp (at_time 0xBAD 1002) |}
                   1 20 21 0 0 married_10_11 = Ok tt s').
Proof.
  assert (isActive (rd (marriages married_10_11) 1) = true) as Hact
    by (vm_compute; reflexivity).
  assert (rd (usedNullifiers married_10_11) 20 = false) as Hu1
    by (vm_compute; reflexivity).
  assert (rd (usedNullifiers married_10_11) 21 = false) as Hu2
    by (vm_compute; reflexivity).
  assert (rd (nullifierToMarriage married_10_11) 20 = 0) as Hi1
    by (vm_compute; reflexivity).
  assert (rd (nullifierToMarriage married_10_11) 21 = 0) as Hi2
    by (vm_compute; reflexivity).
  split; [exact (conj Hact (conj Hu1 (conj Hu2 (conj Hi1 Hi2))))|].
  exact (RealProofs.C3_createMarriage_unguarded Keccak.keccak256
           (at_time 0xBAD 1002) 1 20 21 0 0 married_10_11 Hu1 Hu2 Hi1 Hi2).
Defined.

(** C4 (the code at the failing input).  With her own proof given for both
    parties, Alice's proposal to herself is stored by
    [createMarriageProposal]; in the address-bound registry, [proposeMarriage]
    stores the proposal of [solo] to its own address hash. *)
Theorem C4_self_proposal_is_stored :
  createMarriageProposal Keccak.keccak256 (at_time relayer 1001) 1 alice alice 0
      5000 "default" alice_proof alice_proof genesis
    = Ok tt alice_proposed_to_alice
  ∧ proposerNullifier (rd (proposals alice_proposed_to_alice) 1) = alice
  ∧ proposeeNullifier (rd (proposals alice_proposed_to_alice) 1) = alice
  ∧ MarriageRegistry.proposeMarriage Keccak.keccak256 solo_env 1
      (Abi.address_to_bytes32 solo) 7 [] solo_genesis
    = Ok tt solo_proposed_to_solo
  ∧ MarriageRegistry.proposer
      (rd (MarriageRegistry.proposals solo_proposed_to_solo) 1)
    = Abi.address_to_bytes32 solo
  ∧ MarriageRegistry.proposee
      (rd (MarriageRegistry.proposals solo_proposed_to_solo) 1)
    = Abi.address_to_bytes32 solo.
Proof.
  do 5 (split; [vm_compute; reflexivity|]). vm_compute. reflexivity.
Qed.

Lemma C5_witness_revert_and_acceptance :
  (dispatch Keccak.keccak256 (at_time relayer 1003) (AcceptMarriage 9 0xC1)
            alice_proposed_to_bob
     = Revert ProposalNotFound alice_proposed_to_bob
   ∧ dispatch Keccak.keccak256 (at_time relayer 1003) (AcceptMarriage 1 0xC1)
              alice_proposed_to_bob
     = Ok tt (acceptMarriage_post Keccak.keccak256 (at_time relayer 1003) 1 0xC1
                alice_proposed_to_bob))
  ∧ step Keccak.keccak256 alice_proposed_to_bob
         (at_time relayer 1003, AcceptMarriage 9 0xC1) = alice_proposed_to_bob
  ∧ isAccepted
      (rd (proposals (acceptMarriage_post Keccak.keccak256 (at_time relayer 1003) 1
                        0xC1 alice_proposed_to_bob)) 1) = true.
Proof.
  assert (dispatch Keccak.keccak256 (at_time relayer 1003) (AcceptMarriage 9 0xC1)
                   alice_proposed_to_bob
          = Revert ProposalNotFound alice_proposed_to_bob) as Hrev
    by (vm_compute; reflexivity).
  assert (dispatch Keccak.keccak256 (at_time relayer 1003) (AcceptMarriage 1 0xC1)
                   alice_proposed_to_bob
          = Ok tt (acceptMarriage_post Keccak.keccak256 (at_time relayer 1003) 1 0xC1
                     alice_proposed_to_bob)) as Hok
    by (vm_compute; reflexivity).
  split; [exact (conj Hrev Hok)|]. split.
  - exact (proj2 (proj1 (RealProofs.C5_calls_are_atomic Keccak.keccak256
                           (at_time relayer 1003) (AcceptMarriage 9 0xC1)
                           alice_proposed_to_bob)
                        ProposalNotFound alice_proposed_to_bob Hrev)).
  - exact (proj1 (proj2 (proj2 (RealProofs.C5_calls_are_atomic Keccak.keccak256
                                  (at_time relayer 1003) (AcceptMarriage 1 0xC1)
                                  alice_proposed_to_bob)
                               1 0xC1 _ eq_refl Hok))).
Defined.

Lemma C6_witness_expired_proposal :
  (proposerNullifier (rd (proposals alice_proposed_to_bob) 1) ≠ 0
   ∧ expiresAt (rd (proposals alice_proposed_to_bob) 1)
     < block_timestamp (at_time relayer 5001))
  ∧ acceptMarriage Keccak.keccak256 (at_time relayer 5001) 1 0xC1
      alice_proposed_to_bob
    = Revert ProposalExpired alice_proposed_to_bob
  ∧ step Keccak.keccak256 alice_proposed_to_bob
         (at_time relayer 5001, AcceptMarriage 1 0xC1) = alice_proposed_to_bob
  ∧ (reachable Keccak.keccak256 alice_proposed_to_bob →
     isExpired (rd (proposals alice_proposed_to_bob) 1) = false).
Proof.
  assert (proposerNullifier (rd (proposals alice_proposed_to_bob) 1) ≠ 0) as Hex
    by (vm_compute; discriminate).
  assert (expiresAt (rd (proposals alice_proposed_to_bob) 1)
          < block_timestamp (at_time relayer 5001)) as Hlt
    by (vm_compute; reflexivity).
  split; [exact (conj Hex Hlt)|].
  exact (RealProofs.C6_expired_proposal_cannot_be_accepted Keccak.keccak256
           (at_time relayer 5001) 1 0xC1 alice_proposed_to_bob Hex Hlt).
Defined.

(** C7 (counterexample).  In the address-bound registry Alice, first
    spouse of her active marriage with Bob, asks for the divorce with an
    empty Merkle path: [requestDivorce] reverts with "Invalid zkPassport
    proof" and the marriage stays active.  Once the owner has replaced the
    passport root, both spouses are refused in the same way with the paths
    that verified before. *)
Lemma C7_counterexample_spouse_without_valid_path :
  MarriageRegistry.isActive
    (rd (MarriageRegistry.marriages FixtureScenarios.married_to_bob)
        FixtureScenarios.marriage_with_bob) = true
  ∧ MarriageRegistry.spouse1Hash
      (rd (MarriageRegistry.marriages FixtureScenarios.married_to_bob)
          FixtureScenarios.marriage_with_bob)
    = Abi.address_to_bytes32 FixtureScenarios.alice
  ∧ MarriageRegistry.spouse2Hash
      (rd (MarriageRegistry.marriages FixtureScenarios.married_to_bob)
          FixtureScenarios.marriage_with_bob)
    = Abi.address_to_bytes32 FixtureScenarios.bob
  ∧ MarriageRegistry.requestDivorce Keccak.keccak256
      (FixtureScenarios.at_time FixtureScenarios.alice 1005)
      FixtureScenarios.marriage_with_bob [] FixtureScenarios.married_to_bob
    = Revert (ErrorString "Invalid zkPassport proof") FixtureScenarios.married_to_bob
  ∧ MarriageRegistry.marriages FixtureScenarios.married_under_new_root
    = MarriageRegistry.marriages FixtureScenarios.married_to_bob
  ∧ MarriageRegistry.requestDivorce Keccak.keccak256
      (FixtureScenarios.at_time FixtureScenarios.alice 1006)
      FixtureScenarios.marriage_with_bob FixtureScenarios.alice_path
      FixtureScenarios.married_under_new_root
    = Revert (ErrorString "Invalid zkPassport proof")
        FixtureScenarios.married_under_new_root
  ∧ MarriageRegistry.requestDivorce Keccak.keccak256
      (FixtureScenarios.at_time FixtureScenarios.bob 1006)
      FixtureScenarios.marriage_with_bob FixtureScenarios.bob_path
      FixtureScenarios.married_under_new_root
    = Revert (ErrorString "Invalid zkPassport proof")
        FixtureScenarios.married_under_new_root.
Proof.
  do 6 (split; [vm_compute; reflexivity|]). vm_compute. reflexivity.
Qed.

Lemma C7_witness_divorces_in_both_registries :
  ((isActive (rd (marriages married_10_11) 1) = true
    ∧ is_spouse (rd (marriages married_10_11) 1) 11)
   ∧ ∃ s',
       requestDivorce (at_time relayer 1002) 1 11 married_10_11 = Ok tt s' ∧
       isActive (rd (marriages s') 1) = false ∧
       rd (nullifierToMarriage s')
          (spouse1Nullifier (rd (marriages married_10_11) 1)) = 0 ∧
       rd (nullifierToMarriage s')
          (spouse2Nullifier (rd (marriages married_10_11) 1)) = 0 ∧
       (∀ env' requester',
          requestDivorce env' 1 requester' s' = Revert MarriageNotActive s' ∧
          step Keccak.keccak256 s' (env', RequestDivorce 1 requester') = s'))
  ∧ ((MarriageRegistry.isActive
        (rd (MarriageRegistry.marriages FixtureScenarios.married_to_bob)
            FixtureScenarios.marriage_with_bob) = true
      ∧ (MarriageRegistry.spouse1Hash
           (rd (MarriageRegistry.marriages FixtureScenarios.married_to_bob)
               FixtureScenarios.marriage_with_bob)
         = Abi.address_to_bytes32 FixtureScenarios.bob
         ∨ MarriageRegistry.spouse2Hash
             (rd (MarriageRegistry.marriages FixtureScenarios.married_to_bob)
                 FixtureScenarios.marriage_with_bob)
           = Abi.address_to_bytes32 FixtureScenarios.bob)
      ∧ MarriageRegistry.verifyZKPassport Keccak.keccak256 FixtureScenarios.bob
          FixtureScenarios.bob_path FixtureScenarios.married_to_bob
        = Ok true FixtureScenarios.married_to_bob
      ∧ MarriageRegistry.verifyZKPassport Keccak.keccak256 FixtureScenarios.bob
          [] FixtureScenarios.married_to_bob
        = Ok false FixtureScenarios.married_to_bob)
     ∧ (∃ s',
          MarriageRegistry.requestDivorce Keccak.keccak256
            (FixtureScenarios.at_time FixtureScenarios.bob 1005)
            FixtureScenarios.marriage_with_bob FixtureScenarios.bob_path
            FixtureScenarios.married_to_bob = Ok tt s' ∧
          MarriageRegistry.isActive
            (rd (MarriageRegistry.marriages s') FixtureScenarios.marriage_with_bob)
          = false ∧
          rd (MarriageRegistry.personToMarriage s')
             (MarriageRegistry.spouse1Hash
                (rd (MarriageRegistry.marriages FixtureScenarios.married_to_bob)
                    FixtureScenarios.marriage_with_bob)) = 0 ∧
          rd (MarriageRegistry.personToMarriage s')
             (MarriageRegistry.spouse2Hash
                (rd (MarriageRegistry.marriages FixtureScenarios.married_to_bob)
                    FixtureScenarios.marriage_with_bob)) = 0 ∧
          (∀ env' merkleProof',
             MarriageRegistry.requestDivorce Keccak.keccak256 env'
               FixtureScenarios.marriage_with_bob merkleProof' s'
             = Revert (ErrorString "Marriage not active") s' ∧
             MarriageRegistry.step Keccak.keccak256 s'
               (env', MarriageRegistry.RequestDivorce
                        FixtureScenarios.marriage_with_bob merkleProof') = s'))
     ∧ MarriageRegistry.requestDivorce Keccak.keccak256
         (FixtureScenarios.at_time FixtureScenarios.bob 1005)
         FixtureScenarios.marriage_with_bob [] FixtureScenarios.married_to_bob
       = Revert (ErrorString "Invalid zkPassport proof")
           FixtureScenarios.married_to_bob).
Proof.
  assert (isActive (rd (marriages married_10_11) 1) = true) as Hact
    by (vm_compute; reflexivity).
  assert (is_spouse (rd (marriages married_10_11) 1) 11) as Hsp
    by (right; vm_compute; reflexivity).
  assert (MarriageRegistry.isActive
            (rd (MarriageRegistry.marriages FixtureScenarios.married_to_bob)
                FixtureScenarios.marriage_with_bob) = true) as Hact'
    by (vm_compute; reflexivity).
  assert (MarriageRegistry.spouse1Hash
            (rd (MarriageRegistry.marriages FixtureScenarios.married_to_bob)
                FixtureScenarios.marriage_with_bob)
          = Abi.address_to_bytes32 FixtureScenarios.bob
          ∨ MarriageRegistry.spouse2Hash
              (rd (MarriageRegistry.marriages FixtureScenarios.married_to_bob)
                  FixtureScenarios.marriage_with_bob)
            = Abi.address_to_bytes32 FixtureScenarios.bob) as Hsp'
    by (right; vm_compute; reflexivity).
  assert (MarriageRegistry.verifyZKPassport Keccak.keccak256 FixtureScenarios.bob
            FixtureScenarios.bob_path FixtureScenarios.married_to_bob
          = Ok true FixtureScenarios.married_to_bob) as Hvalid
    by (vm_compute; reflexivity).
  assert (MarriageRegistry.verifyZKPassport Keccak.keccak256 FixtureScenarios.bob
            [] FixtureScenarios.married_to_bob
          = Ok false FixtureScenarios.married_to_bob) as Hinvalid
    by (vm_compute; reflexivity).
  destruct (DivorceProofs.C7_divorce_once_given_a_valid_proof Keccak.keccak256)
    as (Hreal & Hsimple).
  destruct (Hsimple (FixtureScenarios.at_time FixtureScenarios.bob 1005)
              FixtureScenarios.marriage_with_bob FixtureScenarios.bob_path
              FixtureScenarios.married_to_bob Hact' Hsp') as (Hgood & _ & _).
  destruct (Hsimple (FixtureScenarios.at_time FixtureScenarios.bob 1005)
              FixtureScenarios.marriage_with_bob []
              FixtureScenarios.married_to_bob Hact' Hsp') as (_ & Hbad & _).
  exact (conj (conj (conj Hact Hsp)
                 (Hreal (at_time relayer 1002) 1 11 married_10_11 Hact Hsp))
           (conj (conj Hact' (conj Hsp' (conj Hvalid Hinvalid)))
              (conj (Hgood Hvalid) (proj1 (Hbad Hinvalid))))).
Defined.

Lemma C8_witness_consumed_after_divorce :
  consumed_by_marriage Keccak.keccak256 genesis married_10_11 10
  ∧ (∀ s0 tx m, rd (usedNullifiers s0) m = true →
                rd (usedNullifiers (step Keccak.keccak256 s0 tx)) m = true)
  ∧ rd (usedNullifiers
          (run Keccak.keccak256 [(at_time relayer 1002, RequestDivorce 1 10)]
               married_10_11)) 10 = true
  ∧ (∀ env pid a b h exp j p1 p2,
       a = 10 ∨ b = 10 →
       createMarriageProposal Keccak.keccak256 env pid a b h exp j p1 p2
         (run Keccak.keccak256 [(at_time relayer 1002, RequestDivorce 1 10)]
              married_10_11)
       = Revert NullifierAlreadyUsed
           (run Keccak.keccak256 [(at_time relayer 1002, RequestDivorce 1 10)]
                married_10_11)).
Proof.
  assert (consumed_by_marriage Keccak.keccak256 genesis married_10_11 10) as Hc.
  { right. exists (at_time relayer 1001), 1, 10, 11, 0, 0.
    split; [vm_compute; reflexivity|left; reflexivity]. }
  split; [exact Hc|].
  exact (RealProofs.C8_consumed_nullifier_stays_consumed Keccak.keccak256 genesis
           married_10_11 10 [(at_time relayer 1002, RequestDivorce 1 10)] Hc).
Defined.

(** C10 (counterexample).  Bob's proof is offered for Alice's nullifier,
    which it does not derive, so the check returns false; but Alice is
    married, and [createMarriageProposal] reverts with
    [NullifierAlreadyUsed] before it ever looks at the proof. *)
Lemma C10_counterexample_consumed_guard_first :
  derivedNullifier Keccak.keccak256 bob_proof ≠ alice
  ∧ _verifyZKPassportProof Keccak.keccak256 bob_proof alice = false
  ∧ createMarriageProposal Keccak.keccak256 (at_time relayer 1004) 3 alice carol 0
      5000 "default" bob_proof carol_proof alice_married_bob
    = Revert NullifierAlreadyUsed alice_married_bob
  ∧ createMarriageProposal Keccak.keccak256 (at_time relayer 1004) 3 alice carol 0
      5000 "default" bob_proof carol_proof alice_married_bob
    ≠ Revert InvalidZKPassportProof alice_married_bob.
Proof.
  assert (createMarriageProposal Keccak.keccak256 (at_time relayer 1004) 3 alice
            carol 0 5000 "default" bob_proof carol_proof alice_married_bob
          = Revert NullifierAlreadyUsed alice_married_bob) as Hrev
    by (vm_compute; reflexivity).
  split; [vm_compute; discriminate|].
  split; [vm_compute; reflexivity|].
  split; [exact Hrev|].
  rewrite Hrev. discriminate.
Qed.

Lemma C10_witness_bob_proof_for_alice :
  (bob_proof = [] ∨ derivedNullifier Keccak.keccak256 bob_proof ≠ alice)
  ∧ proposal_guards_pass genesis 1 alice carol
  ∧ _verifyZKPassportProof Keccak.keccak256 bob_proof alice = false
  ∧ createMarriageProposal Keccak.keccak256 (at_time relayer 1001) 1 alice carol 0
      5000 "default" bob_proof carol_proof genesis
    = Revert InvalidZKPassportProof genesis
  ∧ createMarriageProposal Keccak.keccak256 (at_time relayer 1004) 3 alice carol 0
      5000 "default" bob_proof carol_proof alice_married_bob
    = Revert NullifierAlreadyUsed alice_married_bob
  ∧ createMarriageProposal Keccak.keccak256 (at_time relayer 1002) 1 carol bob 0
      5000 "default" alice_proof bob_proof alice_proposed_to_bob
    = Revert (ErrorString "Proposal already exists") alice_proposed_to_bob.
Proof.
  assert (bob_proof = [] ∨ derivedNullifier Keccak.keccak256 bob_proof ≠ alice)
    as Hbad by (right; vm_compute; discriminate).
  assert (alice_proof = [] ∨ derivedNullifier Keccak.keccak256 alice_proof ≠ carol)
    as Hbad' by (right; vm_compute; discriminate).
  assert (proposal_guards_pass genesis 1 alice carol) as Hg
    by (repeat split; vm_compute; reflexivity).
  split; [exact Hbad|]. split; [exact Hg|].
  split; [|split; [|split]].
  - exact (proj1 (RealProofs.C10_mismatched_proof_is_rejected Keccak.keccak256
                    bob_proof alice Hbad)).
  - exact (proj2 (proj2 (RealProofs.C10_mismatched_proof_is_rejected
                           Keccak.keccak256 bob_proof alice Hbad)
                        (at_time relayer 1001) 1 alice carol 0 5000 "default"
                        bob_proof carol_proof genesis
                        (or_introl (conj eq_refl eq_refl))) Hg).
  - exact (proj1 (proj2 (RealProofs.C10_mismatched_proof_is_rejected
                           Keccak.keccak256 bob_proof alice Hbad)
                        (at_time relayer 1004) 3 alice carol 0 5000 "default"
                        bob_proof carol_proof alice_married_bob
                        (or_introl (conj eq_refl eq_refl)))).
  - exact (proj1 (proj2 (RealProofs.C10_mismatched_proof_is_rejected
                           Keccak.keccak256 alice_proof carol Hbad')
                        (at_time relayer 1002) 1 carol bob 0 5000 "default"
                        alice_proof bob_proof alice_proposed_to_bob
                        (or_introl (conj eq_refl eq_refl)))).
Defined.
End ScenarioProofs.

(** ** RealMarriageRegistry: views, replay, log and access control *)

Module RealExtras.
Import RealMarriageRegistry MappingFacts Observation.

Section WithHash.
Variable keccak256 : list byte → bytes32.

Abbreviation createMarriageProposal := (createMarriageProposal keccak256).
Abbreviation acceptMarriage := (acceptMarriage keccak256).
Abbreviation createMarriage := (createMarriage keccak256).
Abbreviation step := (step keccak256).
Abbreviation run := (run keccak256).
Abbreviation reachable := (reachable keccak256).
Abbreviation dispatch := (dispatch keccak256).

Ltac split_ifs H :=
  repeat match type of H with
         | context [if ?b then _ else _] =>
             let E := fresh "E" in destruct b eqn:E
         end; try discriminate.

(** *** What a successful call tells about the storage it started from *)

Lemma createMarriageProposal_ok env pid a b h exp j p1 p2 s s' :
  createMarriageProposal env pid a b h exp j p1 p2 s = Ok tt s' →
  proposal_guards_pass s pid a b ∧
  s' = createMarriageProposal_post env pid a b h exp j s.
Proof.
  intros Hok. rewrite RealProofs.createMarriageProposal_eq in Hok.
  split_ifs Hok. injection Hok as <-.
  repeat match goal with
         | H : negb _ = false |- _ => apply negb_false_iff, Z.eqb_eq in H
         end.
  by repeat split.
Qed.

Lemma acceptMarriage_ok env pid cert s s' :
  acceptMarriage env pid cert s = Ok tt s' →
  proposerNullifier (rd (proposals s) pid) ≠ 0 ∧
  isAccepted (rd (proposals s) pid) = false ∧
  s' = acceptMarriage_post keccak256 env pid cert s.
Proof.
  intros Hok. rewrite RealProofs.acceptMarriage_eq in Hok. cbv zeta in Hok.
  split_ifs Hok. injection Hok as <-.
  match goal with H : (_ =? 0) = false |- _ => apply Z.eqb_neq in H end.
  by repeat split.
Qed.

Lemma createMarriage_ok env mid a b h1 h2 s s' :
  createMarriage env mid a b h1 h2 s = Ok tt s' →
  s' = createMarriage_post keccak256 env mid a b h1 h2 s.
Proof.
  intros Hok. rewrite RealProofs.createMarriage_eq in Hok.
  split_ifs Hok. by injection Hok as <-.
Qed.

Lemma requestDivorce_ok env mid r s s' :
  requestDivorce env mid r s = Ok tt s' →
  isActive (rd (marriages s) mid) = true ∧
  s' = requestDivorce_post mid r s.
Proof.
  intros Hok. rewrite RealProofs.requestDivorce_eq in Hok. cbv zeta in Hok.
  destruct (isActive (rd (marriages s) mid)); [|discriminate].
  split_ifs Hok. by injection Hok as <-.
Qed.

Lemma certificate_check (m : Marriage) (h r : bytes32) :
  isActive m = true →
  (if negb (isActive m) then false
   else if negb (spouse1Nullifier m =? r) && negb (spouse2Nullifier m =? r)
        then false
        else certificateHash m =? h)
  = ((spouse1Nullifier m =? r) || (spouse2Nullifier m =? r))
    && (certificateHash m =? h).
Proof.
  intros ->. cbn [negb].
  by destruct (spouse1Nullifier m =? r), (spouse2Nullifier m =? r).
Qed.

(** *** Reading a marriage back *)

(** X1.  After a successful [acceptMarriage], the views agree with it:
    [verifyMarriageCertificate] on the new marriage id accepts exactly the
    certificate hash given at acceptance, and only for the proposer or the
    proposee; [getMarriage] returns the two nullifiers, the block time, the
    active flag and the proposal's jurisdiction; both nullifiers are
    reported used; and [getMarriageStatusByNullifier] reports both as
    married to that id at that time, unless the derived id is the zero
    word, in which case it reports them unmarried. *)
Theorem X1_accepted_marriage_reads_back env proposalId cert s s' :
  acceptMarriage env proposalId cert s = Ok tt s' →
  let p := rd (proposals s) proposalId in
  let marriageId := marriageIdOf keccak256 env p in
  (∀ h r, verifyMarriageCertificate s' marriageId h r
          = ((proposerNullifier p =? r) || (proposeeNullifier p =? r))
            && (cert =? h))
  ∧ getMarriage s' marriageId
    = (proposerNullifier p, proposeeNullifier p, block_timestamp env, true,
       proposalJurisdiction p)
  ∧ (∀ n, n = proposerNullifier p ∨ n = proposeeNullifier p →
          getMarriageStatusByNullifier s' n
          = if marriageId =? 0 then (false, 0, 0)
            else (true, marriageId, block_timestamp env))
  ∧ isNullifierUsed s' (proposerNullifier p) = true
  ∧ isNullifierUsed s' (proposeeNullifier p) = true.
Proof.
  intros Hok. cbv zeta. apply acceptMarriage_ok in Hok as (_ & _ & ->).
  unfold verifyMarriageCertificate, getMarriage, getMarriageStatusByNullifier,
    isNullifierUsed, acceptMarriage_post.
  cbv zeta. cbn [marriages nullifierToMarriage usedNullifiers].
  generalize (rd (proposals s) proposalId). intros p.
  rewrite !rd_insert_eq.
  split; [intros h r; by rewrite certificate_check|].
  split; [reflexivity|].
  split.
  { intros n Hn.
    assert (rd (<[proposeeNullifier p := marriageIdOf keccak256 env p]>
                  (<[proposerNullifier p := marriageIdOf keccak256 env p]>
                     (nullifierToMarriage s))) n
            = marriageIdOf keccak256 env p) as ->.
    { rewrite rd_insert. destruct (decide (proposeeNullifier p = n)); [done|].
      destruct Hn as [-> | ->]; [apply rd_insert_eq|done]. }
    destruct (marriageIdOf keccak256 env p =? 0) eqn:Hz; cbn [negb].
    - apply Z.eqb_eq in Hz. by rewrite Hz.
    - by rewrite rd_insert_eq. }
  split; [apply RealProofs.rd_insert_true, rd_insert_eq|reflexivity].
Qed.

(** X2.  After a successful [createMarriage], the views agree with it: the
    certificate that verifies, for either spouse and for nobody else, is
    keccak256(marriageId ++ block time); [getMarriage] returns the record
    with jurisdiction "default"; and [getMarriageStatusByNullifier] reports
    both spouses married to [marriageId], except when [marriageId] is the
    zero word: the marriage is then active but both are reported
    unmarried. *)
Theorem X2_created_marriage_reads_back env marriageId a b h1 h2 s s' :
  createMarriage env marriageId a b h1 h2 s = Ok tt s' →
  (∀ h r, verifyMarriageCertificate s' marriageId h r
          = ((a =? r) || (b =? r))
            && (keccak256 (Abi.enc_bytes32 marriageId ++
                           Abi.enc_uint256 (block_timestamp env)) =? h))
  ∧ getMarriage s' marriageId = (a, b, block_timestamp env, true, "default"%string)
  ∧ (∀ n, n = a ∨ n = b →
          getMarriageStatusByNullifier s' n
          = if marriageId =? 0 then (false, 0, 0)
            else (true, marriageId, block_timestamp env))
  ∧ isNullifierUsed s' a = true
  ∧ isNullifierUsed s' b = true.
Proof.
  intros Hok. apply createMarriage_ok in Hok as ->.
  unfold verifyMarriageCertificate, getMarriage, getMarriageStatusByNullifier,
    isNullifierUsed, createMarriage_post.
  cbv zeta. cbn [marriages nullifierToMarriage usedNullifiers].
  rewrite !rd_insert_eq.
  split; [intros h r; by rewrite certificate_check|].
  split; [reflexivity|].
  split.
  { intros n Hn.
    assert (rd (<[b := marriageId]> (<[a := marriageId]> (nullifierToMarriage s))) n
            = marriageId) as ->.
    { rewrite rd_insert. destruct (decide (b = n)); [done|].
      destruct Hn as [-> | ->]; [apply rd_insert_eq|done]. }
    destruct (marriageId =? 0) eqn:Hz; cbn [negb].
    - apply Z.eqb_eq in Hz. by rewrite Hz.
    - by rewrite rd_insert_eq. }
  split; [apply RealProofs.rd_insert_true, rd_insert_eq|reflexivity].
Qed.

(** X3.  After a successful [requestDivorce], no certificate verifies for
    the dissolved marriage, whoever asks; [getMarriage] still returns the
    spouses, date and jurisdiction, now inactive;
    [getMarriageStatusByNullifier] reports both spouses unmarried with a
    zero id and date; and the used flag of every nullifier is what it was. *)
Theorem X3_dissolved_marriage_reads_back env marriageId requester s s' :
  requestDivorce env marriageId requester s = Ok tt s' →
  let m := rd (marriages s) marriageId in
  (∀ h r, verifyMarriageCertificate s' marriageId h r = false)
  ∧ getMarriage s' marriageId
    = (spouse1Nullifier m, spouse2Nullifier m, marriageDate m, false, jurisdiction m)
  ∧ getMarriageStatusByNullifier s' (spouse1Nullifier m) = (false, 0, 0)
  ∧ getMarriageStatusByNullifier s' (spouse2Nullifier m) = (false, 0, 0)
  ∧ (∀ n, isNullifierUsed s' n = isNullifierUsed s n).
Proof.
  intros Hok. cbv zeta. apply requestDivorce_ok in Hok as (_ & ->).
  unfold verifyMarriageCertificate, getMarriage, getMarriageStatusByNullifier,
    isNullifierUsed, requestDivorce_post.
  cbv zeta. cbn [marriages nullifierToMarriage usedNullifiers].
  generalize (rd (marriages s) marriageId). intros m.
  rewrite !rd_insert_eq.
  split; [reflexivity|]. split; [reflexivity|].
  split; [|by split].
  rewrite rd_insert.
  destruct (decide (spouse2Nullifier m = spouse1Nullifier m));
    [reflexivity|by rewrite rd_insert_eq].
Qed.


(** *** Pending proposals *)

(** X4.  A stored proposal consumes nothing: a successful
    [createMarriageProposal] leaves the marriages, the nullifier index and
    the consumed set as they were, so the same two parties, with the same
    proofs, can at once open another proposal under any id that is still
    free. *)
Theorem X4_pending_proposal_consumes_nothing env pid a b h exp j p1 p2 s s' :
  createMarriageProposal env pid a b h exp j p1 p2 s = Ok tt s' →
  marriages s' = marriages s
  ∧ nullifierToMarriage s' = nullifierToMarriage s
  ∧ usedNullifiers s' = usedNullifiers s
  ∧ (∀ env' pid' h' exp' j',
       proposerNullifier (rd (proposals s') pid') = 0 →
       createMarriageProposal env' pid' a b h' exp' j' p1 p2 s'
       = Ok tt (createMarriageProposal_post env' pid' a b h' exp' j' s')).
Proof.
  intros Hok. pose proof Hok as Hok'.
  apply createMarriageProposal_ok in Hok' as ((Hu1 & Hu2 & Hi1 & Hi2 & _) & ->).
  do 3 (split; [reflexivity|]).
  intros env' pid' h' exp' j' Hfree.
  rewrite RealProofs.createMarriageProposal_eq in Hok.
  rewrite RealProofs.createMarriageProposal_eq.
  cbn [usedNullifiers nullifierToMarriage proposals createMarriageProposal_post].
  rewrite Hu1, Hu2, Hi1, Hi2 in *. cbn [Z.eqb negb] in *.
  cbn [proposals createMarriageProposal_post] in Hfree. rewrite Hfree.
  cbn [Z.eqb negb].
  destruct (negb (proposerNullifier (rd (proposals s) pid) =? 0)); [discriminate|].
  destruct (negb (_verifyZKPassportProof keccak256 p1 a)); [discriminate|].
  destruct (negb (_verifyZKPassportProof keccak256 p2 b)); [discriminate|].
  reflexivity.
Qed.

(** How one transaction can change a stored proposal: not at all, or by
    raising its accepted flag. *)
Lemma stored_proposal_step s tx pid :
  proposerNullifier (rd (proposals s) pid) ≠ 0 →
  rd (proposals (step s tx)) pid = rd (proposals s) pid
  ∨ (isAccepted (rd (proposals s) pid) = false ∧
     rd (proposals (step s tx)) pid = with_isAccepted true (rd (proposals s) pid)).
Proof.
  intros Hex. destruct tx as [env c].
  unfold RealMarriageRegistry.step, transact. cbn [fst snd].
  destruct (dispatch env c s) as [[] s'|e s'] eqn:Hd; [|by left].
  destruct c as [pid' a b h exp j p1 p2|pid' cert|mid a b h1 h2|mid r|v];
    cbn [RealMarriageRegistry.dispatch] in Hd.
  - apply createMarriageProposal_ok in Hd as ((_ & _ & _ & _ & Hfree) & ->).
    left. cbn [proposals createMarriageProposal_post].
    apply rd_insert_ne. intros ->. by apply Hex.
  - apply acceptMarriage_ok in Hd as (_ & Hacc & ->).
    cbn [proposals acceptMarriage_post].
    destruct (decide (pid' = pid)) as [->|Hne].
    + right. split; [exact Hacc|apply rd_insert_eq].
    + left. by apply rd_insert_ne.
  - apply createMarriage_ok in Hd as ->. by left.
  - apply requestDivorce_ok in Hd as (_ & ->). by left.
  - rewrite RealProofs.updateZKPassportVerifier_eq in Hd.
    destruct (negb (owner s =? msg_sender env)); [discriminate|].
    injection Hd as <-. by left.
Qed.

Lemma stored_proposal_run txs s pid :
  proposerNullifier (rd (proposals s) pid) ≠ 0 →
  rd (proposals (run txs s)) pid = rd (proposals s) pid
  ∨ (isAccepted (rd (proposals s) pid) = false ∧
     rd (proposals (run txs s)) pid = with_isAccepted true (rd (proposals s) pid)).
Proof.
  revert s. induction txs as [|tx txs IH]; intros s Hex; [by left|].
  cbn [RealMarriageRegistry.run fold_left].
  change (fold_left step txs (step s tx)) with (run txs (step s tx)).
  destruct (stored_proposal_step s tx pid Hex) as [Heq|(Hacc & Heq)].
  - rewrite <- Heq in Hex. destruct (IH _ Hex) as [H1|(H1 & H2)].
    + left. by rewrite H1.
    + right. rewrite <- Heq. by split.
  - assert (proposerNullifier (rd (proposals (step s tx)) pid) ≠ 0) as Hex'
      by (by rewrite Heq).
    destruct (IH _ Hex') as [H1|(H1 & H2)].
    + right. split; [exact Hacc|]. by rewrite H1.
    + rewrite Heq in H1. discriminate H1.
Qed.

(** X5.  A stored proposal is permanent.  Once [proposals[proposalId]] holds
    a non-zero proposer, no sequence of transactions changes the proposal
    except to raise its accepted flag, once; and every later
    [createMarriageProposal] under the same id reverts, whatever its other
    arguments. *)
Theorem X5_stored_proposal_is_permanent s proposalId txs :
  proposerNullifier (rd (proposals s) proposalId) ≠ 0 →
  let p := rd (proposals s) proposalId in
  let p' := rd (proposals (run txs s)) proposalId in
  (p' = p ∨ (isAccepted p = false ∧ p' = with_isAccepted true p))
  ∧ (isAccepted p = true → p' = p)
  ∧ (∀ env a b h exp j p1 p2,
       ∃ e, createMarriageProposal env proposalId a b h exp j p1 p2 (run txs s)
            = Revert e (run txs s)).
Proof.
  intros Hex. cbv zeta.
  pose proof (stored_proposal_run txs s proposalId Hex) as Hrun.
  split; [exact Hrun|]. split.
  - intros Hacc. destruct Hrun as [H1|(H1 & _)]; [exact H1|congruence].
  - intros env a b h exp j p1 p2.
    assert (proposerNullifier (rd (proposals (run txs s)) proposalId) ≠ 0) as Hex'.
    { destruct Hrun as [-> | (_ & ->)]; exact Hex. }
    apply Z.eqb_neq in Hex'.
    rewrite RealProofs.createMarriageProposal_eq, Hex'. cbn [negb].
    repeat match goal with
           | |- context [if ?c then _ else _] => destruct c; [by eexists|]
           end.
    by eexists.
Qed.

(** X6.  A proposal is accepted at most once.  After a successful
    [acceptMarriage] and any further transactions, every [acceptMarriage]
    of the same proposal reverts, with [ProposalExpired] if the block time
    is past its expiry and with "Already accepted" otherwise. *)
Theorem X6_proposal_accepted_at_most_once env proposalId cert s s1 txs :
  acceptMarriage env proposalId cert s = Ok tt s1 →
  ∀ env' cert',
    acceptMarriage env' proposalId cert' (run txs s1)
    = Revert (if block_timestamp env' >? expiresAt (rd (proposals s) proposalId)
              then ProposalExpired else ErrorString "Already accepted")
             (run txs s1).
Proof.
  intros Hok env' cert'.
  apply acceptMarriage_ok in Hok as (Hex & _ & ->).
  assert (rd (proposals (acceptMarriage_post keccak256 env proposalId cert s))
             proposalId
          = with_isAccepted true (rd (proposals s) proposalId)) as Hp
    by (cbn; apply rd_insert_eq).
  assert (rd (proposals (run txs (acceptMarriage_post keccak256 env proposalId cert s)))
             proposalId
          = with_isAccepted true (rd (proposals s) proposalId)) as Hp'.
  { destruct (stored_proposal_run txs
                (acceptMarriage_post keccak256 env proposalId cert s) proposalId)
      as [H1|(H1 & _)].
    - by rewrite Hp.
    - by rewrite H1.
    - rewrite Hp in H1. discriminate H1. }
  rewrite RealProofs.acceptMarriage_eq. cbv zeta. rewrite Hp'.
  cbn [proposerNullifier expiresAt isAccepted with_isAccepted].
  apply Z.eqb_neq in Hex. rewrite Hex.
  by destruct (block_timestamp env' >? expiresAt (rd (proposals s) proposalId)).
Qed.

(** *** The event log *)

(** X7.  The event log is append-only and no write goes unlogged: a
    transaction appends at most two events to the log, and one that appends
    none leaves every storage slot as it was; over any sequence of
    transactions the old log is a prefix of the new one.  The converse
    fails: [updateZKPassportVerifier] by the owner with the address that is
    already stored changes no slot and still logs
    [ZKPassportVerifierUpdated]. *)
Theorem X7_log_is_append_only s tx txs :
  (∃ evs, emitted (step s tx) = emitted s ++ evs
          ∧ (length evs ≤ 2)%nat
          ∧ (evs = [] → slots (step s tx) = slots s))
  ∧ (∃ evs, emitted (run txs s) = emitted s ++ evs)
  ∧ (∀ env, msg_sender env = owner s →
            slots (step s (env, UpdateZKPassportVerifier (zkPassportVerifier s)))
            = slots s
            ∧ emitted (step s (env, UpdateZKPassportVerifier (zkPassportVerifier s)))
              = emitted s ++ [ZKPassportVerifierUpdated (zkPassportVerifier s)]).
Proof.
  assert (∀ s0 tx0, ∃ evs, emitted (step s0 tx0) = emitted s0 ++ evs
                           ∧ (length evs ≤ 2)%nat
                           ∧ (evs = [] → slots (step s0 tx0) = slots s0)) as Hstep.
  { intros s0 tx0.
    destruct (RealProofs.step_cases keccak256 s0 tx0) as
        [Hs | [(env & pid & a & b & h & exp & j & Hs)
        | [(env & pid & cert & _ & Hs)
        | [(env & mid & a & b & h1 & h2 & Hs)
        | [(mid & r & _ & Hs) | (v & ev & Hs)]]]]].
    - exists []. rewrite Hs, app_nil_r. repeat split; cbn; lia.
    - eexists [_]. split; [by rewrite Hs|]. split; [cbn; lia|discriminate].
    - eexists [_]. split; [by rewrite Hs|]. split; [cbn; lia|discriminate].
    - eexists [_]. split; [by rewrite Hs|]. split; [cbn; lia|discriminate].
    - eexists [_; _]. split; [by rewrite Hs|]. split; [cbn; lia|discriminate].
    - eexists [_]. split; [by rewrite Hs|]. split; [cbn; lia|discriminate]. }
  split; [apply Hstep|]. split.
  - revert s. induction txs as [|tx0 txs IH]; intros s.
    + exists []. by rewrite app_nil_r.
    + cbn [RealMarriageRegistry.run fold_left].
      change (fold_left step txs (step s tx0)) with (run txs (step s tx0)).
      destruct (IH (step s tx0)) as (evs2 & H2).
      destruct (Hstep s tx0) as (evs1 & H1 & _).
      exists (evs1 ++ evs2). by rewrite H2, H1, app_assoc.
  - intros env Hsender.
    unfold RealMarriageRegistry.step, transact.
    cbn [fst snd RealMarriageRegistry.dispatch].
    rewrite RealProofs.updateZKPassportVerifier_eq, Hsender, Z.eqb_refl.
    cbn [negb]. by split.
Qed.

(** *** The verifier address and its owner *)

(** X8.  No entry point other than [updateZKPassportVerifier] ever reads
    [zkPassportVerifier]: started from two storages that differ only in
    that address, a call takes the same branch, returns or reverts with the
    same error, and leaves storages that again differ only in it. *)
Theorem X8_verifier_address_is_never_consulted env c s v :
  (∀ v', c ≠ UpdateZKPassportVerifier v') →
  dispatch env c (set_zkPassportVerifier v s)
  = map_storage (set_zkPassportVerifier v) (dispatch env c s).
Proof.
  intros Hc.
  destruct c as [pid a b h exp j p1 p2|pid cert|mid a b h1 h2|mid r|v'];
    cbn [RealMarriageRegistry.dispatch].
  - rewrite !RealProofs.createMarriageProposal_eq.
    cbn [usedNullifiers nullifierToMarriage proposals set_zkPassportVerifier].
    repeat match goal with
           | |- context [if ?c then _ else _] => destruct c; [reflexivity|]
           end.
    reflexivity.
  - rewrite !RealProofs.acceptMarriage_eq. cbv zeta.
    cbn [proposals set_zkPassportVerifier].
    repeat match goal with
           | |- context [if ?c then _ else _] => destruct c; [reflexivity|]
           end.
    reflexivity.
  - rewrite !RealProofs.createMarriage_eq.
    cbn [usedNullifiers nullifierToMarriage set_zkPassportVerifier].
    repeat match goal with
           | |- context [if ?c then _ else _] => destruct c; [reflexivity|]
           end.
    reflexivity.
  - rewrite !RealProofs.requestDivorce_eq. cbv zeta.
    cbn [marriages set_zkPassportVerifier].
    repeat match goal with
           | |- context [if ?c then _ else _] => destruct c; [reflexivity|]
           end.
    reflexivity.
  - by destruct (Hc v').
Qed.

(** X9.  Only the owner changes the verifier address.
    [updateZKPassportVerifier] from any other sender reverts with
    [OwnableUnauthorizedAccount] naming that sender; and whenever a
    transaction leaves [zkPassportVerifier] different from what it was, the
    transaction is [updateZKPassportVerifier] of the new address, sent by
    the owner. *)
Theorem X9_only_the_owner_changes_the_verifier env s :
  (∀ v, msg_sender env ≠ owner s →
        updateZKPassportVerifier env v s
        = Revert (OwnableUnauthorizedAccount (msg_sender env)) s)
  ∧ (∀ c, zkPassportVerifier (step s (env, c)) ≠ zkPassportVerifier s →
          msg_sender env = owner s ∧
          c = UpdateZKPassportVerifier (zkPassportVerifier (step s (env, c)))).
Proof.
  split.
  - intros v Hne. rewrite RealProofs.updateZKPassportVerifier_eq.
    assert ((owner s =? msg_sender env) = false) as ->
      by (apply Z.eqb_neq; congruence).
    reflexivity.
  - intros c. unfold RealMarriageRegistry.step, transact. cbn [fst snd].
    destruct (dispatch env c s) as [[] s'|e s'] eqn:Hd; [|done].
    destruct c as [pid a b h exp j p1 p2|pid cert|mid a b h1 h2|mid r|v];
      cbn [RealMarriageRegistry.dispatch] in Hd.
    + apply createMarriageProposal_ok in Hd as (_ & ->). done.
    + apply acceptMarriage_ok in Hd as (_ & _ & ->). done.
    + apply createMarriage_ok in Hd as ->. done.
    + apply requestDivorce_ok in Hd as (_ & ->). done.
    + rewrite RealProofs.updateZKPassportVerifier_eq in Hd.
      destruct (owner s =? msg_sender env) eqn:Ho; [|discriminate].
      cbn [negb] in Hd. injection Hd as <-. cbn [zkPassportVerifier].
      apply Z.eqb_eq in Ho. by intros _.
Qed.

(** *** Consumed identities *)

(** X10.  In every reachable storage the consumed set covers the index:
    a nullifier that [getMarriageStatusByNullifier] reports as married, or
    that holds any index entry, or that is a spouse of an active marriage
    record, is reported used by [isNullifierUsed]. *)
Theorem X10_married_nullifiers_are_used s n :
  reachable s →
  ((getMarriageStatusByNullifier s n).1.1 = true → isNullifierUsed s n = true)
  ∧ (rd (nullifierToMarriage s) n ≠ 0 → isNullifierUsed s n = true)
  ∧ (∀ marriageId, isActive (rd (marriages s) marriageId) = true →
                   is_spouse (rd (marriages s) marriageId) n →
                   isNullifierUsed s n = true).
Proof.
  intros Hs.
  pose proof (RealProofs.married_are_consumed_reachable keccak256 s Hs n) as Hinv.
  unfold isNullifierUsed, getMarriageStatusByNullifier. cbv zeta.
  split; [|split].
  - destruct (rd (nullifierToMarriage s) n =? 0) eqn:Hz; cbn [negb fst];
      [discriminate|].
    intros _. apply Hinv. right. by apply Z.eqb_neq.
  - intros Hidx. apply Hinv. by right.
  - intros mid Hact Hsp. apply Hinv. left. by exists mid.
Qed.

(** X11.  In every reachable storage the [AlreadyMarried] guards are dead:
    neither [createMarriage] nor [createMarriageProposal] ever reverts with
    [AlreadyMarried], because a nullifier with an index entry is already
    stopped by the [NullifierAlreadyUsed] guard before them. *)
Theorem X11_AlreadyMarried_is_never_raised s :
  reachable s →
  (∀ env mid a b h1 h2 s',
     createMarriage env mid a b h1 h2 s ≠ Revert AlreadyMarried s')
  ∧ (∀ env pid a b h exp j p1 p2 s',
       createMarriageProposal env pid a b h exp j p1 p2 s
       ≠ Revert AlreadyMarried s').
Proof.
  intros Hs. split.
  - intros env mid a b h1 h2 s'.
    pose proof (RealProofs.married_are_consumed_reachable keccak256 s Hs) as Hinv.
    rewrite RealProofs.createMarriage_eq.
    destruct (rd (usedNullifiers s) a) eqn:Ha; [discriminate|].
    destruct (rd (usedNullifiers s) b) eqn:Hb; [discriminate|].
    destruct (rd (nullifierToMarriage s) a =? 0) eqn:Hia; cbn [negb].
    + destruct (rd (nullifierToMarriage s) b =? 0) eqn:Hib; cbn [negb];
        [discriminate|].
      apply Z.eqb_neq in Hib. rewrite (Hinv b) in Hb; [discriminate|by right].
    + apply Z.eqb_neq in Hia. rewrite (Hinv a) in Ha; [discriminate|by right].
  - intros env pid a b h exp j p1 p2 s'.
    by apply RealProofs.createMarriageProposal_never_AlreadyMarried.
Qed.

(** X12.  A consumed nullifier can never be married directly again: once
    [usedNullifiers] holds [n], then after any sequence of transactions
    every [createMarriage] naming [n] as either spouse reverts with
    [NullifierAlreadyUsed], also when the marriage that consumed it has been
    dissolved. *)
Theorem X12_consumed_nullifier_cannot_be_married_directly s n txs :
  isNullifierUsed s n = true →
  ∀ env mid a b h1 h2,
    a = n ∨ b = n →
    createMarriage env mid a b h1 h2 (run txs s)
    = Revert NullifierAlreadyUsed (run txs s).
Proof.
  unfold isNullifierUsed. intros Hn env mid a b h1 h2 Hab.
  pose proof (RealProofs.usedNullifiers_run keccak256 txs s n Hn) as Hused.
  rewrite RealProofs.createMarriage_eq.
  destruct Hab as [-> | ->].
  - by rewrite Hused.
  - rewrite Hused. by destruct (rd (usedNullifiers (run txs s)) a).
Qed.

(** *** Reusing a marriage id *)

(** X13.  [createMarriage] under a marriage id that an earlier couple's
    index entries still point to strands that couple: for a nullifier [n]
    whose index entry is the (non-zero) id and who is not one of the new
    spouses, [getMarriageStatusByNullifier] then reports [n] married, with
    the new marriage's date, while no certificate verifies for [n] and
    [requestDivorce] by [n] reverts with [NotAuthorized]. *)
Theorem X13_reused_marriage_id_strands_old_spouse env marriageId a b h1 h2 s s' n :
  createMarriage env marriageId a b h1 h2 s = Ok tt s' →
  rd (nullifierToMarriage s) n = marriageId →
  marriageId ≠ 0 →
  n ≠ a → n ≠ b →
  getMarriageStatusByNullifier s' n = (true, marriageId, block_timestamp env)
  ∧ (∀ h, verifyMarriageCertificate s' marriageId h n = false)
  ∧ (∀ env', requestDivorce env' marriageId n s' = Revert NotAuthorized s').
Proof.
  intros Hok Hidx Hnz Ha Hb. apply createMarriage_ok in Hok as ->.
  assert (rd (marriages (createMarriage_post keccak256 env marriageId a b h1 h2 s))
             marriageId
          = createdMarriage keccak256 env marriageId a b h1 h2) as Hm
    by (cbn; apply rd_insert_eq).
  assert ((a =? n) = false) as Han by (apply Z.eqb_neq; congruence).
  assert ((b =? n) = false) as Hbn by (apply Z.eqb_neq; congruence).
  split; [|split].
  - unfold getMarriageStatusByNullifier. cbv zeta.
    cbn [nullifierToMarriage createMarriage_post].
    rewrite !rd_insert_ne by congruence. rewrite Hidx.
    apply Z.eqb_neq in Hnz. rewrite Hnz. cbn [negb].
    change (<[marriageId:=createdMarriage keccak256 env marriageId a b h1 h2]>
              (marriages s))
      with (marriages (createMarriage_post keccak256 env marriageId a b h1 h2 s)).
    by rewrite Hm.
  - intros h. unfold verifyMarriageCertificate. cbv zeta. rewrite Hm.
    cbn [isActive spouse1Nullifier spouse2Nullifier createdMarriage negb].
    by rewrite Han, Hbn.
  - intros env'. rewrite RealProofs.requestDivorce_eq. cbv zeta. rewrite Hm.
    cbn [isActive spouse1Nullifier spouse2Nullifier createdMarriage negb].
    by rewrite Han, Hbn.
Qed.

End WithHash.
End RealExtras.

(** ** MarriageRegistry: proposals, acceptance, divorce and the test fixture *)

Module SimpleExtras.
Import MarriageRegistry MappingFacts.

Section WithHash.
Variable keccak256 : list byte → bytes32.

Abbreviation proposeMarriage := (proposeMarriage keccak256).
Abbreviation acceptMarriage := (acceptMarriage keccak256).
Abbreviation requestDivorce := (requestDivorce keccak256).
Abbreviation passport_valid := (passport_valid keccak256).
Abbreviation step := (step keccak256).
Abbreviation run := (run keccak256).
Abbreviation reachable := (reachable keccak256).
Abbreviation dispatch := (dispatch keccak256).

Ltac simple_reads :=
  cbn [marriages proposals personToMarriage set_marriages set_proposals
       set_personToMarriage];
  rewrite ?rd_insert_eq;
  cbn [proposer proposee spouse1Hash spouse2Hash with_isAccepted with_isActive].

Lemma verifyZKPassport_is_passport_valid user merkleProof s :
  verifyZKPassport keccak256 user merkleProof s
  = Ok (passport_valid s user merkleProof) s.
Proof. apply SimpleProofs.verifyZKPassport_returns. Qed.

(** *** Each entry point as a decision list *)

Lemma simple_proposeMarriage_eq env pid proposee nonce merkleProof s :
  proposeMarriage env pid proposee nonce merkleProof s =
    if negb (proposer (rd (proposals s) pid) =? 0)
    then Revert (ErrorString "Proposal already exists") s
    else if negb (passport_valid s (msg_sender env) merkleProof)
    then Revert (ErrorString "Invalid zkPassport proof") s
    else if negb (rd (personToMarriage s) (Abi.address_to_bytes32 (msg_sender env)) =? 0)
    then Revert (ErrorString "Already married") s
    else Ok tt (proposeMarriage_post env pid proposee nonce s).
Proof.
  unfold MarriageRegistry.proposeMarriage. cbv zeta. exec_step.
  destruct (proposer (rd (proposals s) pid) =? 0); [|reflexivity]. cbn [negb].
  erewrite ExecFacts.exec_bind_ok by apply verifyZKPassport_is_passport_valid.
  exec_step.
  destruct (passport_valid s (msg_sender env) merkleProof); [|reflexivity].
  cbn [negb]. exec_step.
  destruct (rd (personToMarriage s) (Abi.address_to_bytes32 (msg_sender env)) =? 0);
    reflexivity.
Qed.

Lemma simple_acceptMarriage_eq env pid merkleProof s :
  acceptMarriage env pid merkleProof s =
    let p := rd (proposals s) pid in
    let sender := Abi.address_to_bytes32 (msg_sender env) in
    if negb (proposee p =? sender) then Revert (ErrorString "Not the proposee") s
    else if isAccepted p then Revert (ErrorString "Already accepted") s
    else if isExpired p then Revert (ErrorString "Proposal expired") s
    else if negb (passport_valid s (msg_sender env) merkleProof)
    then Revert (ErrorString "Invalid zkPassport proof") s
    else if negb (rd (personToMarriage s) sender =? 0)
    then Revert (ErrorString "Already married") s
    else Ok tt (acceptMarriage_post keccak256 env pid s).
Proof.
  unfold MarriageRegistry.acceptMarriage. cbv zeta. exec_step.
  destruct (proposee (rd (proposals s) pid)
            =? Abi.address_to_bytes32 (msg_sender env)); [|reflexivity].
  cbn [negb]. exec_step.
  destruct (isAccepted (rd (proposals s) pid)); [reflexivity|].
  cbn [negb]. exec_step.
  destruct (isExpired (rd (proposals s) pid)); [reflexivity|].
  cbn [negb].
  erewrite ExecFacts.exec_bind_ok by apply verifyZKPassport_is_passport_valid.
  exec_step.
  destruct (passport_valid s (msg_sender env) merkleProof); [|reflexivity].
  cbn [negb]. exec_step.
  destruct (rd (personToMarriage s) (Abi.address_to_bytes32 (msg_sender env)) =? 0);
    [|reflexivity].
  cbn [negb].
  repeat (exec_step; simple_reads).
  unfold emit, modify. simple_reads. reflexivity.
Qed.

Lemma simple_requestDivorce_eq env mid merkleProof s :
  requestDivorce env mid merkleProof s =
    let m := rd (marriages s) mid in
    let requesterHash := Abi.address_to_bytes32 (msg_sender env) in
    if negb (isActive m) then Revert (ErrorString "Marriage not active") s
    else if negb ((spouse1Hash m =? requesterHash) || (spouse2Hash m =? requesterHash))
    then Revert (ErrorString "Not a spouse in this marriage") s
    else if negb (passport_valid s (msg_sender env) merkleProof)
    then Revert (ErrorString "Invalid zkPassport proof") s
    else Ok tt (requestDivorce_post env mid s).
Proof.
  unfold MarriageRegistry.requestDivorce. cbv zeta. exec_step.
  destruct (isActive (rd (marriages s) mid)); [|reflexivity]. cbn [negb].
  exec_step.
  destruct ((spouse1Hash (rd (marriages s) mid)
               =? Abi.address_to_bytes32 (msg_sender env))
            || (spouse2Hash (rd (marriages s) mid)
                  =? Abi.address_to_bytes32 (msg_sender env))); [|reflexivity].
  cbn [negb].
  erewrite ExecFacts.exec_bind_ok by apply verifyZKPassport_is_passport_valid.
  exec_step.
  destruct (passport_valid s (msg_sender env) merkleProof); [|reflexivity].
  cbn [negb].
  repeat (exec_step; simple_reads).
  unfold emit, modify. cbv [mbind exec_bind EVM.bind].
  unfold requestDivorce_post, set_marriages, set_personToMarriage. cbn.
  rewrite ?rd_insert_eq. cbn. rewrite <- ?app_assoc. reflexivity.
Qed.

Lemma simple_updateZKPassportMerkleRoot_eq env r s :
  updateZKPassportMerkleRoot env r s =
    if negb (owner s =? msg_sender env)
    then Revert (OwnableUnauthorizedAccount (msg_sender env)) s
    else Ok tt (set_zkPassportMerkleRoot r s).
Proof.
  unfold updateZKPassportMerkleRoot. exec_step.
  destruct (negb (owner s =? msg_sender env)); reflexivity.
Qed.


Ltac split_ifs H :=
  repeat match type of H with
         | context [if ?b then _ else _] =>
             let E := fresh "E" in destruct b eqn:E
         end; try discriminate.

(** *** What a successful call tells about the storage it started from *)

Lemma simple_proposeMarriage_ok env pid proposee nonce merkleProof s s' :
  proposeMarriage env pid proposee nonce merkleProof s = Ok tt s' →
  proposer (rd (proposals s) pid) = 0 ∧
  s' = proposeMarriage_post env pid proposee nonce s.
Proof.
  intros Hok. rewrite simple_proposeMarriage_eq in Hok. split_ifs Hok.
  injection Hok as <-.
  repeat match goal with
         | H : negb (_ =? 0) = false |- _ => apply negb_false_iff, Z.eqb_eq in H
         end.
  by split.
Qed.

Lemma simple_acceptMarriage_ok env pid merkleProof s s' :
  acceptMarriage env pid merkleProof s = Ok tt s' →
  proposee (rd (proposals s) pid) = Abi.address_to_bytes32 (msg_sender env) ∧
  isAccepted (rd (proposals s) pid) = false ∧
  s' = acceptMarriage_post keccak256 env pid s.
Proof.
  intros Hok. rewrite simple_acceptMarriage_eq in Hok. cbv zeta in Hok.
  destruct (proposee (rd (proposals s) pid)
            =? Abi.address_to_bytes32 (msg_sender env)) eqn:Hp; [|discriminate].
  cbn [negb] in Hok.
  destruct (isAccepted (rd (proposals s) pid)); [discriminate|].
  split_ifs Hok. injection Hok as <-. apply Z.eqb_eq in Hp. by repeat split.
Qed.

Lemma simple_requestDivorce_ok env mid merkleProof s s' :
  requestDivorce env mid merkleProof s = Ok tt s' →
  isActive (rd (marriages s) mid) = true ∧ s' = requestDivorce_post env mid s.
Proof.
  intros Hok. rewrite simple_requestDivorce_eq in Hok. cbv zeta in Hok.
  destruct (isActive (rd (marriages s) mid)); [|discriminate].
  split_ifs Hok. by injection Hok as <-.
Qed.

(** How one transaction can change a stored proposal. *)
Lemma simple_stored_proposal_step s tx pid :
  proposer (rd (proposals s) pid) ≠ 0 →
  rd (proposals (step s tx)) pid = rd (proposals s) pid
  ∨ (isAccepted (rd (proposals s) pid) = false ∧
     rd (proposals (step s tx)) pid = with_isAccepted true (rd (proposals s) pid)).
Proof.
  intros Hex. destruct tx as [env c].
  unfold MarriageRegistry.step, transact. cbn [fst snd].
  destruct (dispatch env c s) as [[] s'|e s'] eqn:Hd; [|by left].
  destruct c as [pid' proposee' nonce' proof'|pid' proof'|mid proof'|r];
    cbn [MarriageRegistry.dispatch] in Hd.
  - apply simple_proposeMarriage_ok in Hd as (Hfree & ->). left.
    cbn [proposals proposeMarriage_post]. apply rd_insert_ne. intros ->.
    by apply Hex.
  - apply simple_acceptMarriage_ok in Hd as (_ & Hacc & ->).
    cbn [proposals acceptMarriage_post].
    destruct (decide (pid' = pid)) as [->|Hne].
    + right. split; [exact Hacc|apply rd_insert_eq].
    + left. by apply rd_insert_ne.
  - apply simple_requestDivorce_ok in Hd as (_ & ->). by left.
  - rewrite simple_updateZKPassportMerkleRoot_eq in Hd.
    destruct (negb (owner s =? msg_sender env)); [discriminate|].
    injection Hd as <-. by left.
Qed.

Lemma simple_stored_proposal_run txs s pid :
  proposer (rd (proposals s) pid) ≠ 0 →
  rd (proposals (run txs s)) pid = rd (proposals s) pid
  ∨ (isAccepted (rd (proposals s) pid) = false ∧
     rd (proposals (run txs s)) pid = with_isAccepted true (rd (proposals s) pid)).
Proof.
  revert s. induction txs as [|tx txs IH]; intros s Hex; [by left|].
  cbn [MarriageRegistry.run fold_left].
  change (fold_left step txs (step s tx)) with (run txs (step s tx)).
  destruct (simple_stored_proposal_step s tx pid Hex) as [Heq|(Hacc & Heq)].
  - rewrite <- Heq in Hex. destruct (IH _ Hex) as [H1|(H1 & H2)].
    + left. by rewrite H1.
    + right. rewrite <- Heq. by split.
  - assert (proposer (rd (proposals (step s tx)) pid) ≠ 0) as Hex'
      by (by rewrite Heq).
    destruct (IH _ Hex') as [H1|(H1 & H2)].
    + right. split; [exact Hacc|]. by rewrite H1.
    + rewrite Heq in H1. discriminate H1.
Qed.

(** *** Replay *)

(** X14.  A proposal id cannot be reused.  After [proposeMarriage] has
    stored a proposal for a sender whose address word is not zero, then
    after any sequence of transactions every [proposeMarriage] under the
    same id, from anyone, reverts with "Proposal already exists". *)
Theorem X14_proposal_id_cannot_be_reused
    env proposalId proposee nonce merkleProof s s1 txs :
  proposeMarriage env proposalId proposee nonce merkleProof s = Ok tt s1 →
  Abi.address_to_bytes32 (msg_sender env) ≠ 0 →
  ∀ env' proposee' nonce' merkleProof',
    proposeMarriage env' proposalId proposee' nonce' merkleProof' (run txs s1)
    = Revert (ErrorString "Proposal already exists") (run txs s1).
Proof.
  intros Hok Hsender env' proposee' nonce' merkleProof'.
  apply simple_proposeMarriage_ok in Hok as (_ & ->).
  assert (proposer (rd (proposals (proposeMarriage_post env proposalId proposee nonce s))
                       proposalId) ≠ 0) as Hex
    by (cbn; by rewrite rd_insert_eq).
  assert (proposer (rd (proposals (run txs (proposeMarriage_post env proposalId
                                              proposee nonce s))) proposalId) ≠ 0)
    as Hex'.
  { destruct (simple_stored_proposal_run txs _ proposalId Hex) as [-> | (_ & ->)];
      exact Hex. }
  rewrite simple_proposeMarriage_eq. apply Z.eqb_neq in Hex'. by rewrite Hex'.
Qed.

(** X15.  A proposal is accepted at most once.  After a successful
    [acceptMarriage] of a proposal with a non-zero proposer, and any
    further transactions, every [acceptMarriage] of the same proposal
    reverts: with "Not the proposee" for a sender other than the proposee,
    and with "Already accepted" for the proposee. *)
Theorem X15_simple_proposal_accepted_at_most_once
    env proposalId merkleProof s s1 txs :
  acceptMarriage env proposalId merkleProof s = Ok tt s1 →
  proposer (rd (proposals s) proposalId) ≠ 0 →
  ∀ env' merkleProof',
    acceptMarriage env' proposalId merkleProof' (run txs s1)
    = Revert (ErrorString
                (if proposee (rd (proposals s) proposalId)
                    =? Abi.address_to_bytes32 (msg_sender env')
                 then "Already accepted" else "Not the proposee"))
             (run txs s1).
Proof.
  intros Hok Hex env' merkleProof'.
  apply simple_acceptMarriage_ok in Hok as (_ & _ & ->).
  assert (rd (proposals (acceptMarriage_post keccak256 env proposalId s)) proposalId
          = with_isAccepted true (rd (proposals s) proposalId)) as Hp
    by (cbn; apply rd_insert_eq).
  assert (rd (proposals (run txs (acceptMarriage_post keccak256 env proposalId s)))
             proposalId
          = with_isAccepted true (rd (proposals s) proposalId)) as Hp'.
  { destruct (simple_stored_proposal_run txs
                (acceptMarriage_post keccak256 env proposalId s) proposalId)
      as [H1|(H1 & _)].
    - by rewrite Hp.
    - by rewrite H1.
    - rewrite Hp in H1. discriminate H1. }
  rewrite simple_acceptMarriage_eq. cbv zeta. rewrite Hp'.
  cbn [proposee isAccepted with_isAccepted].
  by destruct (proposee (rd (proposals s) proposalId)
               =? Abi.address_to_bytes32 (msg_sender env')).
Qed.

(** *** Reading a marriage back *)

(** X16.  After a successful [acceptMarriage], the marriage record under
    the derived id holds the proposer and the proposee as spouses, the block
    time and the active flag, and [getMarriageStatus] returns that id for
    every address whose word is the proposer or the proposee, with
    [isMarried] true unless the derived id is the zero word. *)
Theorem X16_simple_accepted_marriage_reads_back env proposalId merkleProof s s' :
  acceptMarriage env proposalId merkleProof s = Ok tt s' →
  let p := rd (proposals s) proposalId in
  let marriageId := marriageIdOf keccak256 env p in
  rd (marriages s') marriageId
  = {| spouse1Hash := proposer p; spouse2Hash := proposee p;
       marriageDate := block_timestamp env; isActive := true;
       merkleRoot := generateMarriageMerkleRoot keccak256 (proposer p) (proposee p) |}
  ∧ isAccepted (rd (proposals s') proposalId) = true
  ∧ (∀ user, Abi.address_to_bytes32 user = proposer p ∨
             Abi.address_to_bytes32 user = proposee p →
             getMarriageStatus s' user = (negb (marriageId =? 0), marriageId)).
Proof.
  intros Hok. cbv zeta. apply simple_acceptMarriage_ok in Hok as (_ & _ & ->).
  unfold acceptMarriage_post, getMarriageStatus. cbv zeta.
  cbn [marriages proposals personToMarriage].
  generalize (rd (proposals s) proposalId). intros p.
  rewrite !rd_insert_eq.
  split; [reflexivity|]. split; [reflexivity|].
  intros user Huser.
  assert (rd (<[proposee p := marriageIdOf keccak256 env p]>
                (<[proposer p := marriageIdOf keccak256 env p]> (personToMarriage s)))
             (Abi.address_to_bytes32 user)
          = marriageIdOf keccak256 env p) as ->.
  { rewrite rd_insert.
    destruct (decide (proposee p = Abi.address_to_bytes32 user)); [done|].
    destruct Huser as [Hu | Hu]; [rewrite Hu; apply rd_insert_eq|congruence]. }
  rewrite rd_insert_eq. cbn [isActive]. by rewrite andb_true_r.
Qed.

(** X17.  Divorce frees both spouses.  After a successful [requestDivorce],
    [getMarriageStatus] reports every address of either spouse unmarried
    with a zero id, and [proposeMarriage] from such an address, under a free
    proposal id and with a valid passport proof, succeeds again. *)
Theorem X17_simple_divorce_frees_both_spouses env marriageId merkleProof s s' :
  requestDivorce env marriageId merkleProof s = Ok tt s' →
  let m := rd (marriages s) marriageId in
  ∀ user,
    Abi.address_to_bytes32 user = spouse1Hash m ∨
    Abi.address_to_bytes32 user = spouse2Hash m →
    getMarriageStatus s' user = (false, 0)
    ∧ (∀ t pid proposee nonce merkleProof',
         proposer (rd (proposals s') pid) = 0 →
         passport_valid s' user merkleProof' = true →
         proposeMarriage {| msg_sender := user; block_timestamp := t |}
                         pid proposee nonce merkleProof' s'
         = Ok tt (proposeMarriage_post {| msg_sender := user; block_timestamp := t |}
                                       pid proposee nonce s')).
Proof.
  intros Hok. cbv zeta. intros user Huser.
  apply simple_requestDivorce_ok in Hok as (_ & ->).
  assert (rd (personToMarriage (requestDivorce_post env marriageId s))
             (Abi.address_to_bytes32 user) = 0) as Hidx.
  { cbn. rewrite rd_insert.
    destruct (decide (spouse2Hash (rd (marriages s) marriageId)
                      = Abi.address_to_bytes32 user)); [done|].
    destruct Huser as [Hu | Hu]; [rewrite Hu; apply rd_insert_eq|congruence]. }
  split.
  - unfold getMarriageStatus. cbv zeta. by rewrite Hidx.
  - intros t pid proposee nonce merkleProof' Hfree Hvalid.
    rewrite simple_proposeMarriage_eq. cbn [msg_sender].
    by rewrite Hfree, Hvalid, Hidx.
Qed.

(** *** What the registry never writes *)



(** *** The proposer is not checked at acceptance *)

(** X19.  [acceptMarriage] looks only at the acceptor's index entry.  When
    it succeeds for a proposer who already has an index entry, the marriage
    record that entry points to is left as it is (still active if it was),
    while the entry itself is overwritten with the new marriage id. *)
Theorem X19_simple_acceptance_ignores_proposer_status
    env proposalId merkleProof s s' :
  acceptMarriage env proposalId merkleProof s = Ok tt s' →
  let p := rd (proposals s) proposalId in
  let marriageId := marriageIdOf keccak256 env p in
  let previous := rd (personToMarriage s) (proposer p) in
  previous ≠ 0 →
  previous ≠ marriageId →
  proposer p ≠ proposee p →
  rd (marriages s') previous = rd (marriages s) previous
  ∧ rd (personToMarriage s') (proposer p) = marriageId
  ∧ isActive (rd (marriages s') marriageId) = true.
Proof.
  intros Hok. cbv zeta. intros Hprev Hne Hpp.
  apply simple_acceptMarriage_ok in Hok as (_ & _ & ->).
  unfold acceptMarriage_post. cbv zeta. cbn [marriages personToMarriage].
  split; [by rewrite rd_insert_ne|].
  split; [|by rewrite rd_insert_eq].
  rewrite rd_insert_ne by congruence. apply rd_insert_eq.
Qed.

(** *** The Merkle root and its owner *)

(** X20.  Only the owner changes the passport Merkle root.
    [updateZKPassportMerkleRoot] from any other sender reverts with
    [OwnableUnauthorizedAccount] naming that sender; and whenever a
    transaction leaves [zkPassportMerkleRoot] different from what it was,
    it is [updateZKPassportMerkleRoot] of the new root, sent by the owner. *)
Theorem X20_only_the_owner_changes_the_root env s :
  (∀ r, msg_sender env ≠ owner s →
        updateZKPassportMerkleRoot env r s
        = Revert (OwnableUnauthorizedAccount (msg_sender env)) s)
  ∧ (∀ c, zkPassportMerkleRoot (step s (env, c)) ≠ zkPassportMerkleRoot s →
          msg_sender env = owner s ∧
          c = UpdateZKPassportMerkleRoot (zkPassportMerkleRoot (step s (env, c)))).
Proof.
  split.
  - intros r Hne. rewrite simple_updateZKPassportMerkleRoot_eq.
    assert ((owner s =? msg_sender env) = false) as ->
      by (apply Z.eqb_neq; congruence).
    reflexivity.
  - intros c. unfold MarriageRegistry.step, transact. cbn [fst snd].
    destruct (dispatch env c s) as [[] s'|e s'] eqn:Hd; [|done].
    destruct c as [pid' proposee' nonce' proof'|pid' proof'|mid proof'|r];
      cbn [MarriageRegistry.dispatch] in Hd.
    + apply simple_proposeMarriage_ok in Hd as (_ & ->). done.
    + apply simple_acceptMarriage_ok in Hd as (_ & _ & ->). done.
    + apply simple_requestDivorce_ok in Hd as (_ & ->). done.
    + rewrite simple_updateZKPassportMerkleRoot_eq in Hd.
      destruct (owner s =? msg_sender env) eqn:Ho; [|discriminate].
      cbn [negb] in Hd. injection Hd as <-. cbn [zkPassportMerkleRoot].
      apply Z.eqb_eq in Ho. by intros _.
Qed.


(** *** The test fixture *)

Lemma pair_node_ordered (a b : bytes32) :
  MarriageRegistryTest.pair_node keccak256 a b = combine_ordered keccak256 a b.
Proof.
  unfold MarriageRegistryTest.pair_node, combine_ordered.
  destruct (Z.ltb_spec a b) as [Hlt|Hge].
  - by rewrite Z.min_l, Z.max_r by lia.
  - destruct (decide (a = b)) as [->|Hne].
    + by rewrite Z.min_id, Z.max_id.
    + by rewrite Z.min_r, Z.max_l by lia.
Qed.

Lemma combine_ordered_comm (a b : bytes32) :
  combine_ordered keccak256 a b = combine_ordered keccak256 b a.
Proof. unfold combine_ordered. by rewrite Z.min_comm, Z.max_comm. Qed.

Lemma fixture_proofs_valid alice bob charlie s :
  zkPassportMerkleRoot s
  = MarriageRegistryTest.zkPassportMerkleRoot keccak256 alice bob charlie →
  passport_valid s alice (MarriageRegistryTest.aliceMerkleProof keccak256 bob charlie)
  = true
  ∧ passport_valid s bob (MarriageRegistryTest.bobMerkleProof keccak256 alice charlie)
    = true
  ∧ passport_valid s charlie
      (MarriageRegistryTest.charlieMerkleProof keccak256 alice bob) = true.
Proof.
  intros Hroot. unfold MarriageRegistry.passport_valid. rewrite Hroot.
  unfold MarriageRegistryTest.zkPassportMerkleRoot,
    MarriageRegistryTest.aliceMerkleProof, MarriageRegistryTest.bobMerkleProof,
    MarriageRegistryTest.charlieMerkleProof, MarriageRegistryTest.node1,
    MarriageRegistryTest.node2, MarriageRegistryTest.aliceLeaf,
    MarriageRegistryTest.bobLeaf, MarriageRegistryTest.charlieLeaf.
  rewrite !pair_node_ordered.
  set (c := combine_ordered keccak256).
  set (aL := keccak256 (Abi.enc_address alice)).
  set (bL := keccak256 (Abi.enc_address bob)).
  set (cL := keccak256 (Abi.enc_address charlie)).
  repeat split; apply bool_decide_eq_true_2.
  - reflexivity.
  - change (c (c bL aL) (c cL 0) = c (c aL bL) (c cL 0)).
    subst c. by rewrite (combine_ordered_comm bL aL).
  - change (c (c cL 0) (c aL bL) = c (c aL bL) (c cL 0)).
    apply combine_ordered_comm.
Qed.

(** X21.  The Merkle tree that the test [setUp] builds agrees with the
    verifier for every hash function and every three addresses: in the
    registry deployed with the fixture's root, [verifyZKPassport] returns
    true for alice, bob and charlie with the sibling paths the fixture
    gives them, although the fixture orders each pair with [<] and the
    verifier with [<=]. *)
Theorem X21_fixture_paths_verify alice bob charlie this now :
  let s := MarriageRegistryTest.setUp keccak256 alice bob charlie this now in
  verifyZKPassport keccak256 alice
    (MarriageRegistryTest.aliceMerkleProof keccak256 bob charlie) s = Ok true s
  ∧ verifyZKPassport keccak256 bob
      (MarriageRegistryTest.bobMerkleProof keccak256 alice charlie) s = Ok true s
  ∧ verifyZKPassport keccak256 charlie
      (MarriageRegistryTest.charlieMerkleProof keccak256 alice bob) s = Ok true s.
Proof.
  cbv zeta.
  destruct (fixture_proofs_valid alice bob charlie
              (MarriageRegistryTest.setUp keccak256 alice bob charlie this now)
              eq_refl) as (Ha & Hb & Hc).
  rewrite !verifyZKPassport_is_passport_valid, Ha, Hb, Hc. by repeat split.
Qed.

(** X22.  The marriage and divorce that the tests drive go through for
    every hash function, addresses, proposal id, nonce and block times.  On
    the fixture's registry, alice's [proposeMarriage] to bob's address word
    stores the proposal; bob's [acceptMarriage] creates the active marriage
    under keccak256(alice word ++ bob word ++ block time), which
    [getMarriageStatus] returns for both; and alice's [requestDivorce]
    leaves the marriage inactive and both reported unmarried.  The log then
    holds the [OwnershipTransferred] of the deployment followed by
    [MarriageProposed], [MarriageCreated], [DivorceRequested] and
    [MarriageDissolved]. *)
Theorem X22_fixture_marriage_then_divorce
    alice bob charlie this now t1 t2 t3 proposalId nonce :
  let aliceWord := Abi.address_to_bytes32 alice in
  let bobWord := Abi.address_to_bytes32 bob in
  let aliceProof := MarriageRegistryTest.aliceMerkleProof keccak256 bob charlie in
  let bobProof := MarriageRegistryTest.bobMerkleProof keccak256 alice charlie in
  let marriageId :=
    keccak256 (Abi.enc_bytes32 aliceWord ++ Abi.enc_bytes32 bobWord ++
               Abi.enc_uint256 t2) in
  let s0 := MarriageRegistryTest.setUp keccak256 alice bob charlie this now in
  let s1 := step s0 ({| msg_sender := alice; block_timestamp := t1 |},
                     ProposeMarriage proposalId bobWord nonce aliceProof) in
  let s2 := step s1 ({| msg_sender := bob; block_timestamp := t2 |},
                     AcceptMarriage proposalId bobProof) in
  let s3 := step s2 ({| msg_sender := alice; block_timestamp := t3 |},
                     RequestDivorce marriageId aliceProof) in
  rd (proposals s1) proposalId
  = {| proposer := aliceWord; proposee := bobWord; timestamp := t1; nonce := nonce;
       isAccepted := false; isExpired := false |}
  ∧ isActive (rd (marriages s2) marriageId) = true
  ∧ getMarriageStatus s2 alice = (negb (marriageId =? 0), marriageId)
  ∧ getMarriageStatus s2 bob = (negb (marriageId =? 0), marriageId)
  ∧ isActive (rd (marriages s3) marriageId) = false
  ∧ getMarriageStatus s3 alice = (false, 0)
  ∧ getMarriageStatus s3 bob = (false, 0)
  ∧ emitted s3
    = [OwnershipTransferred 0 this;
       MarriageProposed proposalId aliceWord bobWord;
       MarriageCreated marriageId aliceWord bobWord;
       DivorceRequested marriageId aliceWord;
       MarriageDissolved marriageId].
Proof.
  cbv zeta.
  set (aliceWord := Abi.address_to_bytes32 alice).
  set (bobWord := Abi.address_to_bytes32 bob).
  set (M := keccak256 (Abi.enc_bytes32 aliceWord ++ Abi.enc_bytes32 bobWord ++
                       Abi.enc_uint256 t2)).
  set (s0 := MarriageRegistryTest.setUp keccak256 alice bob charlie this now).
  assert (∀ s, zkPassportMerkleRoot s = zkPassportMerkleRoot s0 →
               passport_valid s alice
                 (MarriageRegistryTest.aliceMerkleProof keccak256 bob charlie) = true
               ∧ passport_valid s bob
                   (MarriageRegistryTest.bobMerkleProof keccak256 alice charlie) = true)
    as Hvalid.
  { intros s Hroot.
    destruct (fixture_proofs_valid alice bob charlie s Hroot) as (Ha & Hb & _).
    by split. }
  (* the proposal *)
  assert (step s0 ({| msg_sender := alice; block_timestamp := t1 |},
                   ProposeMarriage proposalId bobWord nonce
                     (MarriageRegistryTest.aliceMerkleProof keccak256 bob charlie))
          = proposeMarriage_post {| msg_sender := alice; block_timestamp := t1 |}
              proposalId bobWord nonce s0) as ->.
  { unfold MarriageRegistry.step, transact. cbn [fst snd MarriageRegistry.dispatch].
    rewrite simple_proposeMarriage_eq. cbn [msg_sender].
    rewrite (proj1 (Hvalid s0 eq_refl)).
    subst s0. cbn [proposals personToMarriage MarriageRegistryTest.setUp
                   MarriageRegistry.constructor].
    by rewrite !rd_empty. }
  set (s1 := proposeMarriage_post {| msg_sender := alice; block_timestamp := t1 |}
               proposalId bobWord nonce s0).
  assert (rd (proposals s1) proposalId
          = {| proposer := aliceWord; proposee := bobWord; timestamp := t1;
               nonce := nonce; isAccepted := false; isExpired := false |}) as Hp1
    by (subst s1; cbn; apply rd_insert_eq).
  (* the acceptance *)
  assert (step s1 ({| msg_sender := bob; block_timestamp := t2 |},
                   AcceptMarriage proposalId
                     (MarriageRegistryTest.bobMerkleProof keccak256 alice charlie))
          = acceptMarriage_post keccak256 {| msg_sender := bob; block_timestamp := t2 |}
              proposalId s1) as ->.
  { unfold MarriageRegistry.step, transact. cbn [fst snd MarriageRegistry.dispatch].
    rewrite simple_acceptMarriage_eq. cbv zeta. rewrite Hp1.
    cbn [proposee isAccepted isExpired msg_sender].
    rewrite (proj2 (Hvalid s1 eq_refl)).
    fold bobWord. rewrite Z.eqb_refl.
    subst s1 s0. cbn [personToMarriage proposeMarriage_post
                      MarriageRegistryTest.setUp MarriageRegistry.constructor].
    by rewrite rd_empty. }
  set (s2 := acceptMarriage_post keccak256
               {| msg_sender := bob; block_timestamp := t2 |} proposalId s1).
  assert (marriageIdOf keccak256 {| msg_sender := bob; block_timestamp := t2 |}
            (rd (proposals s1) proposalId) = M) as HM
    by (by rewrite Hp1).
  assert (rd (marriages s2) M
          = {| spouse1Hash := aliceWord; spouse2Hash := bobWord; marriageDate := t2;
               isActive := true;
               merkleRoot := generateMarriageMerkleRoot keccak256 aliceWord bobWord |})
    as Hm2.
  { subst s2. unfold acceptMarriage_post. cbv zeta. rewrite HM, Hp1.
    cbn [marriages]. apply rd_insert_eq. }
  assert (rd (personToMarriage s2) aliceWord = M ∧ rd (personToMarriage s2) bobWord = M)
    as (Hia & Hib).
  { subst s2. unfold acceptMarriage_post. cbv zeta. rewrite HM, Hp1.
    cbn [personToMarriage proposer proposee]. split; [|apply rd_insert_eq].
    rewrite rd_insert. destruct (decide (bobWord = aliceWord)); [done|].
    apply rd_insert_eq. }
  (* the divorce *)
  assert (step s2 ({| msg_sender := alice; block_timestamp := t3 |},
                   RequestDivorce M
                     (MarriageRegistryTest.aliceMerkleProof keccak256 bob charlie))
          = requestDivorce_post {| msg_sender := alice; block_timestamp := t3 |} M s2)
    as ->.
  { unfold MarriageRegistry.step, transact. cbn [fst snd MarriageRegistry.dispatch].
    rewrite simple_requestDivorce_eq. cbv zeta. rewrite Hm2.
    cbn [isActive spouse1Hash spouse2Hash msg_sender negb].
    fold aliceWord. rewrite Z.eqb_refl. cbn [orb negb].
    by rewrite (proj1 (Hvalid s2 eq_refl)). }
  set (s3 := requestDivorce_post {| msg_sender := alice; block_timestamp := t3 |} M s2).
  assert (rd (personToMarriage s3) aliceWord = 0 ∧ rd (personToMarriage s3) bobWord = 0)
    as (Hja & Hjb).
  { subst s3. unfold requestDivorce_post. cbv zeta. rewrite Hm2.
    cbn [personToMarriage spouse1Hash spouse2Hash]. split; [|apply rd_insert_eq].
    rewrite rd_insert. destruct (decide (bobWord = aliceWord)); [done|].
    apply rd_insert_eq. }
  assert (isActive (rd (marriages s3) M) = false) as Hm3
    by (subst s3; cbn; by rewrite rd_insert_eq).
  assert (emitted s3
          = [OwnershipTransferred 0 this;
             MarriageProposed proposalId aliceWord bobWord;
             MarriageCreated M aliceWord bobWord;
             DivorceRequested M aliceWord; MarriageDissolved M]) as Hlog.
  { subst s3 s2. unfold requestDivorce_post, acceptMarriage_post. cbv zeta.
    rewrite HM, Hp1. reflexivity. }
  split; [exact Hp1|].
  split; [by rewrite Hm2|].
  unfold getMarriageStatus. cbv zeta. fold aliceWord bobWord.
  rewrite Hia, Hib, Hja, Hjb, Hm2. cbn [isActive Z.eqb negb andb].
  rewrite andb_true_r.
  do 2 (split; [reflexivity|]).
  split; [exact Hm3|].
  do 2 (split; [reflexivity|]).
  exact Hlog.
Qed.

End WithHash.
End SimpleExtras.

(** ** RealZKPassportService.canMarry: when a couple is eligible *)

Module ServiceExtras.
Import ZKPassportService.

Lemma not_flag_false (x : option bool) : not_flag x = false ↔ x = Some true.
Proof. destruct x as [[]|]; cbn; split; congruence. Qed.

Lemma nationality_allowed (allowed : list string) (x : option string) :
  not_string x || not_included allowed x = false
  ↔ ∃ c, x = Some c ∧ c ≠ EmptyString ∧ c ∈ allowed.
Proof.
  destruct x as [c|]; cbn [not_string not_included].
  - rewrite orb_false_iff, negb_false_iff, bool_decide_eq_false, bool_decide_eq_true.
    split.
    + intros (Hne & Hin). by exists c.
    + intros (c' & [= <-] & Hne & Hin). by split.
  - split; [discriminate|]. intros (c & H & _). discriminate H.
Qed.

Lemma push_if_nil (b : bool) (l : list string) (r : string) :
  (if b then l ++ [r] else l) = [] ↔ b = false ∧ l = [].
Proof.
  destruct b.
  - split; [|intros (H & _); discriminate H]. intros H. by destruct l.
  - by split; [|intros (_ & ->)].
Qed.

(** X23.  [canMarry] answers true exactly when it gives no reason, and that
    is exactly when: both proofs are valid; both carry a true [ageOver21]
    flag if the minimum age (18 when not given) is at least 21, and a true
    [ageOver18] flag if it is 18, 19 or 20, while below 18 no age flag is
    looked at; if a non-empty list of allowed countries is given, both
    nationalities are present, non-empty and on the list; both carry a true
    [documentValid] flag; and the two nullifiers differ, two proofs without
    a nullifier counting as the same person. *)
Theorem X23_canMarry_characterisation proof1 proof2 jurisdiction :
  let limit := default 18 (minAge jurisdiction) in
  let allowed := default [] (allowedCountries jurisdiction) in
  (canMarry_result (canMarry proof1 proof2 jurisdiction) = true
   ↔ reasons (canMarry proof1 proof2 jurisdiction) = [])
  ∧ (canMarry_result (canMarry proof1 proof2 jurisdiction) = true
     ↔ isValid proof1 = true ∧ isValid proof2 = true
       ∧ (21 ≤ limit → ageOver21 proof1 = Some true ∧ ageOver21 proof2 = Some true)
       ∧ (18 ≤ limit < 21 →
          ageOver18 proof1 = Some true ∧ ageOver18 proof2 = Some true)
       ∧ (allowed ≠ [] →
          ∀ x, x = nationality proof1 ∨ x = nationality proof2 →
               ∃ c, x = Some c ∧ c ≠ EmptyString ∧ c ∈ allowed)
       ∧ documentValid proof1 = Some true ∧ documentValid proof2 = Some true
       ∧ nullifier proof1 ≠ nullifier proof2).
Proof.
  cbv zeta.
  assert (canMarry_result (canMarry proof1 proof2 jurisdiction) = true
          ↔ reasons (canMarry proof1 proof2 jurisdiction) = []) as Hres.
  { unfold canMarry.
    destruct (negb (isValid proof1) || negb (isValid proof2)); [done|].
    cbv zeta. cbn [canMarry_result reasons]. rewrite Nat.eqb_eq.
    apply length_zero_iff_nil. }
  split; [exact Hres|]. rewrite Hres. clear Hres.
  unfold canMarry.
  destruct (isValid proof1); cbn [negb orb];
    [|split; [discriminate|intros (H & _); discriminate H]].
  destruct (isValid proof2); cbn [negb orb];
    [|split; [discriminate|intros (_ & H & _); discriminate H]].
  cbv zeta. cbn [reasons].
  rewrite !push_if_nil, bool_decide_eq_false, orb_false_iff, !not_flag_false.
  set (limit := default 18 (minAge jurisdiction)).
  set (allowed := default [] (allowedCountries jurisdiction)).
  assert ((if limit >=? 21
           then if not_flag (ageOver21 proof1) || not_flag (ageOver21 proof2)
                then [] ++ ["Both parties must be over 21 years old"%string] else []
           else if limit >=? 18
                then if not_flag (ageOver18 proof1) || not_flag (ageOver18 proof2)
                     then [] ++ ["Both parties must be over 18 years old"%string]
                     else []
                else []) = []
          ↔ (21 ≤ limit → ageOver21 proof1 = Some true ∧ ageOver21 proof2 = Some true)
            ∧ (18 ≤ limit < 21 →
               ageOver18 proof1 = Some true ∧ ageOver18 proof2 = Some true)) as Hage.
  { destruct (Z.geb_spec limit 21) as [H21|H21].
    - rewrite push_if_nil, orb_false_iff, !not_flag_false.
      split; [intros (H & _); split; [done|lia]|intros (H & _); split; [auto|done]].
    - destruct (Z.geb_spec limit 18) as [H18|H18].
      + rewrite push_if_nil, orb_false_iff, !not_flag_false.
        split; [intros (H & _); split; [lia|done]|].
        intros (_ & H). split; [apply H; lia|done].
      + split; [intros _; split; lia|done]. }
  destruct allowed as [|c0 allowed'] eqn:Hallowed; cbn [length Nat.ltb Nat.leb].
  - rewrite Hage. split.
    + intros (Hnull & (Hdoc1 & Hdoc2) & H21 & H18).
      do 2 (split; [reflexivity|]). split; [exact H21|]. split; [exact H18|].
      split; [intros Hne; by destruct Hne|]. by repeat split.
    + intros (_ & _ & H21 & H18 & _ & Hdoc1 & Hdoc2 & Hnull).
      split; [exact Hnull|]. split; [by split|]. by split.
  - rewrite !push_if_nil, !nationality_allowed, Hage. split.
    + intros (Hnull & (Hdoc1 & Hdoc2) & Hn2 & Hn1 & H21 & H18).
      do 2 (split; [reflexivity|]). split; [exact H21|]. split; [exact H18|].
      split; [by intros _ x [-> | ->]|]. by repeat split.
    + intros (_ & _ & H21 & H18 & Hnat & Hdoc1 & Hdoc2 & Hnull).
      split; [exact Hnull|]. split; [by split|].
      split; [apply Hnat; [done|by right]|].
      split; [apply Hnat; [done|by left]|]. by split.
Qed.
End ServiceExtras.

(** ** The extra properties at concrete transactions *)

Module RealWitnesses.
Import RealMarriageRegistry MappingFacts Observation Scenarios MoreScenarios.

Abbreviation K := Keccak.keccak256.

Lemma X1_witness_acceptance_of_bob :
  acceptMarriage K (at_time relayer 1003) 1 0xC1 alice_proposed_to_bob
  = Ok tt alice_accepted_bob
  ∧ getMarriage alice_accepted_bob
      (marriageIdOf K (at_time relayer 1003) (rd (proposals alice_proposed_to_bob) 1))
    = (alice, bob, 1003, true, "default"%string)
  ∧ isNullifierUsed alice_accepted_bob alice = true
  ∧ isNullifierUsed alice_accepted_bob bob = true.
Proof.
  assert (acceptMarriage K (at_time relayer 1003) 1 0xC1 alice_proposed_to_bob
          = Ok tt alice_accepted_bob) as Hok by (vm_compute; reflexivity).
  destruct (RealExtras.X1_accepted_marriage_reads_back K (at_time relayer 1003) 1
              0xC1 alice_proposed_to_bob alice_accepted_bob Hok)
    as (_ & Hget & _ & Hu1 & Hu2).
  exact (conj Hok (conj Hget (conj Hu1 Hu2))).
Defined.

Lemma X2_witness_marriage_of_10_and_11 :
  createMarriage K (at_time relayer 1001) 1 10 11 0 0 genesis = Ok tt married_10_11
  ∧ getMarriage married_10_11 1 = (10, 11, 1001, true, "default"%string)
  ∧ getMarriageStatusByNullifier married_10_11 11 = (true, 1, 1001).
Proof.
  assert (createMarriage K (at_time relayer 1001) 1 10 11 0 0 genesis
          = Ok tt married_10_11) as Hok by (vm_compute; reflexivity).
  destruct (RealExtras.X2_created_marriage_reads_back K (at_time relayer 1001) 1 10
              11 0 0 genesis married_10_11 Hok) as (_ & Hget & Hstatus & _).
  exact (conj Hok (conj Hget (Hstatus 11 (or_intror eq_refl)))).
Defined.

Lemma X3_witness_divorce_of_10_and_11 :
  requestDivorce (at_time relayer 1005) 1 10 married_10_11 = Ok tt divorced_10_11
  ∧ (∀ h r, verifyMarriageCertificate divorced_10_11 1 h r = false)
  ∧ getMarriageStatusByNullifier divorced_10_11 10 = (false, 0, 0)
  ∧ getMarriageStatusByNullifier divorced_10_11 11 = (false, 0, 0)
  ∧ isNullifierUsed divorced_10_11 10 = true.
Proof.
  assert (requestDivorce (at_time relayer 1005) 1 10 married_10_11
          = Ok tt divorced_10_11) as Hok by (vm_compute; reflexivity).
  destruct (RealExtras.X3_dissolved_marriage_reads_back (at_time relayer 1005) 1 10
              married_10_11 divorced_10_11 Hok) as (Hcert & _ & Hs1 & Hs2 & Hused).
  refine (conj Hok (conj Hcert (conj Hs1 (conj Hs2 _)))).
  rewrite (Hused 10). vm_compute. reflexivity.
Defined.

Lemma X4_witness_second_proposal_of_alice_and_bob :
  createMarriageProposal K (at_time relayer 1001) 1 alice bob 0 5000 "default"
    alice_proof bob_proof genesis = Ok tt alice_proposed_to_bob
  ∧ proposerNullifier (rd (proposals alice_proposed_to_bob) 2) = 0
  ∧ usedNullifiers alice_proposed_to_bob = usedNullifiers genesis
  ∧ createMarriageProposal K (at_time relayer 1002) 2 alice bob 0 6000 "default"
      alice_proof bob_proof alice_proposed_to_bob
    = Ok tt (createMarriageProposal_post (at_time relayer 1002) 2 alice bob 0 6000
               "default" alice_proposed_to_bob).
Proof.
  assert (createMarriageProposal K (at_time relayer 1001) 1 alice bob 0 5000
            "default" alice_proof bob_proof genesis = Ok tt alice_proposed_to_bob)
    as Hok by (vm_compute; reflexivity).
  assert (proposerNullifier (rd (proposals alice_proposed_to_bob) 2) = 0) as Hfree
    by (vm_compute; reflexivity).
  destruct (RealExtras.X4_pending_proposal_consumes_nothing K (at_time relayer 1001)
              1 alice bob 0 5000 "default" alice_proof bob_proof genesis
              alice_proposed_to_bob Hok) as (_ & _ & Hused & Hagain).
  exact (conj Hok (conj Hfree (conj Hused
           (Hagain (at_time relayer 1002) 2 0 6000 "default"%string Hfree)))).
Defined.

Lemma X5_witness_proposal_of_alice_to_bob :
  proposerNullifier (rd (proposals alice_proposed_to_bob) 1) ≠ 0
  ∧ (isAccepted (rd (proposals alice_proposed_to_bob) 1) = false
     ∧ rd (proposals (run K [accept_alice_bob] alice_proposed_to_bob)) 1
       = with_isAccepted true (rd (proposals alice_proposed_to_bob) 1))
  ∧ ∃ e, createMarriageProposal K (at_time relayer 2000) 1 carol bob 0 9000
           "default" carol_proof bob_proof
           (run K [accept_alice_bob] alice_proposed_to_bob)
         = Revert e (run K [accept_alice_bob] alice_proposed_to_bob).
Proof.
  assert (proposerNullifier (rd (proposals alice_proposed_to_bob) 1) ≠ 0) as Hex
    by (vm_compute; discriminate).
  destruct (RealExtras.X5_stored_proposal_is_permanent K alice_proposed_to_bob 1
              [accept_alice_bob] Hex) as (Hchange & _ & Hdup).
  refine (conj Hex (conj _ (Hdup (at_time relayer 2000) carol bob 0 9000
                              "default"%string carol_proof bob_proof))).
  split; vm_compute; reflexivity.
Defined.

Lemma X6_witness_second_acceptance_of_bob :
  acceptMarriage K (at_time relayer 1003) 1 0xC1 alice_proposed_to_bob
  = Ok tt alice_accepted_bob
  ∧ acceptMarriage K (at_time relayer 1010) 1 0xC2
      (run K [(at_time relayer 1006, CreateMarriage 7 10 11 0 0)] alice_accepted_bob)
    = Revert (ErrorString "Already accepted")
        (run K [(at_time relayer 1006, CreateMarriage 7 10 11 0 0)] alice_accepted_bob)
  ∧ acceptMarriage K (at_time relayer 5001) 1 0xC2
      (run K [(at_time relayer 1006, CreateMarriage 7 10 11 0 0)] alice_accepted_bob)
    = Revert ProposalExpired
        (run K [(at_time relayer 1006, CreateMarriage 7 10 11 0 0)] alice_accepted_bob).
Proof.
  assert (acceptMarriage K (at_time relayer 1003) 1 0xC1 alice_proposed_to_bob
          = Ok tt alice_accepted_bob) as Hok by (vm_compute; reflexivity).
  exact (conj Hok
           (conj (RealExtras.X6_proposal_accepted_at_most_once K
                    (at_time relayer 1003) 1 0xC1 alice_proposed_to_bob
                    alice_accepted_bob
                    [(at_time relayer 1006, CreateMarriage 7 10 11 0 0)] Hok
                    (at_time relayer 1010) 0xC2)
                 (RealExtras.X6_proposal_accepted_at_most_once K
                    (at_time relayer 1003) 1 0xC1 alice_proposed_to_bob
                    alice_accepted_bob
                    [(at_time relayer 1006, CreateMarriage 7 10 11 0 0)] Hok
                    (at_time relayer 5001) 0xC2))).
Defined.

Lemma X8_witness_divorce_under_another_verifier :
  (∀ v', RequestDivorce 1 10 ≠ UpdateZKPassportVerifier v')
  ∧ dispatch K (at_time relayer 1005) (RequestDivorce 1 10)
      (set_zkPassportVerifier 0xBEEF married_10_11)
    = map_storage (set_zkPassportVerifier 0xBEEF)
        (dispatch K (at_time relayer 1005) (RequestDivorce 1 10) married_10_11).
Proof.
  assert (∀ v', RequestDivorce 1 10 ≠ UpdateZKPassportVerifier v') as Hc
    by (intros v' H; discriminate H).
  exact (conj Hc (RealExtras.X8_verifier_address_is_never_consulted K
                    (at_time relayer 1005) (RequestDivorce 1 10) married_10_11
                    0xBEEF Hc)).
Defined.

Lemma X10_witness_married_10 :
  reachable K married_10_11
  ∧ rd (nullifierToMarriage married_10_11) 10 ≠ 0
  ∧ isNullifierUsed married_10_11 10 = true.
Proof.
  assert (reachable K married_10_11) as Hs.
  { exact (reachable_step K genesis (at_time relayer 1001, CreateMarriage 1 10 11 0 0)
             (reachable_deployed K (at_time deployer 1000)
                0x1234567890123456789012345678901234567890)). }
  assert (rd (nullifierToMarriage married_10_11) 10 ≠ 0) as Hidx
    by (vm_compute; discriminate).
  exact (conj Hs (conj Hidx
           (proj1 (proj2 (RealExtras.X10_married_nullifiers_are_used K married_10_11
                            10 Hs)) Hidx))).
Defined.

Lemma X11_witness_married_10_11 :
  reachable K married_10_11
  ∧ (∀ env mid a b h1 h2 s',
       createMarriage K env mid a b h1 h2 married_10_11 ≠ Revert AlreadyMarried s').
Proof.
  assert (reachable K married_10_11) as Hs.
  { exact (reachable_step K genesis (at_time relayer 1001, CreateMarriage 1 10 11 0 0)
             (reachable_deployed K (at_time deployer 1000)
                0x1234567890123456789012345678901234567890)). }
  exact (conj Hs (proj1 (RealExtras.X11_AlreadyMarried_is_never_raised K
                           married_10_11 Hs))).
Defined.

Lemma X12_witness_10_after_divorce :
  isNullifierUsed married_10_11 10 = true
  ∧ (10 = 10 ∨ 12 = 10)
  ∧ createMarriage K (at_time relayer 1009) 2 10 12 0 0 (run K [divorce_10] married_10_11)
    = Revert NullifierAlreadyUsed (run K [divorce_10] married_10_11).
Proof.
  assert (isNullifierUsed married_10_11 10 = true) as Hused
    by (vm_compute; reflexivity).
  assert (10 = 10 ∨ 12 = 10) as Hab by (left; reflexivity).
  exact (conj Hused (conj Hab
           (RealExtras.X12_consumed_nullifier_cannot_be_married_directly K
              married_10_11 10 [divorce_10] Hused (at_time relayer 1009) 2 10 12 0 0
              Hab))).
Defined.

Lemma X13_witness_10_stranded_by_20_and_21 :
  (createMarriage K (at_time 0xBAD 1002) 1 20 21 0 0 married_10_11
   = Ok tt married_20_21
   ∧ rd (nullifierToMarriage married_10_11) 10 = 1
   ∧ 1 ≠ 0 ∧ 10 ≠ 20 ∧ 10 ≠ 21)
  ∧ getMarriageStatusByNullifier married_20_21 10 = (true, 1, 1002)
  ∧ (∀ h, verifyMarriageCertificate married_20_21 1 h 10 = false)
  ∧ (∀ env', requestDivorce env' 1 10 married_20_21
             = Revert NotAuthorized married_20_21).
Proof.
  assert (createMarriage K (at_time 0xBAD 1002) 1 20 21 0 0 married_10_11
          = Ok tt married_20_21) as Hok by (vm_compute; reflexivity).
  assert (rd (nullifierToMarriage married_10_11) 10 = 1) as Hidx
    by (vm_compute; reflexivity).
  assert (1 ≠ 0) as Hnz by lia.
  assert (10 ≠ 20) as Ha by lia.
  assert (10 ≠ 21) as Hb by lia.
  exact (conj (conj Hok (conj Hidx (conj Hnz (conj Ha Hb))))
           (RealExtras.X13_reused_marriage_id_strands_old_spouse K
              (at_time 0xBAD 1002) 1 20 21 0 0 married_10_11 married_20_21 10
              Hok Hidx Hnz Ha Hb)).
Defined.
End RealWitnesses.

Module FixtureWitnesses.
Import MarriageRegistry MappingFacts FixtureScenarios.

Abbreviation K := Keccak.keccak256.

Lemma X14_witness_proposal_1_is_taken :
  (proposeMarriage K (at_time alice 1001) 1 (Abi.address_to_bytes32 bob) 7 alice_path
     fixture = Ok tt proposed_to_bob
   ∧ Abi.address_to_bytes32 alice ≠ 0)
  ∧ proposeMarriage K (at_time charlie 1010) 1 (Abi.address_to_bytes32 alice) 9
      charlie_path (run K [propose_to_charlie; bob_accepts] proposed_to_bob)
    = Revert (ErrorString "Proposal already exists")
        (run K [propose_to_charlie; bob_accepts] proposed_to_bob).
Proof.
  assert (proposeMarriage K (at_time alice 1001) 1 (Abi.address_to_bytes32 bob) 7
            alice_path fixture = Ok tt proposed_to_bob) as Hok
    by (vm_compute; reflexivity).
  assert (Abi.address_to_bytes32 alice ≠ 0) as Hsender by (vm_compute; discriminate).
  exact (conj (conj Hok Hsender)
           (SimpleExtras.X14_proposal_id_cannot_be_reused K (at_time alice 1001) 1
              (Abi.address_to_bytes32 bob) 7 alice_path fixture proposed_to_bob
              [propose_to_charlie; bob_accepts] Hok Hsender
              (at_time charlie 1010) (Abi.address_to_bytes32 alice) 9 charlie_path)).
Defined.

Lemma X15_witness_bob_accepts_twice :
  (acceptMarriage K (at_time bob 1003) 1 bob_path proposed_to_both
   = Ok tt married_to_bob
   ∧ proposer (rd (proposals proposed_to_both) 1) ≠ 0)
  ∧ acceptMarriage K (at_time bob 1010) 1 bob_path (run K [alice_divorces] married_to_bob)
    = Revert (ErrorString "Already accepted") (run K [alice_divorces] married_to_bob)
  ∧ acceptMarriage K (at_time charlie 1010) 1 charlie_path
      (run K [alice_divorces] married_to_bob)
    = Revert (ErrorString "Not the proposee") (run K [alice_divorces] married_to_bob).
Proof.
  assert (acceptMarriage K (at_time bob 1003) 1 bob_path proposed_to_both
          = Ok tt married_to_bob) as Hok by (vm_compute; reflexivity).
  assert (proposer (rd (proposals proposed_to_both) 1) ≠ 0) as Hex
    by (vm_compute; discriminate).
  exact (conj (conj Hok Hex)
           (conj (SimpleExtras.X15_simple_proposal_accepted_at_most_once K
                    (at_time bob 1003) 1 bob_path proposed_to_both married_to_bob
                    [alice_divorces] Hok Hex (at_time bob 1010) bob_path)
                 (SimpleExtras.X15_simple_proposal_accepted_at_most_once K
                    (at_time bob 1003) 1 bob_path proposed_to_both married_to_bob
                    [alice_divorces] Hok Hex (at_time charlie 1010) charlie_path))).
Defined.

Lemma X16_witness_marriage_of_alice_and_bob :
  acceptMarriage K (at_time bob 1003) 1 bob_path proposed_to_both
  = Ok tt married_to_bob
  ∧ isAccepted (rd (proposals married_to_bob) 1) = true
  ∧ getMarriageStatus married_to_bob alice = (true, marriage_with_bob)
  ∧ getMarriageStatus married_to_bob bob = (true, marriage_with_bob).
Proof.
  assert (acceptMarriage K (at_time bob 1003) 1 bob_path proposed_to_both
          = Ok tt married_to_bob) as Hok by (vm_compute; reflexivity).
  assert (marriageIdOf K (at_time bob 1003) (rd (proposals proposed_to_both) 1)
          = marriage_with_bob) as Hid by (vm_compute; reflexivity).
  destruct (SimpleExtras.X16_simple_accepted_marriage_reads_back K (at_time bob 1003)
              1 bob_path proposed_to_both married_to_bob Hok)
    as (_ & Hacc & Hstatus).
  pose proof (Hstatus alice (or_introl eq_refl)) as Ha.
  pose proof (Hstatus bob (or_intror eq_refl)) as Hb.
  rewrite Hid in Ha, Hb.
  exact (conj Hok (conj Hacc (conj Ha Hb))).
Defined.

Lemma X17_witness_bob_after_the_divorce :
  (requestDivorce K (at_time alice 1005) marriage_with_bob alice_path married_to_bob
   = Ok tt divorced_from_bob
   ∧ (Abi.address_to_bytes32 bob
        = spouse1Hash (rd (marriages married_to_bob) marriage_with_bob)
      ∨ Abi.address_to_bytes32 bob
        = spouse2Hash (rd (marriages married_to_bob) marriage_with_bob)))
  ∧ getMarriageStatus divorced_from_bob bob = (false, 0)
  ∧ proposeMarriage K (at_time bob 1006) 3 (Abi.address_to_bytes32 charlie) 9 bob_path
      divorced_from_bob
    = Ok tt (proposeMarriage_post (at_time bob 1006) 3 (Abi.address_to_bytes32 charlie)
               9 divorced_from_bob).
Proof.
  assert (requestDivorce K (at_time alice 1005) marriage_with_bob alice_path
            married_to_bob = Ok tt divorced_from_bob) as Hok
    by (vm_compute; reflexivity).
  assert (Abi.address_to_bytes32 bob
            = spouse1Hash (rd (marriages married_to_bob) marriage_with_bob)
          ∨ Abi.address_to_bytes32 bob
            = spouse2Hash (rd (marriages married_to_bob) marriage_with_bob)) as Hsp
    by (right; vm_compute; reflexivity).
  assert (proposer (rd (proposals divorced_from_bob) 3) = 0) as Hfree
    by (vm_compute; reflexivity).
  assert (passport_valid K divorced_from_bob bob bob_path = true) as Hvalid
    by (vm_compute; reflexivity).
  destruct (SimpleExtras.X17_simple_divorce_frees_both_spouses K (at_time alice 1005)
              marriage_with_bob alice_path married_to_bob divorced_from_bob Hok
              bob Hsp) as (Hstatus & Hagain).
  exact (conj (conj Hok Hsp)
           (conj Hstatus
              (Hagain 1006 3 (Abi.address_to_bytes32 charlie) 9 bob_path Hfree
                 Hvalid))).
Defined.


Lemma X19_witness_charlie_accepts_married_alice :
  (acceptMarriage K (at_time charlie 1004) 2 charlie_path married_to_bob
   = Ok tt married_to_both
   ∧ rd (personToMarriage married_to_bob) (proposer (rd (proposals married_to_bob) 2))
     ≠ 0
   ∧ rd (personToMarriage married_to_bob) (proposer (rd (proposals married_to_bob) 2))
     ≠ marriageIdOf K (at_time charlie 1004) (rd (proposals married_to_bob) 2)
   ∧ proposer (rd (proposals married_to_bob) 2)
     ≠ proposee (rd (proposals married_to_bob) 2))
  ∧ rd (marriages married_to_both) marriage_with_bob
    = rd (marriages married_to_bob) marriage_with_bob
  ∧ isActive (rd (marriages married_to_both) marriage_with_bob) = true
  ∧ getMarriageStatus married_to_both bob = (true, marriage_with_bob)
  ∧ rd (personToMarriage married_to_both) (Abi.address_to_bytes32 alice)
    = marriageIdOf K (at_time charlie 1004) (rd (proposals married_to_bob) 2).
Proof.
  assert (acceptMarriage K (at_time charlie 1004) 2 charlie_path married_to_bob
          = Ok tt married_to_both) as Hok by (vm_compute; reflexivity).
  assert (rd (personToMarriage married_to_bob)
             (proposer (rd (proposals married_to_bob) 2)) ≠ 0) as Hprev
    by (vm_compute; discriminate).
  assert (rd (personToMarriage married_to_bob)
             (proposer (rd (proposals married_to_bob) 2))
          ≠ marriageIdOf K (at_time charlie 1004) (rd (proposals married_to_bob) 2))
    as Hne by (vm_compute; discriminate).
  assert (proposer (rd (proposals married_to_bob) 2)
          ≠ proposee (rd (proposals married_to_bob) 2)) as Hpp
    by (vm_compute; discriminate).
  destruct (SimpleExtras.X19_simple_acceptance_ignores_proposer_status K
              (at_time charlie 1004) 2 charlie_path married_to_bob married_to_both
              Hok Hprev Hne Hpp) as (Hkept & Hidx & _).
  refine (conj (conj Hok (conj Hprev (conj Hne Hpp))) (conj Hkept (conj _ (conj _ Hidx)))).
  - vm_compute. reflexivity.
  - vm_compute. reflexivity.
Defined.
End FixtureWitnesses.
